(** * Vendora backend: order ledger, checkout and payment webhook

    A shallow embedding of the order model (models/Order.js, its pre-save
    hook), the product model (models/Product.js) and the order controller
    (controllers/orderController.js: createOrder, updateOrderStatus,
    stripeWebhook), with the properties the specification states about
    them.

    JavaScript numbers are IEEE 754 binary64 values; they are modelled
    bit-exactly with the standard library's [spec_float] operations at
    precision 53 and maximal exponent 1024. *)

From Stdlib Require Import ZArith Bool List Lia.
From Stdlib Require Import Floats.SpecFloat.
From stdpp Require Import gmap strings list fin_maps.

Local Open Scope Z_scope.

(* ===================================================================== *)
(** ** JavaScript numbers *)
(* ===================================================================== *)

Module JsNumber.

(** A JS Number: binary64. *)
Definition number := spec_float.

Definition prec : Z := 53.
Definition emax : Z := 1024.

Definition add : number -> number -> number := SFadd prec emax.
Definition sub : number -> number -> number := SFsub prec emax.
Definition mul : number -> number -> number := SFmul prec emax.
Definition div : number -> number -> number := SFdiv prec emax.
Definition ltb : number -> number -> bool := SFltb.
Definition eqb : number -> number -> bool := SFeqb.

Definition NaN : number := S754_nan.
Definition zero : number := S754_zero false.

(** An integer as a Number (correctly rounded when it needs more than 53
    bits). *)
Definition of_Z (n : Z) : number := binary_normalize prec emax n 0 false.

(** The Number a decimal literal [n / 10^k] denotes: the binary64 value
    nearest to the quotient, ties to even.  [dec 9999 2] is the literal
    [99.99]. *)
Definition dec (n : Z) (k : nat) : number :=
  match n with
  | Z0 => zero
  | Zpos p => div (S754_finite false p 0) (S754_finite false (Z.to_pos (10 ^ Z.of_nat k)) 0)
  | Zneg p => div (S754_finite true p 0) (S754_finite false (Z.to_pos (10 ^ Z.of_nat k)) 0)
  end.

(** ToBoolean on a Number: [0], [-0] and [NaN] are falsy. *)
Definition truthy (x : number) : bool :=
  match x with
  | S754_zero _ | S754_nan => false
  | _ => true
  end.

(** [a || b] on Numbers. *)
Definition or_else (a b : number) : number := if truthy a then a else b.

(** The integer [floor (m * 2^e * c + 1/2)] for a positive mantissa [m]:
    the integer nearest to the exact product, the larger one on a tie. *)
Definition nearest_scaled (c : Z) (m : positive) (e : Z) : Z :=
  match e with
  | Zneg p => (2 * c * Zpos m + 2 ^ Zpos p) / (2 * 2 ^ Zpos p)
  | _ => c * Zpos m * 2 ^ e
  end.

(** The text [Number.prototype.toFixed(2)] returns, by its shape. *)
Inductive fixed_text :=
| TextNaN                              (* "NaN" *)
| TextInfinity (neg : bool)            (* "Infinity", "-Infinity" *)
| TextFixed (neg : bool) (n : Z)       (* sign, then n / 100 with two decimals *)
| TextToString (x : number).           (* Number::toString(x), for |x| >= 10^21 *)

Definition at_least_1e21 (m : positive) (e : Z) : bool :=
  match e with
  | Zneg p => 10 ^ 21 * 2 ^ Zpos p <=? Zpos m
  | _ => 10 ^ 21 <=? Zpos m * 2 ^ e
  end.

(** [x.toFixed(2)]: not finite gives the name; below zero the sign is
    kept and the magnitude is rounded; from 10^21 on the general number
    text is used; otherwise [n] is the integer with [n / 100 - x] closest
    to zero, the larger [n] on a tie. *)
Definition toFixed2 (x : number) : fixed_text :=
  match x with
  | S754_nan => TextNaN
  | S754_infinity s => TextInfinity s
  | S754_zero _ => TextFixed false 0
  | S754_finite s m e =>
      if at_least_1e21 m e then TextToString x
      else TextFixed s (nearest_scaled 100 m e)
  end.

(** [parseFloat] on those texts: the nearest binary64 value; the general
    number text reads back as the number it was printed from. *)
Definition parseFloat (t : fixed_text) : number :=
  match t with
  | TextNaN => NaN
  | TextInfinity s => S754_infinity s
  | TextToString x => x
  | TextFixed s n =>
      match n with
      | Zpos p => div (S754_finite s p 0) (S754_finite false 100 0)
      | _ => S754_zero s
      end
  end.

(** [parseFloat(x.toFixed(2))] *)
Definition round2 (x : number) : number := parseFloat (toFixed2 x).

(** [Math.round(x)] as an integer: [floor (x + 1/2)]; [None] when [x] is
    [NaN] or infinite (the result is then not an integer). *)
Definition Math_round (x : number) : option Z :=
  match x with
  | S754_zero _ => Some 0
  | S754_finite false m e => Some (nearest_scaled 1 m e)
  | S754_finite true m e =>
      (* floor (1/2 - m 2^e) *)
      Some (match e with
            | Zneg p => (2 ^ Zpos p - 2 * Zpos m) / (2 * 2 ^ Zpos p)
            | _ => - (Zpos m * 2 ^ e)
            end)
  | _ => None
  end.

(** [l.reduce((a, x) => a + x, 0)]: the left-to-right sum from [0]. *)
Definition sum (l : list number) : number := fold_left add l zero.

End JsNumber.

Import JsNumber.

(* ===================================================================== *)
(** ** Documents: models/Product.js and models/Order.js *)
(* ===================================================================== *)

Definition ObjectId := string.
(** A [Date], as milliseconds since the epoch. *)
Definition Date := Z.

(** [process.env], the part the order code reads. *)
Record Env := {
  PLATFORM_COMMISSION_RATE : number;      (* parseFloat of the variable: NaN when unset *)
  STRIPE_WEBHOOK_SECRET : option string
}.

Module Product.
Record t := {
  _id : ObjectId;
  name : string;
  price : number;
  images : list string;
  stock : Z;
  vendorId : ObjectId;
  isActive : bool
}.

Definition set_stock (n : Z) (p : t) : t :=
  {| _id := _id p; name := name p; price := price p; images := images p;
     stock := n; vendorId := vendorId p; isActive := isActive p |}.

(** The update [{ $inc: { stock: d } }]. *)
Definition inc_stock (d : Z) (p : t) : t := set_stock (stock p + d) p.

(** The schema's bound on [stock]: [min: [0, 'Stock cannot be negative']]. *)
Definition stock_min_ok (p : t) : bool := 0 <=? stock p.
End Product.

Module OrderItem.
Record t := {
  product : ObjectId;
  vendorId : ObjectId;
  name : string;
  image : option string;        (* images[0] is undefined on an empty array *)
  price : number;
  qty : Z;
  itemRevenue : number;
  platformFee : number;
  vendorPayout : number;
  itemStatus : string
}.

(** [{ ...item, itemRevenue, platformFee, vendorPayout }] *)
Definition with_money (item : t) (rev fee payout : number) : t :=
  {| product := product item; vendorId := vendorId item; name := name item;
     image := image item; price := price item; qty := qty item;
     itemRevenue := rev; platformFee := fee; vendorPayout := payout;
     itemStatus := itemStatus item |}.

Definition ITEM_STATUSES : list string :=
  ["Pending"; "Processing"; "Shipped"; "Delivered"; "Cancelled"]%string.

(** orderItemSchema: the required paths, [qty]'s [min: 1], the enum. *)
Definition valid (item : t) : bool :=
  negb (String.eqb (name item) EmptyString)
  && match image item with Some s => negb (String.eqb s EmptyString) | None => false end
  && (1 <=? qty item)
  && bool_decide (itemStatus item ∈ ITEM_STATUSES).
End OrderItem.

Module ShippingAddress.
Record t := {
  fullName : string;
  phone : string;
  street : string;
  city : string;
  province : string;
  zip : option string;
  country : string
}.

Definition nonempty (s : string) : bool := negb (String.eqb s EmptyString).

Definition valid (a : t) : bool :=
  nonempty (fullName a) && nonempty (phone a) && nonempty (street a)
  && nonempty (city a) && nonempty (province a).
End ShippingAddress.

Module Order.
Record t := {
  _id : ObjectId;
  customer : ObjectId;
  items : list OrderItem.t;
  shippingAddress : option ShippingAddress.t;
  subtotal : number;
  platformFeeTotal : number;
  shippingCost : number;
  total : number;
  commissionRate : number;
  paymentMethod : string;
  stripeSessionId : option string;
  stripePaymentIntentId : option string;
  status : string;
  isPaid : bool;
  paidAt : option Date;
  isDelivered : bool;
  deliveredAt : option Date;
  notes : option string
}.

Definition STATUSES : list string :=
  ["Pending"; "Paid"; "Processing"; "Shipped"; "Delivered"; "Cancelled"; "Refunded"]%string.

(** orderSchema's validation: the [items] validator ([arr.length >= 1])
    and each item's schema, the required address, the [status] enum and
    the [notes] length.  The required Numbers are always present in this
    record. *)
Definition valid (o : t) : bool :=
  (1 <=? Z.of_nat (length (items o)))
  && forallb OrderItem.valid (items o)
  && match shippingAddress o with Some a => ShippingAddress.valid a | None => false end
  && bool_decide (status o ∈ STATUSES)
  && match notes o with Some s => Z.of_nat (String.length s) <=? 500 | None => true end.

(** *** The pre-save hook *)

(** The body of [this.items.map((item) => ...)]: the closure adds to the
    two running totals it captures and returns the rewritten item. *)
Definition price_item (rate : number) (item : OrderItem.t) : OrderItem.t :=
  let itemRevenue := mul (OrderItem.price item) (of_Z (OrderItem.qty item)) in
  let platformFee := round2 (mul itemRevenue rate) in
  let vendorPayout := round2 (sub itemRevenue platformFee) in
  OrderItem.with_money item itemRevenue platformFee vendorPayout.

Fixpoint map_items (rate : number) (l : list OrderItem.t) (subtotal platformFeeTotal : number)
  : list OrderItem.t * number * number :=
  match l with
  | [] => ([], subtotal, platformFeeTotal)
  | item :: rest =>
      let item' := price_item rate item in
      let subtotal := add subtotal (OrderItem.itemRevenue item') in
      let platformFeeTotal := add platformFeeTotal (OrderItem.platformFee item') in
      let '(rest', s, f) := map_items rate rest subtotal platformFeeTotal in
      (item' :: rest', s, f)
  end.

(** [this.commissionRate || parseFloat(process.env.PLATFORM_COMMISSION_RATE) || 0.10] *)
Definition effective_rate (env : Env) (o : t) : number :=
  or_else (or_else (commissionRate o) (PLATFORM_COMMISSION_RATE env)) (dec 10 2).

(** [orderSchema.pre('save', ...)] *)
Definition pre_save (env : Env) (o : t) : t :=
  let rate := effective_rate env o in
  let '(items', subtotal, platformFeeTotal) := map_items rate (items o) zero zero in
  {| _id := _id o; customer := customer o;
     items := items';
     shippingAddress := shippingAddress o;
     subtotal := round2 subtotal;
     platformFeeTotal := round2 platformFeeTotal;
     shippingCost := shippingCost o;
     total := round2 (add subtotal (or_else (shippingCost o) zero));
     commissionRate := commissionRate o;
     paymentMethod := paymentMethod o;
     stripeSessionId := stripeSessionId o;
     stripePaymentIntentId := stripePaymentIntentId o;
     status := status o; isPaid := isPaid o; paidAt := paidAt o;
     isDelivered := isDelivered o; deliveredAt := deliveredAt o;
     notes := notes o |}.

(** Field updates the controller performs on a fetched document. *)
Definition set_stripeSessionId (sid : string) (o : t) : t :=
  {| _id := _id o; customer := customer o; items := items o;
     shippingAddress := shippingAddress o; subtotal := subtotal o;
     platformFeeTotal := platformFeeTotal o; shippingCost := shippingCost o;
     total := total o; commissionRate := commissionRate o;
     paymentMethod := paymentMethod o;
     stripeSessionId := Some sid;
     stripePaymentIntentId := stripePaymentIntentId o;
     status := status o; isPaid := isPaid o; paidAt := paidAt o;
     isDelivered := isDelivered o; deliveredAt := deliveredAt o;
     notes := notes o |}.

Definition set_status (s : string) (o : t) : t :=
  {| _id := _id o; customer := customer o; items := items o;
     shippingAddress := shippingAddress o; subtotal := subtotal o;
     platformFeeTotal := platformFeeTotal o; shippingCost := shippingCost o;
     total := total o; commissionRate := commissionRate o;
     paymentMethod := paymentMethod o;
     stripeSessionId := stripeSessionId o;
     stripePaymentIntentId := stripePaymentIntentId o;
     status := s; isPaid := isPaid o; paidAt := paidAt o;
     isDelivered := isDelivered o; deliveredAt := deliveredAt o;
     notes := notes o |}.

Definition set_delivered (now : Date) (o : t) : t :=
  {| _id := _id o; customer := customer o; items := items o;
     shippingAddress := shippingAddress o; subtotal := subtotal o;
     platformFeeTotal := platformFeeTotal o; shippingCost := shippingCost o;
     total := total o; commissionRate := commissionRate o;
     paymentMethod := paymentMethod o;
     stripeSessionId := stripeSessionId o;
     stripePaymentIntentId := stripePaymentIntentId o;
     status := status o; isPaid := isPaid o; paidAt := paidAt o;
     isDelivered := true; deliveredAt := Some now;
     notes := notes o |}.

Definition set_paid (now : Date) (intent : option string) (o : t) : t :=
  {| _id := _id o; customer := customer o; items := items o;
     shippingAddress := shippingAddress o; subtotal := subtotal o;
     platformFeeTotal := platformFeeTotal o; shippingCost := shippingCost o;
     total := total o; commissionRate := commissionRate o;
     paymentMethod := paymentMethod o;
     stripeSessionId := stripeSessionId o;
     stripePaymentIntentId := intent;
     status := "Paid"%string; isPaid := true; paidAt := Some now;
     isDelivered := isDelivered o; deliveredAt := deliveredAt o;
     notes := notes o |}.
End Order.

(* ===================================================================== *)
(** ** The payment provider's client (config/stripe.js), as an interface *)
(* ===================================================================== *)

Module Stripe.
(** A checkout line: [price_data] and [quantity]. *)
Record LineItem := {
  currency : string;
  product_name : string;
  product_images : list (option string);
  unit_amount : option Z;      (* Math.round(...): an integer, or none for NaN or an infinity *)
  quantity : Z
}.

Record SessionParams := {
  payment_method_types : list string;
  line_items : list LineItem;
  mode : string;
  success_url : string;
  cancel_url : string;
  metadata_orderId : string;
  customer_email : string
}.

Record Session := { id : string; url : option string }.

(** The event envelope, the fields the webhook reads: [type] and
    [data.object.{id, payment_intent}]. *)
Record Event := {
  type : string;
  object_id : string;
  object_payment_intent : option string
}.

(** The two calls the controller makes.  Each returns its value or the
    message of the error it throws. *)
Record Client := {
  webhooks_constructEvent :
    string (* raw body *) -> option string (* stripe-signature *) ->
    option string (* secret *) -> Event + string;
  checkout_sessions_create : SessionParams -> Session + string
}.

(** What the provider charges for a session: unit amount times quantity,
    over the lines. *)
Fixpoint amount_total (l : list LineItem) : option Z :=
  match l with
  | [] => Some 0
  | li :: rest =>
      match unit_amount li, amount_total rest with
      | Some u, Some t => Some (u * quantity li + t)
      | _, _ => None
      end
  end.
End Stripe.

(* ===================================================================== *)
(** ** The persistent store and the handler monad *)
(* ===================================================================== *)

(** What the order controller reads and writes: the two collections, and
    the checkout sessions it has opened at the payment provider.  Orders
    are kept in insertion order ([findOne] returns the first match);
    products are looked up by [_id] only. *)
Record Store := {
  orders : list Order.t;
  products : gmap ObjectId Product.t;
  sessions : list Stripe.SessionParams
}.

Definition set_orders (l : list Order.t) (st : Store) : Store :=
  {| orders := l; products := products st; sessions := sessions st |}.

Definition set_products (m : gmap ObjectId Product.t) (st : Store) : Store :=
  {| orders := orders st; products := m; sessions := sessions st |}.

Definition add_session (p : Stripe.SessionParams) (st : Store) : Store :=
  {| orders := orders st; products := products st; sessions := sessions st ++ [p] |}.

(** What a request is answered with. *)
Inductive Error :=
| NoOrderItems                                  (* 'No order items provided' *)
| ProductNotFound (productId : ObjectId)        (* `Product not found: ${productId}` *)
| InsufficientStock (name : string) (left : Z)  (* `Insufficient stock for "${name}" — only ${stock} left` *)
| OrderNotFound                                 (* 'Order not found' *)
| NoVendorItems                                 (* 'Not authorised — this order contains none of your products' *)
| ValidationError                               (* Mongoose validation failed *)
| StripeError (message : string).               (* thrown by the Stripe client *)

Inductive Body :=
| Failure (e : Error)                                   (* errorHandler: { success: false, message } *)
| Created (orderId : ObjectId) (sessionUrl : option string)
| Updated (order : Order.t)
| Received                                              (* { received: true } *)
| WebhookError (message : string).                      (* `Webhook Error: ${err.message}` *)

Record Response := { statusCode : Z; body : Body }.

(** errorHandler (middleware/errorMiddleware.js) on an error thrown with
    [res.statusCode] as the handler left it: a ValidationError answers 400,
    otherwise the status set before the throw, or 500 when it is still
    200. *)
Definition errorHandler (statusCode : Z) (e : Error) : Response :=
  match e with
  | ValidationError => {| statusCode := 400; body := Failure e |}
  | _ => {| statusCode := (if statusCode =? 200 then 500 else statusCode); body := Failure e |}
  end.

(** A handler step: it runs on the store and either yields a value or ends
    the request with a response; the store is kept in both cases. *)
Definition M (A : Type) : Type := Store -> Store * (A + Response).

Definition ret {A} (a : A) : M A := fun st => (st, inl a).

Definition bind {A B} (m : M A) (k : A -> M B) : M B :=
  fun st =>
    match m st with
    | (st', inl a) => k a st'
    | (st', inr r) => (st', inr r)
    end.

(** [res.status(code); throw new Error(...)], caught by asyncHandler and
    answered by errorHandler. *)
Definition throw {A} (code : Z) (e : Error) : M A :=
  fun st => (st, inr (errorHandler code e)).

(** [return res.status(code).json(...)] *)
Definition respond {A} (code : Z) (b : Body) : M A :=
  fun st => (st, inr {| statusCode := code; body := b |}).

Declare Scope handler_scope.
Delimit Scope handler_scope with handler.
Notation "'let*' x ':=' m 'in' k" := (bind m (fun x => k))
  (at level 10, x name, m at level 100, k at level 200) : handler_scope.
Notation "'do' m 'then' k" := (bind m (fun _ => k))
  (at level 10, m at level 100, k at level 200) : handler_scope.

(** Runs a handler whose every path ends in a response. *)
Definition run (h : M Response) (st : Store) : Store * Response :=
  match h st with
  | (st', inl r) => (st', r)
  | (st', inr r) => (st', r)
  end.

(** *** Queries and writes *)

Definition Product_findById (id : ObjectId) : M (option Product.t) :=
  fun st => (st, inl (products st !! id)).

(** [Product.findByIdAndUpdate(id, { $inc: { stock: d } })]: an update
    sent to the database; the schema's validators are not run on it, and
    an unknown id changes nothing. *)
Definition Product_findByIdAndUpdate_inc_stock (id : ObjectId) (d : Z) : M unit :=
  fun st => (set_products (alter (Product.inc_stock d) id (products st)) st, inl tt).

Definition by_id (id : ObjectId) (o : Order.t) : bool := String.eqb (Order._id o) id.

Definition by_session (sid : string) (o : Order.t) : bool :=
  bool_decide (Order.stripeSessionId o = Some sid).

Definition Order_findById (id : ObjectId) : M (option Order.t) :=
  fun st => (st, inl (List.find (by_id id) (orders st))).

(** [Order.findOne({ stripeSessionId: sid })] *)
Definition Order_findOne_stripeSessionId (sid : string) : M (option Order.t) :=
  fun st => (st, inl (List.find (by_session sid) (orders st))).

(** Writing a document back: the stored document with the same [_id] is
    replaced, a new document is appended. *)
Fixpoint upsert (o : Order.t) (l : list Order.t) : list Order.t :=
  match l with
  | [] => [o]
  | x :: rest =>
      if String.eqb (Order._id x) (Order._id o) then o :: rest
      else x :: upsert o rest
  end.

(** [order.save({ validateBeforeSave })]: validation (unless switched off),
    then the pre-save hook, then the write.  The document the caller holds
    is the one the hook rewrote. *)
Definition Order_save (env : Env) (validateBeforeSave : bool) (o : Order.t) : M Order.t :=
  fun st =>
    if validateBeforeSave && negb (Order.valid o) then
      (st, inr (errorHandler 200 ValidationError))
    else
      let o' := Order.pre_save env o in
      (set_orders (upsert o' (orders st)) st, inl o').

(* ===================================================================== *)
(** ** controllers/orderController.js *)
(* ===================================================================== *)

Record User := { user_id : ObjectId; email : string; role : string }.

Record CartLine := { productId : ObjectId; cart_qty : Z }.

(** [req] of POST /api/orders: the authenticated user and the body. *)
Record CreateOrderReq := {
  co_user : User;
  co_items : list CartLine;
  co_shippingAddress : option ShippingAddress.t;
  co_shippingCost : option number        (* absent: the default 0 applies *)
}.

(** [req] of PUT /api/orders/:id/status. *)
Record UpdateStatusReq := {
  us_user : User;
  us_id : ObjectId;
  us_status : string
}.

(** [req] of POST /api/stripe/webhook: the raw body and the signature
    header. *)
Record WebhookReq := {
  wh_body : string;
  wh_signature : option string
}.

Definition CURRENCY : string := "pkr".

Fixpoint forM_ {A} (l : list A) (f : A -> M unit) : M unit :=
  match l with
  | [] => ret tt
  | x :: rest => bind (f x) (fun _ => forM_ rest f)
  end.

(** The object createOrder pushes for a checked cart line: the snapshot of
    the product, the requested quantity, and the item schema's defaults. *)
Definition snapshot (product : Product.t) (qty : Z) : OrderItem.t :=
  {| OrderItem.product := Product._id product;
     OrderItem.vendorId := Product.vendorId product;
     OrderItem.name := Product.name product;
     OrderItem.image := head (Product.images product);
     OrderItem.price := Product.price product;
     OrderItem.qty := qty;
     OrderItem.itemRevenue := zero;
     OrderItem.platformFee := zero;
     OrderItem.vendorPayout := zero;
     OrderItem.itemStatus := "Pending" |}.

Section Controller.
Variable env : Env.
(** [process.env.FRONTEND_URL || 'http://localhost:3000'] *)
Variable FRONTEND_URL : string.
Variable stripe : Stripe.Client.

Local Open Scope handler_scope.
Local Open Scope string_scope.

(** The loop of createOrder that checks each cart line against the
    catalogue and collects the snapshot lines. *)
Fixpoint validate_items (items : list CartLine) (validatedItems : list OrderItem.t)
  : M (list OrderItem.t) :=
  match items with
  | [] => ret validatedItems
  | item :: rest =>
      let* found := Product_findById (productId item) in
      match found with
      | None => throw 404 (ProductNotFound (productId item))
      | Some product =>
          if negb (Product.isActive product) then
            throw 404 (ProductNotFound (productId item))
          else if (Product.stock product <? cart_qty item)%Z then
            throw 400 (InsufficientStock (Product.name product) (Product.stock product))
          else
            validate_items rest
              (validatedItems ++ [snapshot product (cart_qty item)])
      end
  end.

(** [new Order({ customer, items, shippingAddress, shippingCost,
    subtotal: 0, total: 0 })] with the schema's defaults. *)
Definition new_Order (newId : ObjectId) (customer : ObjectId)
    (items : list OrderItem.t) (shippingAddress : option ShippingAddress.t)
    (shippingCost : number) : Order.t :=
  {| Order._id := newId; Order.customer := customer; Order.items := items;
     Order.shippingAddress := shippingAddress;
     Order.subtotal := zero;
     Order.platformFeeTotal := zero;
     Order.shippingCost := shippingCost;
     Order.total := zero;
     Order.commissionRate := dec 10 2;
     Order.paymentMethod := "stripe";
     Order.stripeSessionId := None;
     Order.stripePaymentIntentId := None;
     Order.status := "Pending";
     Order.isPaid := false; Order.paidAt := None;
     Order.isDelivered := false; Order.deliveredAt := None;
     Order.notes := None |}.

(** The Stripe lines: one per validated item, the unit price in paisa;
    then a shipping line when the shipping cost is positive. *)
Definition stripe_line (item : OrderItem.t) : Stripe.LineItem :=
  {| Stripe.currency := CURRENCY;
     Stripe.product_name := OrderItem.name item;
     Stripe.product_images := [OrderItem.image item];
     Stripe.unit_amount := Math_round (mul (OrderItem.price item) (of_Z 100));
     Stripe.quantity := OrderItem.qty item |}.

Definition shipping_line (shippingCost : number) : Stripe.LineItem :=
  {| Stripe.currency := CURRENCY;
     Stripe.product_name := "Shipping";
     Stripe.product_images := [];
     Stripe.unit_amount := Math_round (mul shippingCost (of_Z 100));
     Stripe.quantity := 1 |}.

Definition stripe_lines (validatedItems : list OrderItem.t) (shippingCost : number)
  : list Stripe.LineItem :=
  List.map stripe_line validatedItems
  ++ (if ltb zero shippingCost then [shipping_line shippingCost] else []).

Definition session_params (order : Order.t) (user : User)
    (validatedItems : list OrderItem.t) (shippingCost : number) : Stripe.SessionParams :=
  {| Stripe.payment_method_types := ["card"];
     Stripe.line_items := stripe_lines validatedItems shippingCost;
     Stripe.mode := "payment";
     Stripe.success_url := FRONTEND_URL ++ "/order-success?session_id={CHECKOUT_SESSION_ID}";
     Stripe.cancel_url := FRONTEND_URL ++ "/cart";
     Stripe.metadata_orderId := Order._id order;
     Stripe.customer_email := email user |}.

(** [await stripe.checkout.sessions.create(params)]: the session is
    opened at the provider, or the client throws (nothing has set a
    status then, so errorHandler answers 500). *)
Definition Stripe_checkout_sessions_create (params : Stripe.SessionParams)
  : M Stripe.Session :=
  fun st =>
    match Stripe.checkout_sessions_create stripe params with
    | inl session => (add_session params st, inl session)
    | inr message => (st, inr (errorHandler 200 (StripeError message)))
    end.

(** [createOrder]; [newId] is the [_id] Mongoose gives the new document. *)
Definition createOrder (newId : ObjectId) (req : CreateOrderReq) : M Response :=
  let items := co_items req in
  let shippingAddress := co_shippingAddress req in
  let shippingCost := match co_shippingCost req with Some c => c | None => zero end in
  match items with
  | [] => throw 400 NoOrderItems
  | _ =>
      let* validatedItems := validate_items items [] in
      let order := new_Order newId (user_id (co_user req)) validatedItems
                     shippingAddress shippingCost in
      let* order := Order_save env true order in
      let* session := Stripe_checkout_sessions_create
                        (session_params order (co_user req) validatedItems shippingCost) in
      let order := Order.set_stripeSessionId (Stripe.id session) order in
      let* order := Order_save env false order in
      ret {| statusCode := 201;
             body := Created (Order._id order) (Stripe.url session) |}
  end.

(** [updateOrderStatus] *)
Definition updateOrderStatus (now : Date) (req : UpdateStatusReq) : M Response :=
  let status := us_status req in
  let* found := Order_findById (us_id req) in
  match found with
  | None => throw 404 OrderNotFound
  | Some order =>
      do (if String.eqb (role (us_user req)) "Vendor" then
            let hasVendorItems :=
              existsb (fun item => String.eqb (OrderItem.vendorId item) (user_id (us_user req)))
                      (Order.items order) in
            if negb hasVendorItems then throw 403 NoVendorItems else ret tt
          else ret tt)
      then
      let order := Order.set_status status order in
      let order := if String.eqb status "Delivered"
                   then Order.set_delivered now order else order in
      let* order := Order_save env true order in
      ret {| statusCode := 200; body := Updated order |}
  end.

(** [stripeWebhook] *)
Definition stripeWebhook (now : Date) (req : WebhookReq) : M Response :=
  let sig := wh_signature req in
  match Stripe.webhooks_constructEvent stripe (wh_body req) sig
          (STRIPE_WEBHOOK_SECRET env) with
  | inr message => respond 400 (WebhookError message)
  | inl event =>
      do (if String.eqb (Stripe.type event) "checkout.session.completed" then
            let* found := Order_findOne_stripeSessionId (Stripe.object_id event) in
            match found with
            | None => respond 200 Received
            | Some order =>
                let order := Order.set_paid now (Stripe.object_payment_intent event) order in
                let* order := Order_save env false order in
                forM_ (Order.items order)
                  (fun item =>
                     Product_findByIdAndUpdate_inc_stock
                       (OrderItem.product item) (- OrderItem.qty item))
            end
          else ret tt)
      then
      ret {| statusCode := 200; body := Received |}
  end.

End Controller.

(** middleware/validate.js, validateOrderStatus: [notEmpty()] and
    [isIn([...])] on [body('status')]. *)
Definition validateOrderStatus (status : string) : bool :=
  negb (String.eqb status EmptyString)
  && bool_decide (status ∈ ["Pending"; "Paid"; "Processing"; "Shipped";
                            "Delivered"; "Cancelled"; "Refunded"]%string).

(* ===================================================================== *)
(** ** Views and guards around the order controller *)
(* ===================================================================== *)

(** models/Order.js, virtual involvedVendors:
    [[...new Set(this.items.map((i) => i.vendorId.toString()))]].  A Set
    adds a value only when it is not yet a member, and is read back in
    order of insertion. *)
Definition Set_add (members : list string) (v : string) : list string :=
  if existsb (String.eqb v) members then members else members ++ [v].

Definition involvedVendors (o : Order.t) : list string :=
  fold_left Set_add (List.map OrderItem.vendorId (Order.items o)) [].

(** models/Product.js, virtual stockStatus. *)
Definition stockStatus (p : Product.t) : string :=
  if Product.stock p =? 0 then "out_of_stock"
  else if Product.stock p <=? 5 then "low_stock"
  else "in_stock".

(** middleware/roleMiddleware.js: [authorise(...roles)] lets a request pass
    when [roles.includes(req.user.role)] and otherwise sets 403 and
    throws. *)
Definition authorise (roles : list string) (user : User) : bool :=
  existsb (String.eqb (role user)) roles.

Definition adminOnly : User -> bool := authorise ["Admin"%string].

Definition vendorOnly : User -> bool := authorise ["Vendor"; "Admin"]%string.

(** What a route answers: the 403 of a role guard, the 400
    'Validation failed' of [validate], or the handler's response. *)
Inductive RouteResponse :=
| AccessDenied (role : string)
| ValidationFailed
| Handled (r : Response).

Definition route_status (r : RouteResponse) : Z :=
  match r with
  | AccessDenied _ => 403
  | ValidationFailed => 400
  | Handled r => statusCode r
  end.

Section Routes.
Variable env : Env.
(** validator.js's isMongoId, behind [param('id').isMongoId()]. *)
Variable isMongoId : string -> bool.

(** routes/orderRoutes.js:
    [router.put('/:id/status', protect, vendorOnly, validateMongoId,
                validateOrderStatus, validate, updateOrderStatus)],
    for a request that [protect] has authenticated.  The validation chains
    only record their errors; [validate] answers 400 when there is one. *)
Definition put_order_status (now : Date) (req : UpdateStatusReq)
  : Store -> Store * RouteResponse :=
  fun st =>
    if negb (vendorOnly (us_user req)) then (st, AccessDenied (role (us_user req)))
    else if negb (isMongoId (us_id req) && validateOrderStatus (us_status req))
    then (st, ValidationFailed)
    else let out := run (updateOrderStatus env now req) st in
         (fst out, Handled (snd out)).
End Routes.

(** controllers/orderController.js, getVendorSales.  Orders are kept in the
    store in the order of their creation, so [sort({ createdAt: -1 })] is
    the store order reversed.  The populated customer is not part of the
    model: [customer] stays the id.  The handler always answers 200; its
    body is the summary and the orders. *)
Record SalesSummary := {
  totalRevenue : number;
  totalFees : number;
  netEarnings : number;
  totalOrders : Z       (* a number that only holds a count: 0, then [+= 1] *)
}.

(** The filter [{ 'items.vendorId': id, status: { $ne: 'Pending' } }]. *)
Definition sales_query (vendor : ObjectId) (o : Order.t) : bool :=
  existsb (fun item => String.eqb (OrderItem.vendorId item) vendor) (Order.items o)
  && negb (String.eqb (Order.status o) "Pending").

(** [{ ...order, items }] *)
Definition with_items (order : Order.t) (items : list OrderItem.t) : Order.t :=
  {| Order._id := Order._id order; Order.customer := Order.customer order;
     Order.items := items;
     Order.shippingAddress := Order.shippingAddress order;
     Order.subtotal := Order.subtotal order;
     Order.platformFeeTotal := Order.platformFeeTotal order;
     Order.shippingCost := Order.shippingCost order;
     Order.total := Order.total order;
     Order.commissionRate := Order.commissionRate order;
     Order.paymentMethod := Order.paymentMethod order;
     Order.stripeSessionId := Order.stripeSessionId order;
     Order.stripePaymentIntentId := Order.stripePaymentIntentId order;
     Order.status := Order.status order; Order.isPaid := Order.isPaid order;
     Order.paidAt := Order.paidAt order;
     Order.isDelivered := Order.isDelivered order;
     Order.deliveredAt := Order.deliveredAt order;
     Order.notes := Order.notes order |}.

Definition vendor_lines (vendor : ObjectId) (order : Order.t) : Order.t :=
  with_items order
    (List.filter (fun item => String.eqb (OrderItem.vendorId item) vendor) (Order.items order)).

(** The body of [order.items.forEach((item) => ...)]. *)
Definition add_line (acc : SalesSummary) (item : OrderItem.t) : SalesSummary :=
  {| totalRevenue := add (totalRevenue acc) (or_else (OrderItem.itemRevenue item) zero);
     totalFees := add (totalFees acc) (or_else (OrderItem.platformFee item) zero);
     netEarnings := add (netEarnings acc) (or_else (OrderItem.vendorPayout item) zero);
     totalOrders := totalOrders acc + 1 |}.

Definition no_sales : SalesSummary :=
  {| totalRevenue := zero; totalFees := zero; netEarnings := zero; totalOrders := 0 |}.

Definition summarise (vendorOrders : list Order.t) : SalesSummary :=
  fold_left (fun acc order => fold_left add_line (Order.items order) acc)
            vendorOrders no_sales.

Definition getVendorSales (user : User) (st : Store) : SalesSummary * list Order.t :=
  let found := rev (List.filter (sales_query (user_id user)) (orders st)) in
  let vendorOrders := List.map (vendor_lines (user_id user)) found in
  (summarise vendorOrders, vendorOrders).

(* ===================================================================== *)
(** ** Vocabulary of the statements *)
(* ===================================================================== *)

Module Ledger.
Definition revenues (o : Order.t) : list number :=
  List.map OrderItem.itemRevenue (Order.items o).

Definition fees (o : Order.t) : list number :=
  List.map OrderItem.platformFee (Order.items o).

(** A stored line carries the three money fields the hook derives from
    its price and quantity at [rate]. *)
Definition line_priced (rate : number) (item : OrderItem.t) : Prop :=
  OrderItem.itemRevenue item = mul (OrderItem.price item) (of_Z (OrderItem.qty item))
  /\ OrderItem.platformFee item = round2 (mul (OrderItem.itemRevenue item) rate)
  /\ OrderItem.vendorPayout item
     = round2 (sub (OrderItem.itemRevenue item) (OrderItem.platformFee item)).

(** [platformFee + vendorPayout == itemRevenue], both sides at two
    decimals. *)
Definition line_reconciles_2dp (item : OrderItem.t) : bool :=
  eqb (round2 (add (OrderItem.platformFee item) (OrderItem.vendorPayout item)))
      (round2 (OrderItem.itemRevenue item)).

(** [subtotal == Σ itemRevenue], [platformFeeTotal == Σ platformFee],
    [total == subtotal + shippingCost], with JavaScript's [==]. *)
Definition subtotal_is_sum (o : Order.t) : bool :=
  eqb (Order.subtotal o) (sum (revenues o)).
Definition feeTotal_is_sum (o : Order.t) : bool :=
  eqb (Order.platformFeeTotal o) (sum (fees o)).
Definition total_is_subtotal_plus_shipping (o : Order.t) : bool :=
  eqb (Order.total o) (add (Order.subtotal o) (Order.shippingCost o)).

(** The last one again, both sides at two decimals. *)
Definition total_is_subtotal_plus_shipping_2dp (o : Order.t) : bool :=
  eqb (round2 (Order.total o))
      (round2 (add (Order.subtotal o) (Order.shippingCost o))).

(** A document as a caller could submit it: the three order-level money
    fields set to values of the caller's choice. *)
Definition with_totals (s f t : number) (o : Order.t) : Order.t :=
  {| Order._id := Order._id o; Order.customer := Order.customer o;
     Order.items := Order.items o;
     Order.shippingAddress := Order.shippingAddress o;
     Order.subtotal := s;
     Order.platformFeeTotal := f;
     Order.shippingCost := Order.shippingCost o;
     Order.total := t;
     Order.commissionRate := Order.commissionRate o;
     Order.paymentMethod := Order.paymentMethod o;
     Order.stripeSessionId := Order.stripeSessionId o;
     Order.stripePaymentIntentId := Order.stripePaymentIntentId o;
     Order.status := Order.status o; Order.isPaid := Order.isPaid o;
     Order.paidAt := Order.paidAt o;
     Order.isDelivered := Order.isDelivered o;
     Order.deliveredAt := Order.deliveredAt o;
     Order.notes := Order.notes o |}.

(** The fee of one line as the hook computes it from price and quantity. *)
Definition fee_of (rate : number) (pq : number * Z) : number :=
  round2 (mul (mul (fst pq) (of_Z (snd pq))) rate).

Definition price_qty (item : OrderItem.t) : number * Z :=
  (OrderItem.price item, OrderItem.qty item).
End Ledger.

Module Catalogue.
(** What the checkout loop objects to in one cart line, if anything. *)
Definition offence (catalogue : gmap ObjectId Product.t) (item : CartLine)
  : option (Z * Error) :=
  match catalogue !! productId item with
  | None => Some (404, ProductNotFound (productId item))
  | Some product =>
      if negb (Product.isActive product) then
        Some (404, ProductNotFound (productId item))
      else if Product.stock product <? cart_qty item then
        Some (400, InsufficientStock (Product.name product) (Product.stock product))
      else None
  end.

(** The objection to the first line that has one, in cart order. *)
Fixpoint first_offence (catalogue : gmap ObjectId Product.t) (items : list CartLine)
  : option (Z * Error) :=
  match items with
  | [] => None
  | item :: rest =>
      match offence catalogue item with
      | Some e => Some e
      | None => first_offence catalogue rest
      end
  end.

(** The snapshot lines of a cart whose products are all in the
    catalogue. *)
Fixpoint snapshots (catalogue : gmap ObjectId Product.t) (items : list CartLine)
  : list OrderItem.t :=
  match items with
  | [] => []
  | item :: rest =>
      match catalogue !! productId item with
      | Some product => snapshot product (cart_qty item) :: snapshots catalogue rest
      | None => snapshots catalogue rest
      end
  end.

(** What a session with one line per order line and a shipping line
    charges, in minor units: each unit price times 100, rounded, times
    the quantity; plus the shipping cost times 100, rounded, when it is
    positive. *)
Fixpoint lines_minor (items : list OrderItem.t) : option Z :=
  match items with
  | [] => Some 0
  | item :: rest =>
      match Math_round (mul (OrderItem.price item) (of_Z 100)), lines_minor rest with
      | Some u, Some t => Some (u * OrderItem.qty item + t)
      | _, _ => None
      end
  end.

Definition shipping_minor (shippingCost : number) : option Z :=
  if ltb zero shippingCost then Math_round (mul shippingCost (of_Z 100)) else Some 0.

Definition charged (o : Order.t) : option Z :=
  match lines_minor (Order.items o), shipping_minor (Order.shippingCost o) with
  | Some a, Some b => Some (a + b)
  | _, _ => None
  end.

(** The order's stored total in minor units: [Math.round(total * 100)]. *)
Definition total_minor (o : Order.t) : option Z :=
  Math_round (mul (Order.total o) (of_Z 100)).

(** The quantity an order's lines request of the product [pid]. *)
Fixpoint ordered_qty (pid : ObjectId) (items : list OrderItem.t) : Z :=
  match items with
  | [] => 0
  | item :: rest =>
      (if String.eqb (OrderItem.product item) pid then OrderItem.qty item else 0)
      + ordered_qty pid rest
  end.

(** The catalogue after the webhook's loop over the lines. *)
Definition decrement_stock (items : list OrderItem.t)
    (catalogue : gmap ObjectId Product.t) : gmap ObjectId Product.t :=
  fold_left
    (fun m item => alter (Product.inc_stock (- OrderItem.qty item)) (OrderItem.product item) m)
    items catalogue.

Definition stock_of (pid : ObjectId) (st : Store) : option Z :=
  Product.stock <$> products st !! pid.
End Catalogue.

Module Lifecycle.
(** The requests that reach the order controller. *)
Inductive Request :=
| PostOrder (newId : ObjectId) (req : CreateOrderReq)
| PutStatus (now : Date) (req : UpdateStatusReq)
| PostWebhook (now : Date) (req : WebhookReq).

Definition handle (env : Env) (frontend : string) (stripe : Stripe.Client)
    (r : Request) (st : Store) : Store * Response :=
  match r with
  | PostOrder newId req => run (createOrder env frontend stripe newId req) st
  | PutStatus now req => run (updateOrderStatus env now req) st
  | PostWebhook now req => run (stripeWebhook env stripe now req) st
  end.

(** The store after the same webhook request has been delivered at each of
    the given times, in turn. *)
Definition redeliver (env : Env) (stripe : Stripe.Client) (times : list Date)
    (req : WebhookReq) (st : Store) : Store :=
  fold_left (fun st now => fst (run (stripeWebhook env stripe now req) st)) times st.

(** A new document never takes the [_id] of a stored one. *)
Definition admissible (r : Request) (st : Store) : Prop :=
  match r with
  | PostOrder newId _ => ~ In newId (List.map Order._id (orders st))
  | _ => True
  end.

(** The store after a sequence of requests, each admissible when it
    arrives. *)
Inductive reaches (env : Env) (frontend : string) (stripe : Stripe.Client)
  : Store -> list Request -> Store -> Prop :=
| reaches_nil st : reaches env frontend stripe st [] st
| reaches_cons st r rs st' :
    admissible r st ->
    reaches env frontend stripe (fst (handle env frontend stripe r st)) rs st' ->
    reaches env frontend stripe st (r :: rs) st'.

Definition ids_unique (st : Store) : Prop := NoDup (List.map Order._id (orders st)).

Definition all_valid (st : Store) : Prop :=
  Forall (fun o => Order.valid o = true) (orders st).

(** The document updateOrderStatus hands to [save]. *)
Definition status_written (now : Date) (status : string) (order : Order.t) : Order.t :=
  if String.eqb status "Delivered"
  then Order.set_delivered now (Order.set_status status order)
  else Order.set_status status order.

(** The ownership check of updateOrderStatus. *)
Definition may_update (user : User) (order : Order.t) : bool :=
  if String.eqb (role user) "Vendor" then
    existsb (fun item => String.eqb (OrderItem.vendorId item) (user_id user))
            (Order.items order)
  else true.
End Lifecycle.

Module Standing.
(** The companion marks of an order: a set flag comes with its date. *)
Definition marks_consistent (o : Order.t) : Prop :=
  (Order.isPaid o = true -> is_Some (Order.paidAt o))
  /\ (Order.isDelivered o = true -> is_Some (Order.deliveredAt o)).

(** An order whose money fields are what the pre-save hook computes from
    its lines: saving it again changes nothing. *)
Definition settled (env : Env) (o : Order.t) : Prop := Order.pre_save env o = o.

Definition all_settled (env : Env) (st : Store) : Prop :=
  Forall (settled env) (orders st).

Definition all_marked (st : Store) : Prop :=
  Forall marks_consistent (orders st).
End Standing.

(* ===================================================================== *)
(** ** Fixtures for the concrete cases *)
(* ===================================================================== *)

Module Fixtures.
Local Open Scope string_scope.

Definition env0 : Env :=
  {| PLATFORM_COMMISSION_RATE := NaN; STRIPE_WEBHOOK_SECRET := Some "whsec_test" |}.

(** A catalogue product with a given price and stock. *)
Definition product (id : ObjectId) (price : number) (stock : Z) : Product.t :=
  {| Product._id := id; Product.name := "Item " ++ id; Product.price := price;
     Product.images := ["https://img.example/" ++ id]; Product.stock := stock;
     Product.vendorId := "vendor1"; Product.isActive := true |}.

Definition address : ShippingAddress.t :=
  {| ShippingAddress.fullName := "Sana Mirza"; ShippingAddress.phone := "03001234567";
     ShippingAddress.street := "1 Mall Road"; ShippingAddress.city := "Lahore";
     ShippingAddress.province := "Punjab"; ShippingAddress.zip := None;
     ShippingAddress.country := "Pakistan" |}.

(** A stand-in for the provider's client.  It accepts a payload when the
    signature header is the payload prefixed by "sig:" and a secret is
    configured, and then reads the payload as the id of a completed
    checkout session; a session it creates for an order is named after
    the order. *)
Definition stripe0 : Stripe.Client :=
  {| Stripe.webhooks_constructEvent := fun payload sig secret =>
       match secret with
       | Some _ =>
           if bool_decide (sig = Some ("sig:" ++ payload)) then
             inl {| Stripe.type := "checkout.session.completed";
                    Stripe.object_id := payload;
                    Stripe.object_payment_intent := Some ("pi_" ++ payload) |}
           else inr "No signatures found matching the expected signature for payload"
       | None => inr "No webhook secret configured"
       end;
     Stripe.checkout_sessions_create := fun params =>
       inl {| Stripe.id := "cs_" ++ Stripe.metadata_orderId params;
              Stripe.url := Some ("https://checkout.example/cs_"
                                  ++ Stripe.metadata_orderId params) |} |}.

Definition empty : Store := {| orders := []; products := ∅; sessions := [] |}.

Definition signed (payload : string) : WebhookReq :=
  {| wh_body := payload; wh_signature := Some ("sig:" ++ payload) |}.

Definition customer : User :=
  {| user_id := "customer1"; email := "customer@example.com"; role := "Customer" |}.
Definition admin : User :=
  {| user_id := "admin1"; email := "admin@example.com"; role := "Admin" |}.

Definition frontend : string := "https://shop.example".

(** A catalogue of two products: p1 at 1000 with 5 in stock, p2 at 0.555
    with 10 in stock. *)
Definition shop : Store :=
  {| orders := [];
     products := {[ "p1" := product "p1" (of_Z 1000) 5;
                    "p2" := product "p2" (dec 555 3) 10 ]};
     sessions := [] |}.

Definition cart (lines : list (ObjectId * Z)) (shippingCost : option number)
  : CreateOrderReq :=
  {| co_user := customer;
     co_items := List.map (fun l => {| productId := fst l; cart_qty := snd l |}) lines;
     co_shippingAddress := Some address;
     co_shippingCost := shippingCost |}.

(** The shop after a checkout of two p1 with shipping 150: the order
    "order1" is Pending and carries the session id "cs_order1". *)
Definition checkout_req : CreateOrderReq := cart [("p1", 2)] (Some (of_Z 150)).

Definition after_checkout : Store :=
  fst (run (createOrder env0 frontend stripe0 "order1" checkout_req) shop).

(** ... and after the provider has confirmed the payment at time 1000. *)
Definition after_payment : Store :=
  fst (run (stripeWebhook env0 stripe0 1000 (signed "cs_order1")) after_checkout).

Definition status_req (user : User) (status : string) : UpdateStatusReq :=
  {| us_user := user; us_id := "order1"; us_status := status |}.

(** ... and after an administrator has marked it Delivered at time 2000. *)
Definition after_delivery : Store :=
  fst (run (updateOrderStatus env0 2000 (status_req admin "Delivered")) after_payment).


Definition vendor2 : User :=
  {| user_id := "vendor2"; email := "vendor2@example.com"; role := "Vendor" |}.

Definition vendor1 : User :=
  {| user_id := "vendor1"; email := "vendor1@example.com"; role := "Vendor" |}.

(** validator.js's isMongoId on the hexadecimal strings of length 24 is
    stood in for by a test of the length alone. *)
Definition has_24_chars (s : string) : bool := Nat.eqb (String.length s) 24.

(** The requests behind [after_delivery], in order. *)
Definition history : list Lifecycle.Request :=
  [Lifecycle.PostOrder "order1" checkout_req;
   Lifecycle.PostWebhook 1000 (signed "cs_order1");
   Lifecycle.PutStatus 2000 (status_req admin "Delivered")].

(** The shop after two customers have each checked out three p1 (of the
    five in stock), and after both payments have been confirmed. *)
Definition two_checkouts : Store :=
  fst (run (createOrder env0 frontend stripe0 "order2" (cart [("p1", 3)] None))
         (fst (run (createOrder env0 frontend stripe0 "order1" (cart [("p1", 3)] None))
                   shop))).

Definition two_payments : Store :=
  fst (run (stripeWebhook env0 stripe0 2000 (signed "cs_order2"))
         (fst (run (stripeWebhook env0 stripe0 1000 (signed "cs_order1")) two_checkouts))).

(** A new order document for lines given as (price, quantity). *)
Definition order_of (lines : list (number * Z)) (shippingCost : number) : Order.t :=
  new_Order "order1" "customer1"
    (List.map (fun pq => snapshot (product "p" (fst pq) 100) (snd pq)) lines)
    (Some address) shippingCost.

(** The two-item order of the rounding example: 99.99 x 3 and 0.01 x 1. *)
Definition rounding_example : Order.t :=
  order_of [(dec 9999 2, 3); (dec 1 2, 1)] zero.

(** Whole-rupee prices: 1 x 1 and 2 x 1. *)
Definition whole_rupee_order : Order.t :=
  order_of [(of_Z 1, 1); (of_Z 2, 1)] zero.

(** One line of 0.055 x 1, shipping 0.006. *)
Definition sub_paisa_order : Order.t :=
  order_of [(dec 55 3, 1)] (dec 6 3).
End Fixtures.

(* ===================================================================== *)
(** ** Properties *)
(* ===================================================================== *)

Import Ledger Catalogue Lifecycle Standing.

(** *** The pre-save hook *)

Lemma map_items_spec rate l s f :
  Order.map_items rate l s f =
    (List.map (Order.price_item rate) l,
     fold_left add (List.map (fun i => OrderItem.itemRevenue (Order.price_item rate i)) l) s,
     fold_left add (List.map (fun i => OrderItem.platformFee (Order.price_item rate i)) l) f).
Proof.
  revert s f. induction l as [|item rest IH]; intros s f; simpl; [reflexivity|].
  rewrite IH. reflexivity.
Qed.

Lemma pre_save_items env o :
  Order.items (Order.pre_save env o)
  = List.map (Order.price_item (Order.effective_rate env o)) (Order.items o).
Proof.
  unfold Order.pre_save. rewrite map_items_spec. reflexivity.
Qed.

Lemma pre_save_subtotal env o :
  Order.subtotal (Order.pre_save env o) = round2 (sum (revenues (Order.pre_save env o))).
Proof.
  unfold revenues. rewrite pre_save_items.
  unfold Order.pre_save. rewrite map_items_spec. simpl.
  unfold sum. rewrite List.map_map. reflexivity.
Qed.

Lemma pre_save_platformFeeTotal env o :
  Order.platformFeeTotal (Order.pre_save env o) = round2 (sum (fees (Order.pre_save env o))).
Proof.
  unfold fees. rewrite pre_save_items.
  unfold Order.pre_save. rewrite map_items_spec. simpl.
  unfold sum. rewrite List.map_map. reflexivity.
Qed.

Lemma pre_save_shippingCost env o :
  Order.shippingCost (Order.pre_save env o) = Order.shippingCost o.
Proof. unfold Order.pre_save. rewrite map_items_spec. reflexivity. Qed.

Lemma pre_save_total env o :
  Order.total (Order.pre_save env o)
  = round2 (add (sum (revenues (Order.pre_save env o)))
                (or_else (Order.shippingCost (Order.pre_save env o)) zero)).
Proof.
  rewrite pre_save_shippingCost. unfold revenues. rewrite pre_save_items.
  unfold Order.pre_save. rewrite map_items_spec. simpl.
  unfold sum. rewrite List.map_map. reflexivity.
Qed.

Lemma price_item_priced rate item : line_priced rate (Order.price_item rate item).
Proof. unfold line_priced, Order.price_item. simpl. auto. Qed.

Lemma pre_save_lines_priced env o :
  Forall (line_priced (Order.effective_rate env o)) (Order.items (Order.pre_save env o)).
Proof.
  rewrite pre_save_items. apply List.Forall_forall. intros x Hx.
  apply in_map_iff in Hx. destruct Hx as [item [<- _]]. apply price_item_priced.
Qed.

Lemma pre_save_ignores_totals env s f t o :
  Order.pre_save env (with_totals s f t o) = Order.pre_save env o.
Proof. reflexivity. Qed.

Lemma valid_ignores_totals s f t o :
  Order.valid (with_totals s f t o) = Order.valid o.
Proof. reflexivity. Qed.

Lemma upsert_In o l : In o (upsert o l).
Proof.
  induction l as [|x rest IH]; simpl; [auto|].
  destruct (String.eqb (Order._id x) (Order._id o)); simpl; auto.
Qed.

Lemma Order_save_inv env v o st st' o' :
  Order_save env v o st = (st', inl o') ->
  o' = Order.pre_save env o
  /\ st' = set_orders (upsert o' (orders st)) st
  /\ (v = true -> Order.valid o = true).
Proof.
  unfold Order_save.
  destruct v; simpl.
  - destruct (Order.valid o); simpl; intros H; inversion H; subst; auto.
  - intros H; inversion H; subst. repeat split; auto. discriminate.
Qed.

(** C1, as amended.  Every successful save stores the document the
    pre-save hook rewrote: each line has itemRevenue = price * qty,
    platformFee = itemRevenue * rate rounded to two decimals and
    vendorPayout = itemRevenue - platformFee rounded to two decimals; the
    order has subtotal = the sum of the itemRevenue fields rounded to two
    decimals, platformFeeTotal = the sum of the platformFee fields rounded
    to two decimals, and total = that unrounded sum of revenues plus the
    shipping cost, rounded to two decimals.  The three order-level fields
    do not depend on what the caller put in them. *)
Theorem saved_order_totals env validateBeforeSave o st st' o' :
  Order_save env validateBeforeSave o st = (st', inl o') ->
  Forall (line_priced (Order.effective_rate env o)) (Order.items o')
  /\ Order.subtotal o' = round2 (sum (revenues o'))
  /\ Order.platformFeeTotal o' = round2 (sum (fees o'))
  /\ Order.total o'
     = round2 (add (sum (revenues o')) (or_else (Order.shippingCost o') zero))
  /\ In o' (orders st')
  /\ forall s f t,
       Order_save env validateBeforeSave (with_totals s f t o) st = (st', inl o').
Proof.
  intros H. pose proof H as Hsave.
  apply Order_save_inv in H. destruct H as [-> [-> Hv]].
  split; [apply pre_save_lines_priced|].
  split; [apply pre_save_subtotal|].
  split; [apply pre_save_platformFeeTotal|].
  split; [apply pre_save_total|].
  split; [simpl; apply upsert_In|].
  intros s f t. unfold Order_save in *.
  rewrite valid_ignores_totals, pre_save_ignores_totals. exact Hsave.
Qed.

Lemma saved_order_totals_witness :
  let o' := Order.pre_save Fixtures.env0 Fixtures.rounding_example in
  Order_save Fixtures.env0 true Fixtures.rounding_example Fixtures.empty
  = (set_orders [o'] Fixtures.empty, inl o')
  /\ Order.subtotal o' = round2 (sum (revenues o'))
  /\ Order.total o'
     = round2 (add (sum (revenues o')) (or_else (Order.shippingCost o') zero)).
Proof.
  intros o'.
  destruct (saved_order_totals Fixtures.env0 true Fixtures.rounding_example
              Fixtures.empty (set_orders [o'] Fixtures.empty) o' eq_refl)
    as (_ & Hsub & _ & Htot & _).
  split; [reflexivity|]. split; [exact Hsub|exact Htot].
Defined.

(** C1 as the specification words it fails.  On the specification's own
    two-item order (99.99 x 3 and 0.01 x 1) the saved subtotal is 299.98
    while the saved itemRevenue fields add up to 299.97999999999996.  On an
    order of whole-rupee prices (1 x 1 and 2 x 1) the saved platformFeeTotal
    is 0.3 while the saved fees 0.1 and 0.2 add up to 0.30000000000000004.
    On a line of 0.055 x 1 with shipping 0.006 (the validators accept any
    non-negative price) the saved fee and payout are 0.01 and 0.04 against
    a revenue of 0.055 (0.06 at two decimals), and the saved total is 0.06
    while subtotal + shippingCost is 0.066 (0.07 at two decimals). *)
Lemma saved_order_totals_counterexample :
  (exists st' o',
      Order_save Fixtures.env0 true Fixtures.rounding_example Fixtures.empty
      = (st', inl o')
      /\ Order.subtotal o' = dec 29998 2
      /\ sum (revenues o') = dec 29997999999999996 14
      /\ subtotal_is_sum o' = false)
  /\ (exists st' o',
      Order_save Fixtures.env0 true Fixtures.whole_rupee_order Fixtures.empty
      = (st', inl o')
      /\ Order.platformFeeTotal o' = dec 3 1
      /\ sum (fees o') = dec 30000000000000004 17
      /\ feeTotal_is_sum o' = false)
  /\ (exists st' o',
      Order_save Fixtures.env0 true Fixtures.sub_paisa_order Fixtures.empty
      = (st', inl o')
      /\ forallb line_reconciles_2dp (Order.items o') = false
      /\ subtotal_is_sum o' = false
      /\ total_is_subtotal_plus_shipping o' = false
      /\ total_is_subtotal_plus_shipping_2dp o' = false).
Proof.
  split; [|split].
  - eexists _, _. split; [reflexivity|]. vm_compute. auto.
  - eexists _, _. split; [reflexivity|]. vm_compute. auto.
  - eexists _, _. split; [reflexivity|]. vm_compute. auto.
Qed.

Lemma fees_pre_save env o :
  fees (Order.pre_save env o)
  = List.map (fee_of (Order.effective_rate env o)) (List.map price_qty (Order.items o)).
Proof.
  unfold fees. rewrite pre_save_items, !List.map_map. reflexivity.
Qed.

Lemma effective_rate_default env o :
  Order.commissionRate o = dec 10 2 -> Order.effective_rate env o = dec 10 2.
Proof. unfold Order.effective_rate. intros ->. reflexivity. Qed.

(** C3.  The hook rounds every line's fee to two decimals and only then
    adds it to the running fee total (which is itself rounded once more
    when it is stored).  For the lines 99.99 x 3 and 0.01 x 1 at rate 0.10
    the two fees are 30.00 and 0.00 and platformFeeTotal is 30.00. *)
Theorem fee_rounded_per_line_then_summed env o :
  Order.platformFeeTotal (Order.pre_save env o)
  = round2 (sum (List.map (fee_of (Order.effective_rate env o))
                          (List.map price_qty (Order.items o))))
  /\ (List.map price_qty (Order.items o) = [(dec 9999 2, 3); (dec 1 2, 1)] ->
      Order.commissionRate o = dec 10 2 ->
      fees (Order.pre_save env o) = [of_Z 30; zero]
      /\ Order.platformFeeTotal (Order.pre_save env o) = of_Z 30).
Proof.
  split.
  - rewrite pre_save_platformFeeTotal, fees_pre_save. reflexivity.
  - intros Hlines Hrate.
    rewrite pre_save_platformFeeTotal, fees_pre_save, Hlines,
      (effective_rate_default env o Hrate).
    vm_compute. auto.
Qed.

Lemma fee_rounded_per_line_then_summed_witness :
  fees (Order.pre_save Fixtures.env0 Fixtures.rounding_example) = [of_Z 30; zero]
  /\ Order.platformFeeTotal (Order.pre_save Fixtures.env0 Fixtures.rounding_example)
     = of_Z 30.
Proof.
  exact (proj2 (fee_rounded_per_line_then_summed Fixtures.env0 Fixtures.rounding_example)
           eq_refl eq_refl).
Defined.

(** *** Documents in the store *)

Lemma pre_save_fields env o :
  let o' := Order.pre_save env o in
  Order._id o' = Order._id o
  /\ Order.status o' = Order.status o
  /\ Order.isPaid o' = Order.isPaid o /\ Order.paidAt o' = Order.paidAt o
  /\ Order.isDelivered o' = Order.isDelivered o
  /\ Order.deliveredAt o' = Order.deliveredAt o
  /\ Order.stripeSessionId o' = Order.stripeSessionId o
  /\ Order.stripePaymentIntentId o' = Order.stripePaymentIntentId o
  /\ Order.shippingAddress o' = Order.shippingAddress o
  /\ Order.notes o' = Order.notes o.
Proof.
  unfold Order.pre_save. rewrite map_items_spec. simpl. repeat split.
Qed.

Lemma pre_save_id env o : Order._id (Order.pre_save env o) = Order._id o.
Proof. apply pre_save_fields. Qed.

Lemma pre_save_status env o : Order.status (Order.pre_save env o) = Order.status o.
Proof. apply pre_save_fields. Qed.

Lemma pre_save_isPaid env o : Order.isPaid (Order.pre_save env o) = Order.isPaid o.
Proof. apply pre_save_fields. Qed.

Lemma pre_save_paidAt env o : Order.paidAt (Order.pre_save env o) = Order.paidAt o.
Proof. apply pre_save_fields. Qed.

Lemma pre_save_isDelivered env o :
  Order.isDelivered (Order.pre_save env o) = Order.isDelivered o.
Proof. apply pre_save_fields. Qed.

Lemma pre_save_deliveredAt env o :
  Order.deliveredAt (Order.pre_save env o) = Order.deliveredAt o.
Proof. apply pre_save_fields. Qed.

Lemma pre_save_stripeSessionId env o :
  Order.stripeSessionId (Order.pre_save env o) = Order.stripeSessionId o.
Proof. apply pre_save_fields. Qed.

(** The hook leaves the validated paths of each line as they were. *)
Lemma price_item_valid rate item :
  OrderItem.valid (Order.price_item rate item) = OrderItem.valid item.
Proof. reflexivity. Qed.

Lemma pre_save_valid env o : Order.valid (Order.pre_save env o) = Order.valid o.
Proof.
  unfold Order.valid. rewrite pre_save_items.
  destruct (pre_save_fields env o) as (_ & -> & _ & _ & _ & _ & _ & _ & -> & ->).
  rewrite length_map. f_equal. f_equal. f_equal. f_equal.
  induction (Order.items o) as [|x l IH]; simpl; [reflexivity|].
  rewrite IH, price_item_valid. reflexivity.
Qed.

Lemma find_by_id_Some id l o :
  List.find (by_id id) l = Some o -> Order._id o = id /\ In o l.
Proof.
  intros H. apply List.find_some in H. destruct H as [Hin Heq].
  unfold by_id in Heq. apply String.eqb_eq in Heq. auto.
Qed.

Lemma find_upsert_eq o l : List.find (by_id (Order._id o)) (upsert o l) = Some o.
Proof.
  induction l as [|x rest IH]; simpl.
  - unfold by_id. rewrite String.eqb_refl. reflexivity.
  - destruct (String.eqb (Order._id x) (Order._id o)) eqn:E; simpl.
    + unfold by_id. rewrite String.eqb_refl. reflexivity.
    + unfold by_id at 1. rewrite E. exact IH.
Qed.

Lemma find_upsert_ne id o l :
  id <> Order._id o ->
  List.find (by_id id) (upsert o l) = List.find (by_id id) l.
Proof.
  intros Hne. induction l as [|x rest IH]; simpl.
  - unfold by_id. destruct (String.eqb (Order._id o) id) eqn:E; [|reflexivity].
    apply String.eqb_eq in E. congruence.
  - destruct (String.eqb (Order._id x) (Order._id o)) eqn:E; simpl.
    + apply String.eqb_eq in E.
      unfold by_id. destruct (String.eqb (Order._id o) id) eqn:E1.
      * apply String.eqb_eq in E1. congruence.
      * destruct (String.eqb (Order._id x) id) eqn:E2; [|reflexivity].
        apply String.eqb_eq in E2. congruence.
    + rewrite IH. reflexivity.
Qed.

Lemma upsert_ids o l :
  In (Order._id o) (List.map Order._id l) ->
  List.map Order._id (upsert o l) = List.map Order._id l.
Proof.
  induction l as [|x rest IH]; simpl; [tauto|].
  intros H. destruct (String.eqb (Order._id x) (Order._id o)) eqn:E; simpl.
  - apply String.eqb_eq in E. congruence.
  - f_equal. apply IH. destruct H as [H|H]; [|exact H].
    apply String.eqb_neq in E. congruence.
Qed.

Lemma upsert_ids_fresh o l :
  ~ In (Order._id o) (List.map Order._id l) ->
  List.map Order._id (upsert o l) = List.map Order._id l ++ [Order._id o].
Proof.
  induction l as [|x rest IH]; simpl; [reflexivity|].
  intros H. destruct (String.eqb (Order._id x) (Order._id o)) eqn:E; simpl.
  - apply String.eqb_eq in E. tauto.
  - f_equal. apply IH. tauto.
Qed.

(** What is in the collection after a write: the written document and
    documents that were there before. *)
Lemma In_upsert x o l : In x (upsert o l) -> x = o \/ In x l.
Proof.
  induction l as [|y rest IH]; simpl.
  - intros [H|[]]; auto.
  - destruct (String.eqb (Order._id y) (Order._id o)); simpl.
    + intros [H|H]; auto.
    + intros [H|H]; auto. destruct (IH H); auto.
Qed.

Lemma upsert_Forall (P : Order.t -> Prop) o l :
  P o -> Forall P l -> Forall P (upsert o l).
Proof.
  intros Ho Hl. apply List.Forall_forall. intros x Hx.
  apply In_upsert in Hx. destruct Hx as [->|Hx]; [exact Ho|].
  rewrite List.Forall_forall in Hl. auto.
Qed.

Lemma find_by_id_unique l o :
  NoDup (List.map Order._id l) -> In o l ->
  List.find (by_id (Order._id o)) l = Some o.
Proof.
  induction l as [|x rest IH]; simpl; [tauto|].
  intros Hnd [->|Hin].
  - unfold by_id. rewrite String.eqb_refl. reflexivity.
  - apply NoDup_cons in Hnd. destruct Hnd as [Hx Hnd].
    unfold by_id at 1. destruct (String.eqb (Order._id x) (Order._id o)) eqn:E.
    + apply String.eqb_eq in E. exfalso. apply Hx. rewrite E.
      apply list_elem_of_In. apply List.in_map. exact Hin.
    + apply IH; assumption.
Qed.

(** *** Checkout *)


Lemma errorHandler_client code e :
  code <> 200 -> e <> ValidationError ->
  errorHandler code e = {| statusCode := code; body := Failure e |}.
Proof.
  intros Hc He. unfold errorHandler.
  destruct e; try congruence; destruct (code =? 200) eqn:E; try reflexivity;
    apply Z.eqb_eq in E; congruence.
Qed.

Lemma offence_shape catalogue item code e :
  offence catalogue item = Some (code, e) ->
  (code = 404 /\ e = ProductNotFound (productId item)
   /\ (catalogue !! productId item = None
       \/ exists p, catalogue !! productId item = Some p /\ Product.isActive p = false))
  \/ (code = 400
      /\ exists p, catalogue !! productId item = Some p /\ Product.isActive p = true
                   /\ Product.stock p < cart_qty item
                   /\ e = InsufficientStock (Product.name p) (Product.stock p)).
Proof.
  unfold offence. destruct (catalogue !! productId item) as [p|] eqn:Hp.
  - destruct (Product.isActive p) eqn:Ha; simpl.
    + destruct (Product.stock p <? cart_qty item) eqn:Hs; [|discriminate].
      intros H; inversion H; subst. right. split; [reflexivity|].
      exists p. apply Z.ltb_lt in Hs. auto.
    + intros H; inversion H; subst. left. repeat split. right. exists p. auto.
  - intros H; inversion H; subst. left. repeat split. left. reflexivity.
Qed.

Lemma offence_response catalogue item code e :
  offence catalogue item = Some (code, e) ->
  errorHandler code e = {| statusCode := code; body := Failure e |}.
Proof.
  intros H. apply offence_shape in H.
  destruct H as [(-> & -> & _)|(-> & p & _ & _ & _ & ->)];
    apply errorHandler_client; discriminate.
Qed.

Lemma validate_items_fails items acc st code e :
  first_offence (products st) items = Some (code, e) ->
  validate_items items acc st = (st, inr {| statusCode := code; body := Failure e |}).
Proof.
  revert acc. induction items as [|item rest IH]; intros acc; simpl; [discriminate|].
  destruct (offence (products st) item) as [[c e']|] eqn:Hoff.
  - intros H; inversion H; subst.
    pose proof (offence_response _ _ _ _ Hoff) as Hresp.
    unfold offence in Hoff. unfold bind, Product_findById, throw.
    destruct (products st !! productId item) as [p|].
    + destruct (negb (Product.isActive p)).
      * inversion Hoff; subst. rewrite Hresp. reflexivity.
      * destruct (Product.stock p <? cart_qty item); [|discriminate].
        inversion Hoff; subst. rewrite Hresp. reflexivity.
    + inversion Hoff; subst. rewrite Hresp. reflexivity.
  - intros H. unfold offence in Hoff. unfold bind, Product_findById.
    destruct (products st !! productId item) as [p|]; [|discriminate].
    destruct (negb (Product.isActive p)); [discriminate|].
    destruct (Product.stock p <? cart_qty item); [discriminate|].
    apply IH. exact H.
Qed.

Lemma validate_items_passes items acc st :
  first_offence (products st) items = None ->
  validate_items items acc st = (st, inl (acc ++ snapshots (products st) items)).
Proof.
  revert acc. induction items as [|item rest IH]; intros acc; simpl.
  - intros _. unfold ret. rewrite app_nil_r. reflexivity.
  - destruct (offence (products st) item) as [[c e']|] eqn:Hoff; [discriminate|].
    intros H. unfold offence in Hoff. unfold bind, Product_findById.
    destruct (products st !! productId item) as [p|]; [|discriminate].
    destruct (negb (Product.isActive p)); [discriminate|].
    destruct (Product.stock p <? cart_qty item); [discriminate|].
    rewrite (IH _ H). rewrite <- app_assoc. reflexivity.
Qed.

Lemma first_offence_exists catalogue items :
  (exists item, In item items /\ offence catalogue item <> None) ->
  exists pre item post code e,
    items = pre ++ item :: post
    /\ Forall (fun x => offence catalogue x = None) pre
    /\ offence catalogue item = Some (code, e)
    /\ first_offence catalogue items = Some (code, e).
Proof.
  induction items as [|x rest IH]; intros (item & Hin & Hoff); [destruct Hin|].
  simpl. destruct (offence catalogue x) as [[c e]|] eqn:Hx.
  - exists [], x, rest, c, e. repeat split; auto.
  - destruct Hin as [->|Hin]; [congruence|].
    destruct IH as (pre & y & post & c & e & -> & Hpre & Hy & Hfirst); [eauto|].
    exists (x :: pre), y, post, c, e. repeat split; auto.
Qed.

(** C5, as amended.  When some line of the cart names a product that is
    missing or inactive, or asks for more than the product's stock, the
    checkout stops at the first such line in cart order and answers with
    that line's error: 404 and the product id for a missing or inactive
    product, 400 with the product's name and remaining stock for a
    shortage.  Nothing is written: no order is created, no stock changes
    and no payment session is opened, whatever the other lines are. *)
Theorem checkout_fails_at_first_offending_line
    env frontend stripe newId req st :
  (exists item, In item (co_items req) /\ offence (products st) item <> None) ->
  exists pre item post code e,
    co_items req = pre ++ item :: post
    /\ Forall (fun x => offence (products st) x = None) pre
    /\ offence (products st) item = Some (code, e)
    /\ run (createOrder env frontend stripe newId req) st
       = (st, {| statusCode := code; body := Failure e |})
    /\ ((code = 404 /\ e = ProductNotFound (productId item)
         /\ (products st !! productId item = None
             \/ exists p, products st !! productId item = Some p
                          /\ Product.isActive p = false))
        \/ (code = 400
            /\ exists p, products st !! productId item = Some p
                         /\ Product.isActive p = true
                         /\ Product.stock p < cart_qty item
                         /\ e = InsufficientStock (Product.name p) (Product.stock p))).
Proof.
  intros H. destruct (first_offence_exists _ _ H)
    as (pre & item & post & code & e & Hitems & Hpre & Hoff & Hfirst).
  exists pre, item, post, code, e. repeat split; auto.
  - unfold run, createOrder.
    destruct (co_items req) as [|x rest] eqn:Hc.
    + destruct pre; discriminate.
    + unfold bind at 1. rewrite (validate_items_fails _ _ _ _ _ Hfirst). reflexivity.
  - apply offence_shape. exact Hoff.
Qed.

Lemma checkout_fails_at_first_offending_line_witness :
  let req := Fixtures.cart [("p1", 2); ("ghost", 1)]%string None in
  let st := Fixtures.shop in
  exists pre item post code e,
    co_items req = pre ++ item :: post
    /\ Forall (fun x => offence (products st) x = None) pre
    /\ offence (products st) item = Some (code, e)
    /\ run (createOrder Fixtures.env0 Fixtures.frontend Fixtures.stripe0 "order1" req) st
       = (st, {| statusCode := code; body := Failure e |})
    /\ ((code = 404 /\ e = ProductNotFound (productId item)
         /\ (products st !! productId item = None
             \/ exists p, products st !! productId item = Some p
                          /\ Product.isActive p = false))
        \/ (code = 400
            /\ exists p, products st !! productId item = Some p
                         /\ Product.isActive p = true
                         /\ Product.stock p < cart_qty item
                         /\ e = InsufficientStock (Product.name p) (Product.stock p))).
Proof.
  intros req st.
  apply (checkout_fails_at_first_offending_line Fixtures.env0 Fixtures.frontend
           Fixtures.stripe0 "order1" req st).
  exists {| productId := "ghost"; cart_qty := 1 |}.
  split; [right; left; reflexivity|].
  vm_compute. discriminate.
Defined.

(** C5 as the specification words it fails on a cart with both kinds of
    offending line: the cart below names a product that does not exist, yet
    the checkout answers 400 for the shortage on its first line, not 404. *)
Lemma checkout_error_kind_counterexample :
  let req := Fixtures.cart [("p1", 10); ("ghost", 1)]%string None in
  (exists item, In item (co_items req)
                /\ products Fixtures.shop !! productId item = None)
  /\ run (createOrder Fixtures.env0 Fixtures.frontend Fixtures.stripe0 "order1" req)
         Fixtures.shop
     = (Fixtures.shop,
        {| statusCode := 400; body := Failure (InsufficientStock "Item p1" 5) |}).
Proof.
  intros req. split.
  - exists {| productId := "ghost"; cart_qty := 1 |}.
    split; [right; left; reflexivity|]. vm_compute. reflexivity.
  - vm_compute. reflexivity.
Qed.

(** *** The payment webhook *)

Lemma stripeWebhook_unverified env stripe now req st message :
  Stripe.webhooks_constructEvent stripe (wh_body req) (wh_signature req)
    (STRIPE_WEBHOOK_SECRET env) = inr message ->
  stripeWebhook env stripe now req st
  = (st, inr {| statusCode := 400; body := WebhookError message |}).
Proof.
  intros H. unfold stripeWebhook. rewrite H. reflexivity.
Qed.

(** C6.  When the provider's client rejects the signature, the webhook
    answers 400 and the store is what it was: no order's status or payment
    fields, no product's stock and no payment session is touched. *)
Theorem webhook_rejects_bad_signature env stripe now req st message :
  Stripe.webhooks_constructEvent stripe (wh_body req) (wh_signature req)
    (STRIPE_WEBHOOK_SECRET env) = inr message ->
  run (stripeWebhook env stripe now req) st
  = (st, {| statusCode := 400; body := WebhookError message |})
  /\ forall st' resp,
       run (stripeWebhook env stripe now req) st = (st', resp) ->
       400 <= statusCode resp < 500
       /\ orders st' = orders st /\ products st' = products st
       /\ sessions st' = sessions st.
Proof.
  intros H. unfold run. rewrite (stripeWebhook_unverified _ _ _ _ _ _ H).
  split; [reflexivity|].
  intros st' resp Heq. inversion Heq; subst. simpl. repeat split; lia.
Qed.

Lemma webhook_rejects_bad_signature_witness :
  let req := {| wh_body := "cs_order1"; wh_signature := Some "forged" |} in
  run (stripeWebhook Fixtures.env0 Fixtures.stripe0 1000 req) Fixtures.after_checkout
  = (Fixtures.after_checkout,
     {| statusCode := 400;
        body := WebhookError
                  "No signatures found matching the expected signature for payload" |}).
Proof.
  intros req.
  apply (webhook_rejects_bad_signature Fixtures.env0 Fixtures.stripe0 1000 req
           Fixtures.after_checkout).
  reflexivity.
Defined.

Lemma find_none_of_forall {A} (f : A -> bool) l :
  (forall x, In x l -> f x = false) -> List.find f l = None.
Proof.
  induction l as [|x rest IH]; simpl; intros H; [reflexivity|].
  rewrite (H x (or_introl eq_refl)). apply IH. intros y Hy. apply H. auto.
Qed.

(** C7.  A verified completed-checkout event whose session id is stored on
    no order is acknowledged with 200 and changes nothing in the store. *)
Theorem webhook_unknown_session_is_acknowledged env stripe now req st event :
  Stripe.webhooks_constructEvent stripe (wh_body req) (wh_signature req)
    (STRIPE_WEBHOOK_SECRET env) = inl event ->
  Stripe.type event = "checkout.session.completed"%string ->
  (forall o, In o (orders st) -> Order.stripeSessionId o <> Some (Stripe.object_id event)) ->
  run (stripeWebhook env stripe now req) st
  = (st, {| statusCode := 200; body := Received |}).
Proof.
  intros Hev Hty Hnone. unfold run, stripeWebhook. rewrite Hev, Hty. simpl.
  unfold bind, Order_findOne_stripeSessionId.
  rewrite find_none_of_forall; [reflexivity|].
  intros o Ho. unfold by_session. apply bool_decide_eq_false. auto.
Qed.

Lemma webhook_unknown_session_is_acknowledged_witness :
  run (stripeWebhook Fixtures.env0 Fixtures.stripe0 1000 (Fixtures.signed "cs_stale"))
      Fixtures.after_checkout
  = (Fixtures.after_checkout, {| statusCode := 200; body := Received |}).
Proof.
  apply (webhook_unknown_session_is_acknowledged Fixtures.env0 Fixtures.stripe0 1000
           (Fixtures.signed "cs_stale") Fixtures.after_checkout
           {| Stripe.type := "checkout.session.completed";
              Stripe.object_id := "cs_stale";
              Stripe.object_payment_intent := Some "pi_cs_stale" |}).
  - reflexivity.
  - reflexivity.
  - intros o Ho. vm_compute in Ho. destruct Ho as [<-|[]]. simpl. discriminate.
Defined.

(** *** Status updates *)


Lemma set_status_valid s o :
  In s Order.STATUSES -> Order.valid o = true -> Order.valid (Order.set_status s o) = true.
Proof.
  unfold Order.valid. simpl. intros Hs H.
  rewrite (bool_decide_eq_true_2 (s ∈ Order.STATUSES)) by (apply list_elem_of_In; exact Hs).
  destruct (bool_decide (Order.status o ∈ Order.STATUSES)).
  - exact H.
  - rewrite !andb_false_r in H. rewrite andb_false_l in H. discriminate.
Qed.

Lemma set_delivered_valid now o :
  Order.valid (Order.set_delivered now o) = Order.valid o.
Proof. reflexivity. Qed.

Lemma validateOrderStatus_enum s :
  In s Order.STATUSES -> validateOrderStatus s = true.
Proof.
  simpl. intros H.
  repeat (destruct H as [<-|H]; [reflexivity|]). destruct H.
Qed.

(** C10.  For a stored order that passes the schema and a caller who
    passes the handler's ownership check, every status of the enumerated
    set passes validateOrderStatus and is written whatever the order's
    current status is: the update answers 200 and the stored order then
    has the requested status.  A Delivered order moves back to Pending the
    same way. *)
Theorem status_update_accepts_every_enumerated_status env now req st order :
  In (us_status req) Order.STATUSES ->
  List.find (by_id (us_id req)) (orders st) = Some order ->
  Order.valid order = true ->
  may_update (us_user req) order = true ->
  validateOrderStatus (us_status req) = true
  /\ exists st' order',
       run (updateOrderStatus env now req) st
       = (st', {| statusCode := 200; body := Updated order' |})
       /\ Order.status order' = us_status req
       /\ List.find (by_id (us_id req)) (orders st') = Some order'.
Proof.
  intros Hs Hfind Hvalid Hmay.
  split; [apply validateOrderStatus_enum; exact Hs|].
  destruct (find_by_id_Some _ _ _ Hfind) as [Hid _].
  set (o1 := Order.set_status (us_status req) order).
  set (o2 := if String.eqb (us_status req) "Delivered"
             then Order.set_delivered now o1 else o1).
  assert (Hv2 : Order.valid o2 = true).
  { unfold o2. destruct (String.eqb (us_status req) "Delivered").
    - rewrite set_delivered_valid. apply set_status_valid; assumption.
    - apply set_status_valid; assumption. }
  assert (Hid2 : Order._id o2 = us_id req).
  { unfold o2, o1. destruct (String.eqb (us_status req) "Delivered"); simpl; exact Hid. }
  assert (Hst2 : Order.status o2 = us_status req).
  { unfold o2, o1. destruct (String.eqb (us_status req) "Delivered"); reflexivity. }
  exists (set_orders (upsert (Order.pre_save env o2) (orders st)) st), (Order.pre_save env o2).
  split; [|split].
  - unfold run, updateOrderStatus, bind, Order_findById. rewrite Hfind.
    unfold may_update in Hmay.
    destruct (String.eqb (role (us_user req)) "Vendor").
    + rewrite Hmay. simpl. fold o1. fold o2.
      unfold Order_save. rewrite Hv2. reflexivity.
    + simpl. fold o1. fold o2. unfold Order_save. rewrite Hv2. reflexivity.
  - rewrite pre_save_status. exact Hst2.
  - simpl. rewrite <- Hid2, <- (pre_save_id env o2). apply find_upsert_eq.
Qed.

Lemma status_update_accepts_every_enumerated_status_witness :
  Order.status <$> List.find (by_id "order1") (orders Fixtures.after_delivery)
  = Some "Delivered"%string
  /\ validateOrderStatus "Pending" = true
  /\ exists st' order',
       run (updateOrderStatus Fixtures.env0 3000
              (Fixtures.status_req Fixtures.admin "Pending")) Fixtures.after_delivery
       = (st', {| statusCode := 200; body := Updated order' |})
       /\ Order.status order' = "Pending"%string
       /\ List.find (by_id "order1") (orders st') = Some order'.
Proof.
  split; [vm_compute; reflexivity|].
  eapply (status_update_accepts_every_enumerated_status Fixtures.env0 3000
            (Fixtures.status_req Fixtures.admin "Pending") Fixtures.after_delivery).
  - simpl. auto.
  - vm_compute. reflexivity.
  - vm_compute. reflexivity.
  - vm_compute. reflexivity.
Defined.

(** *** What each handler leaves in the store *)

Lemma forM__decrement items st :
  forM_ items
    (fun item => Product_findByIdAndUpdate_inc_stock
                   (OrderItem.product item) (- OrderItem.qty item)) st
  = (set_products (decrement_stock items (products st)) st, inl tt).
Proof.
  revert st. induction items as [|item rest IH]; intros st; simpl.
  - unfold ret, decrement_stock, set_products. simpl. destruct st; reflexivity.
  - unfold bind, Product_findByIdAndUpdate_inc_stock at 1. rewrite IH.
    unfold decrement_stock, set_products. simpl. reflexivity.
Qed.

(** The document the webhook writes for a matched order. *)
Lemma stripeWebhook_matched env stripe now req st event order :
  Stripe.webhooks_constructEvent stripe (wh_body req) (wh_signature req)
    (STRIPE_WEBHOOK_SECRET env) = inl event ->
  Stripe.type event = "checkout.session.completed"%string ->
  List.find (by_session (Stripe.object_id event)) (orders st) = Some order ->
  let order' :=
    Order.pre_save env (Order.set_paid now (Stripe.object_payment_intent event) order) in
  run (stripeWebhook env stripe now req) st
  = (set_products (decrement_stock (Order.items order') (products st))
       (set_orders (upsert order' (orders st)) st),
     {| statusCode := 200; body := Received |}).
Proof.
  intros Hev Hty Hfind order'. unfold run, stripeWebhook. rewrite Hev, Hty. simpl.
  unfold bind at 1. unfold bind at 1. unfold Order_findOne_stripeSessionId.
  rewrite Hfind. unfold bind at 1. unfold Order_save. simpl.
  fold order'. rewrite forM__decrement. reflexivity.
Qed.

Lemma stripeWebhook_cases env stripe now req st :
  fst (run (stripeWebhook env stripe now req) st) = st
  \/ exists event order,
       Stripe.webhooks_constructEvent stripe (wh_body req) (wh_signature req)
         (STRIPE_WEBHOOK_SECRET env) = inl event
       /\ Stripe.type event = "checkout.session.completed"%string
       /\ List.find (by_session (Stripe.object_id event)) (orders st) = Some order.
Proof.
  destruct (Stripe.webhooks_constructEvent stripe (wh_body req) (wh_signature req)
              (STRIPE_WEBHOOK_SECRET env)) as [event|message] eqn:Hev.
  - destruct (String.eqb (Stripe.type event) "checkout.session.completed") eqn:Hty.
    + apply String.eqb_eq in Hty.
      destruct (List.find (by_session (Stripe.object_id event)) (orders st)) as [order|] eqn:Hf.
      * right. exists event, order. auto.
      * left. unfold run, stripeWebhook. rewrite Hev, Hty. simpl.
        unfold bind, Order_findOne_stripeSessionId. rewrite Hf. reflexivity.
    + left. unfold run, stripeWebhook. rewrite Hev, Hty. reflexivity.
  - left. unfold run. rewrite (stripeWebhook_unverified _ _ _ _ _ _ Hev). reflexivity.
Qed.

Lemma updateOrderStatus_cases env now req st :
  fst (run (updateOrderStatus env now req) st) = st
  \/ exists order,
       List.find (by_id (us_id req)) (orders st) = Some order
       /\ Order.valid (status_written now (us_status req) order) = true
       /\ run (updateOrderStatus env now req) st
          = (set_orders
               (upsert (Order.pre_save env (status_written now (us_status req) order))
                       (orders st)) st,
             {| statusCode := 200;
                body := Updated (Order.pre_save env
                                   (status_written now (us_status req) order)) |}).
Proof.
  unfold run, updateOrderStatus, bind, Order_findById.
  destruct (List.find (by_id (us_id req)) (orders st)) as [order|] eqn:Hf;
    [|left; reflexivity].
  fold (status_written now (us_status req) order).
  unfold Order_save.
  destruct (String.eqb (role (us_user req)) "Vendor");
    [destruct (negb (existsb _ (Order.items order))); simpl; [left; reflexivity|] | simpl];
    (destruct (Order.valid (status_written now (us_status req) order)) eqn:Hv; simpl;
     [right; exists order; auto | left; reflexivity]).
Qed.

Lemma first_offence_code catalogue items code e :
  first_offence catalogue items = Some (code, e) -> code = 404 \/ code = 400.
Proof.
  induction items as [|x rest IH]; simpl; [discriminate|].
  destruct (offence catalogue x) as [[c e']|] eqn:Hx; [|exact IH].
  intros H; inversion H; subst. apply offence_shape in Hx.
  destruct Hx as [(-> & _)|(-> & _)]; auto.
Qed.

(** A checkout that is answered 201 went through every step. *)
Lemma createOrder_created env frontend stripe newId req st st' resp :
  run (createOrder env frontend stripe newId req) st = (st', resp) ->
  statusCode resp = 201 ->
  let shippingCost := match co_shippingCost req with Some c => c | None => zero end in
  let validatedItems := snapshots (products st) (co_items req) in
  let o1 := Order.pre_save env
              (new_Order newId (user_id (co_user req)) validatedItems
                 (co_shippingAddress req) shippingCost) in
  let params := session_params frontend o1 (co_user req) validatedItems shippingCost in
  exists session,
    first_offence (products st) (co_items req) = None
    /\ Stripe.checkout_sessions_create stripe params = inl session
    /\ st' = set_orders
               (upsert (Order.pre_save env (Order.set_stripeSessionId (Stripe.id session) o1))
                       (upsert o1 (orders st)))
               (add_session params st)
    /\ resp = {| statusCode := 201; body := Created newId (Stripe.url session) |}.
Proof.
  intros Hrun Hcode. cbv zeta.
  unfold run, createOrder in Hrun.
  destruct (co_items req) as [|x rest] eqn:Hitems.
  { unfold throw in Hrun. inversion Hrun; subst. discriminate. }
  rewrite <- Hitems in *. clear Hitems x rest.
  destruct (first_offence (products st) (co_items req)) as [[c e]|] eqn:Hoff.
  { unfold bind at 1 in Hrun. rewrite (validate_items_fails _ _ _ _ _ Hoff) in Hrun.
    inversion Hrun; subst. simpl in Hcode.
    destruct (first_offence_code _ _ _ _ Hoff); lia. }
  unfold bind at 1 in Hrun. rewrite (validate_items_passes _ _ _ Hoff) in Hrun.
  simpl app in Hrun.
  unfold bind at 1 in Hrun. unfold Order_save at 1 in Hrun. simpl andb in Hrun.
  destruct (negb (Order.valid _)).
  { inversion Hrun; subst. discriminate. }
  unfold bind at 1 in Hrun. unfold Stripe_checkout_sessions_create in Hrun.
  match type of Hrun with
  | context [Stripe.checkout_sessions_create stripe ?p] =>
      destruct (Stripe.checkout_sessions_create stripe p) as [session|message] eqn:Hcreate
  end.
  2:{ inversion Hrun; subst. discriminate. }
  exists session. unfold bind, Order_save, ret in Hrun. simpl in Hrun.
  inversion Hrun; subst.
  repeat split; auto.
  rewrite pre_save_id. simpl. rewrite pre_save_id. reflexivity.
Qed.

Lemma amount_total_lines items :
  Stripe.amount_total (List.map stripe_line items) = lines_minor items.
Proof.
  induction items as [|item rest IH]; simpl; [reflexivity|].
  rewrite IH. reflexivity.
Qed.

Lemma amount_total_app l1 l2 :
  Stripe.amount_total (l1 ++ l2)
  = match Stripe.amount_total l1, Stripe.amount_total l2 with
    | Some a, Some b => Some (a + b)
    | _, _ => None
    end.
Proof.
  induction l1 as [|li rest IH]; simpl.
  - destruct (Stripe.amount_total l2); reflexivity.
  - rewrite IH. destruct (Stripe.unit_amount li); [|reflexivity].
    destruct (Stripe.amount_total rest); [|reflexivity].
    destruct (Stripe.amount_total l2); [|reflexivity].
    f_equal. lia.
Qed.

Lemma amount_total_stripe_lines items shippingCost :
  Stripe.amount_total (stripe_lines items shippingCost)
  = match lines_minor items, shipping_minor shippingCost with
    | Some a, Some b => Some (a + b)
    | _, _ => None
    end.
Proof.
  unfold stripe_lines. rewrite amount_total_app, amount_total_lines.
  unfold shipping_minor. destruct (ltb zero shippingCost).
  - change (Stripe.amount_total [shipping_line shippingCost])
      with (match Math_round (mul shippingCost (of_Z 100)) with
            | Some u => Some (u * 1 + 0)
            | None => None
            end).
    destruct (Math_round (mul shippingCost (of_Z 100))) as [u|]; [|reflexivity].
    replace (u * 1 + 0) with u by lia. reflexivity.
  - reflexivity.
Qed.

(** C8, as amended.  A checkout answered 201 has opened exactly one
    payment session, tagged with the new order's id, whose lines are built
    from the order's lines and not from its stored total: per line the
    unit amount is the unit price times 100 rounded to an integer and the
    quantity is the line's quantity, and a shipping line of the shipping
    cost times 100, rounded, follows when the shipping cost is positive.
    The amount charged is the sum of unit amount times quantity over
    these lines. *)
Theorem checkout_session_charges_rounded_unit_prices
    env frontend stripe newId req st st' resp :
  run (createOrder env frontend stripe newId req) st = (st', resp) ->
  statusCode resp = 201 ->
  exists order params,
    List.find (by_id newId) (orders st') = Some order
    /\ sessions st' = sessions st ++ [params]
    /\ Stripe.metadata_orderId params = newId
    /\ Stripe.line_items params
       = stripe_lines (Order.items order) (Order.shippingCost order)
    /\ Stripe.amount_total (Stripe.line_items params) = charged order.
Proof.
  intros Hrun Hcode.
  destruct (createOrder_created _ _ _ _ _ _ _ _ Hrun Hcode)
    as (session & _ & _ & -> & _).
  set (shippingCost := match co_shippingCost req with Some c => c | None => zero end).
  set (validatedItems := snapshots (products st) (co_items req)).
  set (o0 := new_Order newId (user_id (co_user req)) validatedItems
               (co_shippingAddress req) shippingCost).
  set (o1 := Order.pre_save env o0).
  set (o2 := Order.pre_save env (Order.set_stripeSessionId (Stripe.id session) o1)).
  assert (Hid : Order._id o2 = newId).
  { unfold o2. rewrite pre_save_id. simpl. unfold o1. rewrite pre_save_id. reflexivity. }
  assert (Hship : Order.shippingCost o2 = shippingCost).
  { unfold o2. rewrite pre_save_shippingCost. simpl. unfold o1.
    rewrite pre_save_shippingCost. reflexivity. }
  assert (Hlines : List.map stripe_line (Order.items o2) = List.map stripe_line validatedItems).
  { unfold o2. rewrite pre_save_items. simpl. unfold o1. rewrite pre_save_items.
    rewrite !List.map_map. reflexivity. }
  exists o2, (session_params frontend o1 (co_user req) validatedItems shippingCost).
  split; [|split; [|split; [|split]]].
  - simpl. rewrite <- Hid. apply find_upsert_eq.
  - reflexivity.
  - simpl. unfold o1. rewrite pre_save_id. reflexivity.
  - simpl. unfold stripe_lines. rewrite Hlines, Hship. reflexivity.
  - simpl. rewrite amount_total_stripe_lines. unfold charged.
    rewrite Hship, <- !amount_total_lines, Hlines. reflexivity.
Qed.

Lemma checkout_session_charges_rounded_unit_prices_witness :
  exists order params,
    List.find (by_id "order1") (orders Fixtures.after_checkout) = Some order
    /\ sessions Fixtures.after_checkout = sessions Fixtures.shop ++ [params]
    /\ Stripe.metadata_orderId params = "order1"%string
    /\ Stripe.line_items params
       = stripe_lines (Order.items order) (Order.shippingCost order)
    /\ Stripe.amount_total (Stripe.line_items params) = charged order.
Proof.
  apply (checkout_session_charges_rounded_unit_prices Fixtures.env0 Fixtures.frontend
           Fixtures.stripe0 "order1" Fixtures.checkout_req Fixtures.shop
           Fixtures.after_checkout
           (snd (run (createOrder Fixtures.env0 Fixtures.frontend Fixtures.stripe0
                        "order1" Fixtures.checkout_req) Fixtures.shop))).
  - apply surjective_pairing.
  - vm_compute. reflexivity.
Defined.

(** On the specification's scenario (a product at 1000, two of them, with
    a shipping cost of 150) the amount charged is the stored total in minor
    units. *)
Lemma checkout_scenario_amount :
  exists order params,
    List.find (by_id "order1") (orders Fixtures.after_checkout) = Some order
    /\ sessions Fixtures.after_checkout = [params]
    /\ Order.status order = "Pending"%string
    /\ Order.total order = of_Z 2150
    /\ Stripe.amount_total (Stripe.line_items params) = Some 215000
    /\ total_minor order = Some 215000.
Proof. eexists _, _. vm_compute. repeat split. Qed.

(** C8 as the specification words it fails when a unit price has a
    fraction of a paisa: two units at 0.555 are charged 2 x 56 = 112 paisa,
    while the stored total is 1.11, that is 111 paisa. *)
Lemma checkout_session_amount_counterexample :
  let req := Fixtures.cart [("p2", 2)]%string None in
  exists st' orderId url order params,
    run (createOrder Fixtures.env0 Fixtures.frontend Fixtures.stripe0 "order2" req)
        Fixtures.shop
    = (st', {| statusCode := 201; body := Created orderId url |})
    /\ List.find (by_id orderId) (orders st') = Some order
    /\ sessions st' = [params]
    /\ Order.total order = dec 111 2
    /\ Stripe.amount_total (Stripe.line_items params) = Some 112
    /\ total_minor order = Some 111.
Proof. eexists _, _, _, _, _. vm_compute. repeat split. Qed.

(** *** Stock after the webhook's loop *)

Lemma inc_stock_twice a b p :
  Product.inc_stock a (Product.inc_stock b p) = Product.inc_stock (b + a) p.
Proof.
  unfold Product.inc_stock, Product.set_stock. destruct p; simpl. f_equal. lia.
Qed.

Lemma inc_stock_zero p : Product.inc_stock 0 p = p.
Proof.
  unfold Product.inc_stock, Product.set_stock. destruct p; simpl. f_equal. lia.
Qed.

Lemma decrement_stock_lookup items (m : gmap ObjectId Product.t) pid :
  decrement_stock items m !! pid
  = Product.inc_stock (- ordered_qty pid items) <$> m !! pid.
Proof.
  revert m. induction items as [|item rest IH]; intros m.
  - simpl. destruct (m !! pid) as [p|]; simpl; [|reflexivity].
    rewrite inc_stock_zero. reflexivity.
  - unfold decrement_stock in *. simpl. rewrite IH.
    rewrite lookup_alter.
    destruct (String.eqb (OrderItem.product item) pid) eqn:E.
    + apply String.eqb_eq in E. rewrite decide_True by exact E. rewrite E.
      destruct (m !! pid) as [p|]; simpl; [|reflexivity].
      rewrite inc_stock_twice. do 2 f_equal. lia.
    + apply String.eqb_neq in E. rewrite decide_False by exact E.
      destruct (m !! pid) as [p|]; simpl; [|reflexivity].
      do 2 f_equal.
Qed.

Lemma ordered_qty_price_items rate pid items :
  ordered_qty pid (List.map (Order.price_item rate) items) = ordered_qty pid items.
Proof.
  induction items as [|item rest IH]; simpl; [reflexivity|]. rewrite IH. reflexivity.
Qed.

Lemma ordered_qty_pre_save env pid o :
  ordered_qty pid (Order.items (Order.pre_save env o)) = ordered_qty pid (Order.items o).
Proof. rewrite pre_save_items. apply ordered_qty_price_items. Qed.

Lemma find_by_session_Some sid l o :
  List.find (by_session sid) l = Some o -> Order.stripeSessionId o = Some sid /\ In o l.
Proof.
  intros H. apply List.find_some in H. destruct H as [Hin Heq].
  unfold by_session in Heq. apply bool_decide_eq_true in Heq. auto.
Qed.

Lemma In_ids o (l : list Order.t) : In o l -> In (Order._id o) (List.map Order._id l).
Proof. apply List.in_map. Qed.

(** With unique ids, a write under the id of the first match of a session
    id that keeps the session id leaves the written document the first
    match. *)
Lemma find_by_session_upsert sid l o o' :
  NoDup (List.map Order._id l) ->
  List.find (by_session sid) l = Some o ->
  Order._id o' = Order._id o ->
  Order.stripeSessionId o' = Some sid ->
  List.find (by_session sid) (upsert o' l) = Some o'.
Proof.
  intros Hnd Hfind Hid Hsid.
  assert (Ho' : by_session sid o' = true)
    by (unfold by_session; apply bool_decide_eq_true; exact Hsid).
  induction l as [|x rest IH]; simpl in *; [discriminate|].
  apply NoDup_cons in Hnd. destruct Hnd as [Hx Hnd].
  destruct (by_session sid x) eqn:Hsx.
  - inversion Hfind; subst x. rewrite Hid, String.eqb_refl. simpl. rewrite Ho'. reflexivity.
  - destruct (String.eqb (Order._id x) (Order._id o')) eqn:E.
    + apply String.eqb_eq in E. exfalso. apply Hx.
      rewrite E, Hid. apply list_elem_of_In. apply In_ids.
      apply (find_by_session_Some _ _ _ Hfind).
    + simpl. rewrite Hsx. apply IH; assumption.
Qed.

Lemma upsert_ids_unique o l :
  NoDup (List.map Order._id l) -> NoDup (List.map Order._id (upsert o l)).
Proof.
  intros Hnd.
  destruct (in_dec String.string_dec (Order._id o) (List.map Order._id l)) as [Hin|Hout].
  - rewrite upsert_ids by exact Hin. exact Hnd.
  - rewrite upsert_ids_fresh by exact Hout.
    apply NoDup_app. split; [exact Hnd|]. split.
    + intros x Hx Hx'. apply list_elem_of_In in Hx, Hx'.
      destruct Hx' as [<-|[]]. contradiction.
    + apply NoDup_singleton.
Qed.

(** One processed delivery, for a store with unique ids. *)
Lemma webhook_delivery env stripe now req st event order :
  ids_unique st ->
  Stripe.webhooks_constructEvent stripe (wh_body req) (wh_signature req)
    (STRIPE_WEBHOOK_SECRET env) = inl event ->
  Stripe.type event = "checkout.session.completed"%string ->
  List.find (by_session (Stripe.object_id event)) (orders st) = Some order ->
  let out := run (stripeWebhook env stripe now req) st in
  snd out = {| statusCode := 200; body := Received |}
  /\ ids_unique (fst out)
  /\ (forall pid,
        stock_of pid (fst out)
        = (fun s => s - ordered_qty pid (Order.items order)) <$> stock_of pid st)
  /\ exists order',
       List.find (by_session (Stripe.object_id event)) (orders (fst out)) = Some order'
       /\ List.find (by_id (Order._id order)) (orders (fst out)) = Some order'
       /\ Order._id order' = Order._id order
       /\ Order.status order' = "Paid"%string
       /\ Order.isPaid order' = true
       /\ Order.paidAt order' = Some now
       /\ Order.isDelivered order' = Order.isDelivered order
       /\ Order.deliveredAt order' = Order.deliveredAt order
       /\ (forall pid, ordered_qty pid (Order.items order')
                       = ordered_qty pid (Order.items order)).
Proof.
  intros Hnd Hev Hty Hfind out. unfold out.
  rewrite (stripeWebhook_matched _ _ _ _ _ _ _ Hev Hty Hfind). simpl.
  set (order' := Order.pre_save env
                   (Order.set_paid now (Stripe.object_payment_intent event) order)).
  destruct (find_by_session_Some _ _ _ Hfind) as [Hsid Hin].
  assert (Hid : Order._id order' = Order._id order)
    by (unfold order'; rewrite pre_save_id; reflexivity).
  split; [reflexivity|]. split; [|split].
  - unfold ids_unique. simpl. apply upsert_ids_unique. exact Hnd.
  - intros pid. unfold stock_of. simpl. rewrite decrement_stock_lookup.
    unfold order'. rewrite ordered_qty_pre_save. simpl.
    destruct (products st !! pid) as [p|]; simpl; [|reflexivity].
    f_equal; lia.
  - exists order'. repeat apply conj.
    + apply (find_by_session_upsert _ _ order); auto.
      unfold order'. rewrite pre_save_stripeSessionId. exact Hsid.
    + rewrite <- Hid. apply find_upsert_eq.
    + exact Hid.
    + unfold order'. rewrite pre_save_status. reflexivity.
    + unfold order'. rewrite pre_save_isPaid. reflexivity.
    + unfold order'. rewrite pre_save_paidAt. reflexivity.
    + unfold order'. rewrite pre_save_isDelivered. reflexivity.
    + unfold order'. rewrite pre_save_deliveredAt. reflexivity.
    + intros pid. unfold order'. rewrite ordered_qty_pre_save. reflexivity.
Qed.

(** C2 as the specification words it fails: the second delivery of the
    same event is not a no-op on stock.  After a checkout of two p1 (five
    in stock), the first delivery leaves three and the second leaves one:
    the stock has been decremented twice for one order. *)
Lemma redelivery_counterexample :
  let out1 := run (stripeWebhook Fixtures.env0 Fixtures.stripe0 1000
                     (Fixtures.signed "cs_order1")) Fixtures.after_checkout in
  let out2 := run (stripeWebhook Fixtures.env0 Fixtures.stripe0 2000
                     (Fixtures.signed "cs_order1")) (fst out1) in
  snd out1 = {| statusCode := 200; body := Received |}
  /\ snd out2 = {| statusCode := 200; body := Received |}
  /\ stock_of "p1" Fixtures.after_checkout = Some 5
  /\ stock_of "p1" (fst out1) = Some 3
  /\ stock_of "p1" (fst out2) = Some 1
  /\ products (fst out2) <> products (fst out1).
Proof.
  intros out1 out2.
  assert (H1 : stock_of "p1" (fst out1) = Some 3) by (vm_compute; reflexivity).
  assert (H2 : stock_of "p1" (fst out2) = Some 1) by (vm_compute; reflexivity).
  repeat apply conj; try (vm_compute; reflexivity); try assumption.
  intros Heq. unfold stock_of in H1, H2. rewrite Heq in H2. rewrite H1 in H2.
  discriminate.
Qed.

Lemma redeliver_stock env stripe times req event :
  Stripe.webhooks_constructEvent stripe (wh_body req) (wh_signature req)
    (STRIPE_WEBHOOK_SECRET env) = inl event ->
  Stripe.type event = "checkout.session.completed"%string ->
  forall st order,
    ids_unique st ->
    List.find (by_session (Stripe.object_id event)) (orders st) = Some order ->
    forall pid,
      stock_of pid (redeliver env stripe times req st)
      = (fun s => s - Z.of_nat (length times) * ordered_qty pid (Order.items order))
          <$> stock_of pid st.
Proof.
  intros Hev Hty. induction times as [|now rest IH]; intros st order Hnd Hfind pid.
  - simpl. destruct (stock_of pid st) as [s|]; simpl; [|reflexivity]. f_equal; lia.
  - destruct (webhook_delivery env stripe now req st event order Hnd Hev Hty Hfind)
      as (_ & Hnd1 & Hstock1 & o1 & Hs1 & _ & _ & _ & _ & _ & _ & _ & Hq1).
    change (redeliver env stripe (now :: rest) req st)
      with (redeliver env stripe rest req (fst (run (stripeWebhook env stripe now req) st))).
    rewrite (IH _ o1 Hnd1 Hs1 pid), Hstock1, Hq1.
    destruct (stock_of pid st) as [s|]; simpl; [|reflexivity].
    f_equal. rewrite Nat2Z.inj_succ. lia.
Qed.

(** C4, as amended.  For a store with unique order ids, every delivery of
    a verified completed-checkout event whose session id is stored on an
    order lowers the stock of each product by the quantity the order's
    lines request of it, once per delivery and not once per paid order:
    when the stock of a product covers n deliveries (n times that quantity
    is at most the stock), after the event has been delivered n times the
    stock is the earlier stock minus n times that quantity, and it is not
    negative.  Nothing is stated for deliveries the stock does not
    cover. *)
Theorem stock_decremented_once_per_delivery
    env stripe times req st event order pid s :
  ids_unique st ->
  Stripe.webhooks_constructEvent stripe (wh_body req) (wh_signature req)
    (STRIPE_WEBHOOK_SECRET env) = inl event ->
  Stripe.type event = "checkout.session.completed"%string ->
  List.find (by_session (Stripe.object_id event)) (orders st) = Some order ->
  stock_of pid st = Some s ->
  Z.of_nat (length times) * ordered_qty pid (Order.items order) <= s ->
  stock_of pid (redeliver env stripe times req st)
  = Some (s - Z.of_nat (length times) * ordered_qty pid (Order.items order))
  /\ 0 <= s - Z.of_nat (length times) * ordered_qty pid (Order.items order).
Proof.
  intros Hnd Hev Hty Hfind Hs Hcover.
  rewrite (redeliver_stock env stripe times req event Hev Hty st order Hnd Hfind pid), Hs.
  split; [reflexivity|lia].
Qed.

Lemma stock_decremented_once_per_delivery_witness :
  stock_of "p1" Fixtures.after_checkout = Some 5
  /\ stock_of "p1" (redeliver Fixtures.env0 Fixtures.stripe0 [1000; 2000]
                      (Fixtures.signed "cs_order1") Fixtures.after_checkout)
     = Some 1.
Proof.
  assert (Hfind : exists order,
             List.find (by_session "cs_order1") (orders Fixtures.after_checkout) = Some order
             /\ ordered_qty "p1" (Order.items order) = 2).
  { eexists. vm_compute. split; reflexivity. }
  destruct Hfind as (order & Hfind & Hq).
  assert (Hs : stock_of "p1" Fixtures.after_checkout = Some 5) by (vm_compute; reflexivity).
  split; [exact Hs|].
  destruct (stock_decremented_once_per_delivery Fixtures.env0 Fixtures.stripe0
              [1000; 2000] (Fixtures.signed "cs_order1") Fixtures.after_checkout
              {| Stripe.type := "checkout.session.completed";
                 Stripe.object_id := "cs_order1";
                 Stripe.object_payment_intent := Some "pi_cs_order1" |} order "p1" 5)
    as [Hstock _].
  - unfold ids_unique. vm_compute. apply NoDup_cons. split; [intros H; inversion H|].
    apply NoDup_nil. exact I.
  - reflexivity.
  - reflexivity.
  - exact Hfind.
  - exact Hs.
  - rewrite Hq. simpl. lia.
  - rewrite Hstock, Hq. reflexivity.
Defined.

(** C4 as the specification words it fails on both counts.  Two customers
    each check out three of the five p1 in stock (both checkouts pass the
    stock check, since nothing is reserved); once both payments are
    confirmed, each by a single delivery, the stock of p1 is -1.  And a
    second delivery of one order's event decrements the stock a second
    time for that order. *)
Lemma stock_counterexample :
  (stock_of "p1" Fixtures.shop = Some 5
   /\ List.map Order.status (orders Fixtures.two_checkouts) = ["Pending"; "Pending"]%string
   /\ List.map Order.status (orders Fixtures.two_payments) = ["Paid"; "Paid"]%string
   /\ stock_of "p1" Fixtures.two_payments = Some (-1)
   /\ Product.stock_min_ok <$> products Fixtures.two_payments !! "p1"%string = Some false)
  /\ (stock_of "p1" Fixtures.after_checkout = Some 5
      /\ stock_of "p1" (redeliver Fixtures.env0 Fixtures.stripe0 [1000]
                          (Fixtures.signed "cs_order1") Fixtures.after_checkout) = Some 3
      /\ stock_of "p1" (redeliver Fixtures.env0 Fixtures.stripe0 [1000; 2000]
                          (Fixtures.signed "cs_order1") Fixtures.after_checkout) = Some 1).
Proof. vm_compute. repeat apply conj; reflexivity. Qed.

(** *** Invariants of the store *)

Lemma set_stripeSessionId_valid sid o :
  Order.valid (Order.set_stripeSessionId sid o) = Order.valid o.
Proof. reflexivity. Qed.

(** The orders a checkout leaves: the collection as it was, or with one
    write of a new document, or with two writes of it. *)
Lemma createOrder_orders env frontend stripe newId req st :
  let st' := fst (run (createOrder env frontend stripe newId req) st) in
  products st' = products st
  /\ (orders st' = orders st
      \/ exists o1,
           Order._id o1 = newId /\ Order.valid o1 = true
           /\ (orders st' = upsert o1 (orders st)
               \/ exists o2,
                    Order._id o2 = newId /\ Order.valid o2 = true
                    /\ orders st' = upsert o2 (upsert o1 (orders st)))).
Proof.
  cbv zeta.
  remember (run (createOrder env frontend stripe newId req) st) as out eqn:Hout.
  unfold run, createOrder in Hout.
  destruct (co_items req) as [|x rest] eqn:Hitems; [subst out; simpl; auto|].
  rewrite <- Hitems in Hout. clear Hitems x rest.
  destruct (first_offence (products st) (co_items req)) as [[c e]|] eqn:Hoff.
  { unfold bind at 1 in Hout. rewrite (validate_items_fails _ _ _ _ _ Hoff) in Hout.
    subst out; simpl; auto. }
  unfold bind at 1 in Hout. rewrite (validate_items_passes _ _ _ Hoff) in Hout.
  simpl app in Hout.
  unfold bind at 1 in Hout. unfold Order_save at 1 in Hout. simpl andb in Hout.
  match type of Hout with
  | context [Order.valid ?o] => destruct (Order.valid o) eqn:Hvalid
  end; simpl negb in Hout; cbv iota in Hout; [|subst out; simpl; auto].
  unfold bind at 1 in Hout. unfold Stripe_checkout_sessions_create in Hout.
  match type of Hout with
  | context [Stripe.checkout_sessions_create stripe ?p] =>
      destruct (Stripe.checkout_sessions_create stripe p) as [session|message]
  end.
  - unfold bind, Order_save, ret in Hout. simpl in Hout. subst out. simpl.
    split; [reflexivity|]. right.
    eexists. split; [|split; [|right; eexists; split; [|split; [|reflexivity]]]].
    + rewrite pre_save_id. reflexivity.
    + rewrite pre_save_valid. exact Hvalid.
    + rewrite pre_save_id. simpl. rewrite pre_save_id. reflexivity.
    + rewrite pre_save_valid, set_stripeSessionId_valid, pre_save_valid. exact Hvalid.
  - subst out. simpl. split; [reflexivity|]. right.
    eexists. split; [|split; [|left; reflexivity]].
    + rewrite pre_save_id. reflexivity.
    + rewrite pre_save_valid. exact Hvalid.
Qed.

Lemma handle_ids_unique env frontend stripe r st :
  ids_unique st -> ids_unique (fst (handle env frontend stripe r st)).
Proof.
  intros Hnd. destruct r as [newId req|now req|now req]; simpl.
  - destruct (createOrder_orders env frontend stripe newId req st) as [_ H].
    unfold ids_unique in *.
    destruct H as [->|(o1 & _ & _ & [->|(o2 & _ & _ & ->)])]; auto using upsert_ids_unique.
  - destruct (updateOrderStatus_cases env now req st) as [->|(order & _ & _ & ->)];
      [exact Hnd|].
    unfold ids_unique. simpl. apply upsert_ids_unique. exact Hnd.
  - destruct (stripeWebhook_cases env stripe now req st)
      as [->|(event & order & Hev & Hty & Hfind)]; [exact Hnd|].
    apply (webhook_delivery env stripe now req st event order Hnd Hev Hty Hfind).
Qed.

Lemma set_paid_valid now intent o :
  Order.valid o = true -> Order.valid (Order.set_paid now intent o) = true.
Proof.
  unfold Order.valid. simpl. intros H.
  destruct (bool_decide (Order.status o ∈ Order.STATUSES)).
  - exact H.
  - rewrite !andb_false_r in H. rewrite andb_false_l in H. discriminate.
Qed.

(** Every stored order passes the schema, request after request. *)
Lemma handle_all_valid env frontend stripe r st :
  all_valid st -> all_valid (fst (handle env frontend stripe r st)).
Proof.
  intros Hv. destruct r as [newId req|now req|now req]; simpl.
  - destruct (createOrder_orders env frontend stripe newId req st) as [_ H].
    unfold all_valid in *.
    destruct H as [->|(o1 & _ & Hv1 & [->|(o2 & _ & Hv2 & ->)])];
      auto using upsert_Forall.
  - destruct (updateOrderStatus_cases env now req st) as [->|(order & _ & Hvo & ->)];
      [exact Hv|].
    unfold all_valid. simpl. apply upsert_Forall; [|exact Hv].
    rewrite pre_save_valid. exact Hvo.
  - destruct (stripeWebhook_cases env stripe now req st)
      as [->|(event & order & Hev & Hty & Hfind)]; [exact Hv|].
    rewrite (stripeWebhook_matched _ _ _ _ _ _ _ Hev Hty Hfind).
    unfold all_valid. simpl. apply upsert_Forall; [|exact Hv].
    rewrite pre_save_valid. apply set_paid_valid.
    unfold all_valid in Hv. rewrite List.Forall_forall in Hv. apply Hv.
    apply (find_by_session_Some _ _ _ Hfind).
Qed.

Lemma reaches_invariants env frontend stripe st rs st' :
  reaches env frontend stripe st rs st' ->
  (ids_unique st -> ids_unique st') /\ (all_valid st -> all_valid st').
Proof.
  induction 1 as [st|st r rs st' Hadm Hreach [IH1 IH2]]; [auto|].
  split; intros H.
  - apply IH1. apply handle_ids_unique. exact H.
  - apply IH2. apply handle_all_valid. exact H.
Qed.

(** The flags of a stored order are not reset by a request. *)
Lemma handle_keeps_flags env frontend stripe r st id o :
  ids_unique st -> admissible r st ->
  List.find (by_id id) (orders st) = Some o ->
  exists o',
    List.find (by_id id) (orders (fst (handle env frontend stripe r st))) = Some o'
    /\ (Order.isPaid o = true -> Order.isPaid o' = true)
    /\ (Order.isDelivered o = true -> Order.isDelivered o' = true).
Proof.
  intros Hnd Hadm Hfind.
  destruct (find_by_id_Some _ _ _ Hfind) as [Hid Hin].
  destruct r as [newId req|now req|now req]; simpl in *.
  - assert (Hne : id <> newId).
    { intros ->. apply Hadm. rewrite <- Hid. apply In_ids. exact Hin. }
    destruct (createOrder_orders env frontend stripe newId req st) as [_ H].
    exists o.
    destruct H as [->|(o1 & Hid1 & _ & [->|(o2 & Hid2 & _ & ->)])];
      rewrite ?find_upsert_ne by congruence; auto.
  - destruct (updateOrderStatus_cases env now req st) as [->|(order & Hf & _ & ->)];
      [exists o; auto|].
    simpl. destruct (find_by_id_Some _ _ _ Hf) as [Hido _].
    set (o' := Order.pre_save env (status_written now (us_status req) order)).
    assert (Hid' : Order._id o' = us_id req).
    { unfold o', status_written. rewrite pre_save_id.
      destruct (String.eqb (us_status req) "Delivered"); exact Hido. }
    destruct (String.string_dec id (us_id req)) as [->|Hne].
    + exists o'. rewrite <- Hid', find_upsert_eq.
      rewrite Hf in Hfind. inversion Hfind; subst o.
      split; [reflexivity|]. unfold o', status_written.
      rewrite pre_save_isPaid, pre_save_isDelivered.
      destruct (String.eqb (us_status req) "Delivered"); simpl; auto.
    + exists o. rewrite find_upsert_ne by congruence. auto.
  - destruct (stripeWebhook_cases env stripe now req st)
      as [->|(event & order & Hev & Hty & Hf)]; [exists o; auto|].
    destruct (webhook_delivery env stripe now req st event order Hnd Hev Hty Hf)
      as (_ & _ & _ & o' & _ & Hi' & _ & _ & Hp' & _ & Hd' & _).
    destruct (String.string_dec id (Order._id order)) as [->|Hne].
    + exists o'. split; [exact Hi'|].
      assert (o = order).
      { rewrite (find_by_id_unique _ order Hnd) in Hfind.
        - inversion Hfind; reflexivity.
        - apply (find_by_session_Some _ _ _ Hf). }
      subst o. rewrite Hd'. auto.
    + exists o. rewrite (stripeWebhook_matched _ _ _ _ _ _ _ Hev Hty Hf). simpl.
      rewrite find_upsert_ne; [auto|]. rewrite pre_save_id. exact Hne.
Qed.

Lemma reaches_keeps_flags env frontend stripe st rs st' :
  reaches env frontend stripe st rs st' ->
  ids_unique st ->
  forall id o,
    List.find (by_id id) (orders st) = Some o ->
    exists o',
      List.find (by_id id) (orders st') = Some o'
      /\ (Order.isPaid o = true -> Order.isPaid o' = true)
      /\ (Order.isDelivered o = true -> Order.isDelivered o' = true).
Proof.
  induction 1 as [st|st r rs st' Hadm Hreach IH]; intros Hnd id o Hfind.
  - exists o. auto.
  - destruct (handle_keeps_flags env frontend stripe r st id o Hnd Hadm Hfind)
      as (o1 & Hf1 & Hp1 & Hd1).
    destruct (IH (handle_ids_unique _ _ _ _ _ Hnd) id o1 Hf1) as (o' & Hf' & Hp' & Hd').
    exists o'. auto.
Qed.

Lemma updateOrderStatus_accepted env now req st :
  statusCode (snd (run (updateOrderStatus env now req) st)) = 200 ->
  exists order,
    List.find (by_id (us_id req)) (orders st) = Some order
    /\ run (updateOrderStatus env now req) st
       = (set_orders
            (upsert (Order.pre_save env (status_written now (us_status req) order))
                    (orders st)) st,
          {| statusCode := 200;
             body := Updated (Order.pre_save env
                                (status_written now (us_status req) order)) |}).
Proof.
  unfold run, updateOrderStatus, bind, Order_findById.
  destruct (List.find (by_id (us_id req)) (orders st)) as [order|] eqn:Hf;
    [|simpl; discriminate].
  fold (status_written now (us_status req) order).
  unfold Order_save.
  destruct (String.eqb (role (us_user req)) "Vendor");
    [destruct (negb (existsb _ (Order.items order))); simpl; [discriminate|] | simpl];
    (destruct (Order.valid (status_written now (us_status req) order)) eqn:Hv; simpl;
     [intros _; exists order; auto | discriminate]).
Qed.

(** C9, as amended.  Starting from a store with unique order ids and after
    any sequence of requests: a request never resets isPaid or isDelivered
    of a stored order once it is true; every processed delivery of a
    completed-checkout event for an order leaves it Paid with isPaid set
    and paidAt equal to the time of that delivery; every accepted status
    update to Delivered leaves the order with isDelivered set and
    deliveredAt equal to the time of that update.  So the timestamps are
    those of the latest delivery or update, not of the first. *)
Theorem paid_and_delivered_marks env frontend stripe st rs st1 r :
  ids_unique st ->
  reaches env frontend stripe st rs st1 ->
  admissible r st1 ->
  let out := handle env frontend stripe r st1 in
  (forall id o,
      List.find (by_id id) (orders st) = Some o ->
      exists o2,
        List.find (by_id id) (orders (fst out)) = Some o2
        /\ (Order.isPaid o = true -> Order.isPaid o2 = true)
        /\ (Order.isDelivered o = true -> Order.isDelivered o2 = true))
  /\ (forall now req event order,
        r = PostWebhook now req ->
        Stripe.webhooks_constructEvent stripe (wh_body req) (wh_signature req)
          (STRIPE_WEBHOOK_SECRET env) = inl event ->
        Stripe.type event = "checkout.session.completed"%string ->
        List.find (by_session (Stripe.object_id event)) (orders st1) = Some order ->
        exists o2,
          List.find (by_id (Order._id order)) (orders (fst out)) = Some o2
          /\ Order.status o2 = "Paid"%string
          /\ Order.isPaid o2 = true
          /\ Order.paidAt o2 = Some now)
  /\ (forall now req,
        r = PutStatus now req ->
        us_status req = "Delivered"%string ->
        statusCode (snd out) = 200 ->
        exists o2,
          List.find (by_id (us_id req)) (orders (fst out)) = Some o2
          /\ Order.status o2 = "Delivered"%string
          /\ Order.isDelivered o2 = true
          /\ Order.deliveredAt o2 = Some now).
Proof.
  intros Hnd Hreach Hadm out.
  assert (Hnd1 : ids_unique st1) by (apply (reaches_invariants _ _ _ _ _ _ Hreach); exact Hnd).
  split; [|split].
  - intros id o Hfind.
    destruct (reaches_keeps_flags _ _ _ _ _ _ Hreach Hnd id o Hfind)
      as (o1 & Hf1 & Hp1 & Hd1).
    destruct (handle_keeps_flags env frontend stripe r st1 id o1 Hnd1 Hadm Hf1)
      as (o2 & Hf2 & Hp2 & Hd2).
    exists o2. auto.
  - intros now req event order -> Hev Hty Hfind. unfold out. simpl.
    destruct (webhook_delivery env stripe now req st1 event order Hnd1 Hev Hty Hfind)
      as (_ & _ & _ & o2 & _ & Hi & _ & Hs & Hp & Ht & _).
    exists o2. auto.
  - intros now req -> Hs Hcode. unfold out in *. simpl in *.
    destruct (updateOrderStatus_accepted env now req st1 Hcode) as (order & Hf & Hrun).
    rewrite Hrun. simpl.
    destruct (find_by_id_Some _ _ _ Hf) as [Hid _].
    set (o2 := Order.pre_save env (status_written now (us_status req) order)).
    assert (Hw : status_written now (us_status req) order
                 = Order.set_delivered now (Order.set_status "Delivered" order)).
    { unfold status_written. rewrite Hs. reflexivity. }
    exists o2. repeat apply conj.
    + replace (us_id req) with (Order._id o2); [apply find_upsert_eq|].
      unfold o2. rewrite pre_save_id, Hw. exact Hid.
    + unfold o2. rewrite pre_save_status, Hw. reflexivity.
    + unfold o2. rewrite pre_save_isDelivered, Hw. reflexivity.
    + unfold o2. rewrite pre_save_deliveredAt, Hw. reflexivity.
Qed.

Lemma history_reaches_after_delivery :
  reaches Fixtures.env0 Fixtures.frontend Fixtures.stripe0
    Fixtures.shop Fixtures.history Fixtures.after_delivery.
Proof.
  unfold Fixtures.history.
  apply reaches_cons; [simpl; tauto|].
  apply reaches_cons; [exact I|].
  apply reaches_cons; [exact I|].
  apply reaches_nil.
Qed.

Lemma paid_and_delivered_marks_witness :
  exists o2,
    List.find (by_id "order1")
      (orders (fst (handle Fixtures.env0 Fixtures.frontend Fixtures.stripe0
                      (PutStatus 3000 (Fixtures.status_req Fixtures.admin "Delivered"))
                      Fixtures.after_delivery))) = Some o2
    /\ Order.status o2 = "Delivered"%string
    /\ Order.isDelivered o2 = true
    /\ Order.deliveredAt o2 = Some 3000.
Proof.
  destruct (paid_and_delivered_marks Fixtures.env0 Fixtures.frontend Fixtures.stripe0
              Fixtures.shop Fixtures.history Fixtures.after_delivery
              (PutStatus 3000 (Fixtures.status_req Fixtures.admin "Delivered")))
    as (_ & _ & Hdelivered).
  - unfold ids_unique. simpl. apply NoDup_nil. exact I.
  - exact history_reaches_after_delivery.
  - exact I.
  - apply (Hdelivered 3000 (Fixtures.status_req Fixtures.admin "Delivered") eq_refl eq_refl).
    vm_compute. reflexivity.
Defined.

(** C9 as the specification words it fails in three ways.  An order
    delivered at time 2000 and marked Delivered again at time 3000 has its
    deliveredAt overwritten; an order paid at time 1000 whose payment event
    is delivered again at time 5000 has its paidAt overwritten; and an
    order whose status an administrator sets to Paid reaches that status
    with isPaid false and no paidAt. *)
Lemma paid_and_delivered_marks_counterexample :
  (Order.deliveredAt <$> List.find (by_id "order1") (orders Fixtures.after_delivery)
   = Some (Some 2000)
   /\ Order.deliveredAt
      <$> List.find (by_id "order1")
            (orders (fst (run (updateOrderStatus Fixtures.env0 3000
                                 (Fixtures.status_req Fixtures.admin "Delivered"))
                              Fixtures.after_delivery)))
      = Some (Some 3000))
  /\ (Order.paidAt <$> List.find (by_id "order1") (orders Fixtures.after_payment)
      = Some (Some 1000)
      /\ Order.paidAt
         <$> List.find (by_id "order1")
               (orders (fst (run (stripeWebhook Fixtures.env0 Fixtures.stripe0 5000
                                    (Fixtures.signed "cs_order1"))
                                 Fixtures.after_payment)))
         = Some (Some 5000))
  /\ ((fun o => (Order.status o, Order.isPaid o, Order.paidAt o))
      <$> List.find (by_id "order1")
            (orders (fst (run (updateOrderStatus Fixtures.env0 700
                                 (Fixtures.status_req Fixtures.admin "Paid"))
                              Fixtures.after_checkout)))
      = Some ("Paid"%string, false, None)).
Proof. vm_compute. repeat apply conj; reflexivity. Qed.

(** Every order in a store reached from a store of schema-valid orders is
    schema-valid, so the validity that the status update asks of a stored
    order holds of every order the handlers have written. *)
Lemma reachable_orders_valid env frontend stripe st rs st' o :
  all_valid st -> reaches env frontend stripe st rs st' ->
  In o (orders st') -> Order.valid o = true.
Proof.
  intros Hv Hreach Hin.
  apply (reaches_invariants _ _ _ _ _ _ Hreach) in Hv.
  unfold all_valid in Hv. rewrite List.Forall_forall in Hv. auto.
Qed.

(** *** Redelivery after other requests *)

Lemma upsert_fresh x l :
  ~ In (Order._id x) (List.map Order._id l) -> upsert x l = l ++ [x].
Proof.
  induction l as [|y rest IH]; simpl; [reflexivity|].
  intros H. destruct (String.eqb (Order._id y) (Order._id x)) eqn:E.
  - apply String.eqb_eq in E. tauto.
  - rewrite IH by tauto. reflexivity.
Qed.

Lemma upsert_last x1 x2 l :
  Order._id x2 = Order._id x1 ->
  ~ In (Order._id x1) (List.map Order._id l) ->
  upsert x2 (l ++ [x1]) = l ++ [x2].
Proof.
  intros Hid. induction l as [|y rest IH]; simpl.
  - intros _. rewrite Hid, String.eqb_refl. reflexivity.
  - intros H. destruct (String.eqb (Order._id y) (Order._id x2)) eqn:E.
    + apply String.eqb_eq in E. rewrite Hid in E. tauto.
    + rewrite IH by tauto. reflexivity.
Qed.

Lemma find_app_Some {A} (f : A -> bool) l1 l2 x :
  List.find f l1 = Some x -> List.find f (l1 ++ l2) = Some x.
Proof.
  induction l1 as [|y rest IH]; simpl; [discriminate|].
  destruct (f y); auto.
Qed.

(** A write that replaces a document by one with the same session id,
    under another [_id] than the first match of [sid], leaves that first
    match in place. *)
Lemma find_by_session_upsert_other sid l o x old :
  List.find (by_session sid) l = Some o ->
  List.find (by_id (Order._id x)) l = Some old ->
  Order.stripeSessionId x = Order.stripeSessionId old ->
  Order._id x <> Order._id o ->
  List.find (by_session sid) (upsert x l) = Some o.
Proof.
  intros Hfind Hold Hsid Hne.
  induction l as [|y rest IH]; simpl in *; [discriminate|].
  unfold by_id at 1 in Hold.
  destruct (String.eqb (Order._id y) (Order._id x)) eqn:E.
  - inversion Hold; subst old. apply String.eqb_eq in E.
    destruct (by_session sid y) eqn:Hy.
    + inversion Hfind; subst o. congruence.
    + simpl. unfold by_session in *. rewrite Hsid, Hy. exact Hfind.
  - simpl. destruct (by_session sid y); [exact Hfind|]. apply IH; assumption.
Qed.

Lemma same_id_same_order l a b :
  NoDup (List.map Order._id l) -> In a l -> In b l ->
  Order._id a = Order._id b -> a = b.
Proof.
  intros Hnd Ha Hb Hid.
  pose proof (find_by_id_unique l a Hnd Ha) as H1.
  pose proof (find_by_id_unique l b Hnd Hb) as H2.
  rewrite Hid in H1. rewrite H1 in H2. inversion H2. reflexivity.
Qed.

Lemma ordered_qty_status_written env now status pid order :
  ordered_qty pid (Order.items (Order.pre_save env (status_written now status order)))
  = ordered_qty pid (Order.items order).
Proof.
  rewrite ordered_qty_pre_save. unfold status_written.
  destruct (String.eqb status "Delivered"); reflexivity.
Qed.

(** The first match of a session id stays the same order, with the same
    lines, through a request. *)
Lemma handle_keeps_session_match env frontend stripe r st sid o :
  ids_unique st -> admissible r st ->
  List.find (by_session sid) (orders st) = Some o ->
  exists o',
    List.find (by_session sid) (orders (fst (handle env frontend stripe r st))) = Some o'
    /\ Order._id o' = Order._id o
    /\ (forall pid, ordered_qty pid (Order.items o') = ordered_qty pid (Order.items o)).
Proof.
  intros Hnd Hadm Hfind.
  destruct (find_by_session_Some _ _ _ Hfind) as [Hsid Hin].
  destruct r as [newId req|now req|now req]; simpl in *.
  - destruct (createOrder_orders env frontend stripe newId req st) as [_ H].
    exists o. split; [|auto].
    destruct H as [->|(o1 & Hid1 & _ & [->|(o2 & Hid2 & _ & ->)])]; [exact Hfind| |].
    + rewrite upsert_fresh by (rewrite Hid1; exact Hadm).
      apply find_app_Some. exact Hfind.
    + rewrite (upsert_fresh o1) by (rewrite Hid1; exact Hadm).
      rewrite (upsert_last o1 o2) by (rewrite ?Hid1, ?Hid2; auto).
      apply find_app_Some. exact Hfind.
  - destruct (updateOrderStatus_cases env now req st) as [->|(order & Hf & _ & ->)];
      [exists o; auto|].
    simpl. destruct (find_by_id_Some _ _ _ Hf) as [Hido Hino].
    set (x := Order.pre_save env (status_written now (us_status req) order)).
    assert (Hidx : Order._id x = Order._id order).
    { unfold x, status_written. rewrite pre_save_id.
      destruct (String.eqb (us_status req) "Delivered"); reflexivity. }
    assert (Hsx : Order.stripeSessionId x = Order.stripeSessionId order).
    { unfold x, status_written. rewrite pre_save_stripeSessionId.
      destruct (String.eqb (us_status req) "Delivered"); reflexivity. }
    destruct (String.string_dec (Order._id order) (Order._id o)) as [Heq|Hne].
    + assert (order = o) by (apply (same_id_same_order (orders st)); assumption).
      subst order. exists x. split; [|split].
      * apply (find_by_session_upsert _ _ o); try assumption. congruence.
      * exact Hidx.
      * intros pid. apply ordered_qty_status_written.
    + exists o. split; [|auto].
      apply (find_by_session_upsert_other _ _ _ _ order); try assumption.
      * rewrite Hidx, Hido. exact Hf.
      * congruence.
  - destruct (stripeWebhook_cases env stripe now req st)
      as [->|(event & order & Hev & Hty & Hf)]; [exists o; auto|].
    rewrite (stripeWebhook_matched _ _ _ _ _ _ _ Hev Hty Hf). simpl.
    destruct (find_by_session_Some _ _ _ Hf) as [Hso Hino].
    set (x := Order.pre_save env
                (Order.set_paid now (Stripe.object_payment_intent event) order)).
    assert (Hidx : Order._id x = Order._id order) by (unfold x; rewrite pre_save_id; reflexivity).
    assert (Hsx : Order.stripeSessionId x = Order.stripeSessionId order)
      by (unfold x; rewrite pre_save_stripeSessionId; reflexivity).
    destruct (String.string_dec (Order._id order) (Order._id o)) as [Heq|Hne].
    + assert (order = o) by (apply (same_id_same_order (orders st)); assumption).
      subst order. exists x. split; [|split].
      * apply (find_by_session_upsert _ _ o); try assumption. congruence.
      * exact Hidx.
      * intros pid. unfold x. rewrite ordered_qty_pre_save. reflexivity.
    + exists o. split; [|auto].
      apply (find_by_session_upsert_other _ _ _ _ order); try assumption.
      * rewrite Hidx. apply find_by_id_unique; assumption.
      * congruence.
Qed.

Lemma reaches_keeps_session_match env frontend stripe st rs st' :
  reaches env frontend stripe st rs st' ->
  ids_unique st ->
  forall sid o,
    List.find (by_session sid) (orders st) = Some o ->
    exists o',
      List.find (by_session sid) (orders st') = Some o'
      /\ Order._id o' = Order._id o
      /\ (forall pid, ordered_qty pid (Order.items o') = ordered_qty pid (Order.items o)).
Proof.
  induction 1 as [st|st r rs st' Hadm Hreach IH]; intros Hnd sid o Hfind.
  - exists o. auto.
  - destruct (handle_keeps_session_match env frontend stripe r st sid o Hnd Hadm Hfind)
      as (o1 & Hf1 & Hid1 & Hq1).
    destruct (IH (handle_ids_unique _ _ _ _ _ Hnd) sid o1 Hf1) as (o' & Hf' & Hid' & Hq').
    exists o'. split; [exact Hf'|]. split; [congruence|].
    intros pid. rewrite Hq', Hq1. reflexivity.
Qed.

(** C2, as amended.  For a store with unique order ids, let a verified
    completed-checkout event whose session id is stored on an order be
    delivered, then any sequence of requests be handled, then the same
    event be delivered again.  Both deliveries are answered 200, and each
    of them leaves the order with status Paid and isPaid set: a second
    delivery that finds the order still Paid leaves its status and isPaid
    as they are, and one that finds a status written in between (Shipped,
    say) sets it to Paid again.  Neither delivery is a no-op on stock:
    each lowers the stock of every product by the quantity the order
    requests of it, so that two deliveries in a row lower it twice. *)
Theorem redelivery_sets_paid_and_decrements_again
    env frontend stripe t1 t2 req st event order rs st1 :
  ids_unique st ->
  Stripe.webhooks_constructEvent stripe (wh_body req) (wh_signature req)
    (STRIPE_WEBHOOK_SECRET env) = inl event ->
  Stripe.type event = "checkout.session.completed"%string ->
  List.find (by_session (Stripe.object_id event)) (orders st) = Some order ->
  reaches env frontend stripe (fst (run (stripeWebhook env stripe t1 req) st)) rs st1 ->
  let out1 := run (stripeWebhook env stripe t1 req) st in
  let out2 := run (stripeWebhook env stripe t2 req) st1 in
  snd out1 = {| statusCode := 200; body := Received |}
  /\ snd out2 = {| statusCode := 200; body := Received |}
  /\ (exists o1 o2,
        List.find (by_id (Order._id order)) (orders (fst out1)) = Some o1
        /\ List.find (by_id (Order._id order)) (orders (fst out2)) = Some o2
        /\ Order.status o1 = "Paid"%string /\ Order.isPaid o1 = true
        /\ Order.status o2 = "Paid"%string /\ Order.isPaid o2 = true)
  /\ (forall pid,
        stock_of pid (fst out1)
        = (fun s => s - ordered_qty pid (Order.items order)) <$> stock_of pid st
        /\ stock_of pid (fst out2)
           = (fun s => s - ordered_qty pid (Order.items order)) <$> stock_of pid st1)
  /\ (rs = [] ->
      forall pid,
        stock_of pid (fst out2)
        = (fun s => s - 2 * ordered_qty pid (Order.items order)) <$> stock_of pid st).
Proof.
  intros Hnd Hev Hty Hfind Hreach out1 out2.
  destruct (webhook_delivery env stripe t1 req st event order Hnd Hev Hty Hfind)
    as (Hr1 & Hnd1 & Hstock1 & o1 & Hs1 & Hi1 & Hid1 & Hst1 & Hp1 & _ & _ & _ & Hq1).
  fold out1 in Hr1, Hnd1, Hstock1, Hs1, Hi1.
  destruct (reaches_keeps_session_match _ _ _ _ _ _ Hreach Hnd1 _ _ Hs1)
    as (om & Hsm & Hidm & Hqm).
  assert (Hndm : ids_unique st1)
    by (apply (reaches_invariants _ _ _ _ _ _ Hreach); exact Hnd1).
  destruct (webhook_delivery env stripe t2 req st1 event om Hndm Hev Hty Hsm)
    as (Hr2 & _ & Hstock2 & o2 & _ & Hi2 & _ & Hst2 & Hp2 & _).
  fold out2 in Hr2, Hstock2, Hi2.
  assert (Hq : forall pid, ordered_qty pid (Order.items om)
                           = ordered_qty pid (Order.items order))
    by (intros pid; rewrite Hqm, Hq1; reflexivity).
  split; [exact Hr1|]. split; [exact Hr2|]. split; [|split].
  - exists o1, o2. rewrite Hidm, Hid1 in Hi2. repeat apply conj; auto.
  - intros pid. split; [apply Hstock1|]. rewrite Hstock2, Hq. reflexivity.
  - intros ->. inversion Hreach; subst. intros pid.
    rewrite Hstock2, Hq, Hstock1.
    destruct (stock_of pid st) as [s|]; simpl; [|reflexivity]. f_equal; lia.
Qed.

Lemma redelivery_sets_paid_and_decrements_again_witness :
  let out1 := run (stripeWebhook Fixtures.env0 Fixtures.stripe0 1000
                     (Fixtures.signed "cs_order1")) Fixtures.after_checkout in
  let shipped := fst (run (updateOrderStatus Fixtures.env0 1500
                             (Fixtures.status_req Fixtures.admin "Shipped")) (fst out1)) in
  let out2 := run (stripeWebhook Fixtures.env0 Fixtures.stripe0 2000
                     (Fixtures.signed "cs_order1")) shipped in
  Order.status <$> List.find (by_id "order1") (orders shipped) = Some "Shipped"%string
  /\ stock_of "p1" shipped = Some 3
  /\ Order.status <$> List.find (by_id "order1") (orders (fst out2)) = Some "Paid"%string
  /\ stock_of "p1" (fst out2) = Some 1.
Proof.
  intros out1 shipped out2.
  assert (Hfind : exists order,
             List.find (by_session "cs_order1") (orders Fixtures.after_checkout) = Some order
             /\ Order._id order = "order1"%string
             /\ ordered_qty "p1" (Order.items order) = 2).
  { eexists. vm_compute. repeat split. }
  destruct Hfind as (order & Hfind & Hid & Hq).
  assert (Hshipped : Order.status <$> List.find (by_id "order1") (orders shipped)
                     = Some "Shipped"%string) by (vm_compute; reflexivity).
  assert (Hstock : stock_of "p1" shipped = Some 3) by (vm_compute; reflexivity).
  destruct (redelivery_sets_paid_and_decrements_again Fixtures.env0 Fixtures.frontend
              Fixtures.stripe0 1000 2000 (Fixtures.signed "cs_order1")
              Fixtures.after_checkout
              {| Stripe.type := "checkout.session.completed";
                 Stripe.object_id := "cs_order1";
                 Stripe.object_payment_intent := Some "pi_cs_order1" |} order
              [PutStatus 1500 (Fixtures.status_req Fixtures.admin "Shipped")] shipped)
    as (_ & _ & (o1 & o2 & _ & Hf2 & _ & _ & Hst2 & _) & Hstocks & _).
  - unfold ids_unique. vm_compute. apply NoDup_cons. split; [intros H; inversion H|].
    apply NoDup_nil. exact I.
  - reflexivity.
  - reflexivity.
  - exact Hfind.
  - apply reaches_cons; [exact I|]. apply reaches_nil.
  - fold out2 in Hf2, Hstocks. rewrite Hid in Hf2.
    split; [exact Hshipped|]. split; [exact Hstock|]. split.
    + rewrite Hf2. simpl. rewrite Hst2. reflexivity.
    + destruct (Hstocks "p1"%string) as [_ H2]. rewrite H2, Hq, Hstock. reflexivity.
Defined.

(* ===================================================================== *)
(** ** Further properties of the order model and its controller *)
(* ===================================================================== *)

(** *** Saving again *)

Lemma pre_save_explicit env o :
  Order.pre_save env o
  = let rate := Order.effective_rate env o in
    let lines := List.map (Order.price_item rate) (Order.items o) in
    {| Order._id := Order._id o; Order.customer := Order.customer o;
       Order.items := lines;
       Order.shippingAddress := Order.shippingAddress o;
       Order.subtotal := round2 (sum (List.map OrderItem.itemRevenue lines));
       Order.platformFeeTotal := round2 (sum (List.map OrderItem.platformFee lines));
       Order.shippingCost := Order.shippingCost o;
       Order.total := round2 (add (sum (List.map OrderItem.itemRevenue lines))
                                  (or_else (Order.shippingCost o) zero));
       Order.commissionRate := Order.commissionRate o;
       Order.paymentMethod := Order.paymentMethod o;
       Order.stripeSessionId := Order.stripeSessionId o;
       Order.stripePaymentIntentId := Order.stripePaymentIntentId o;
       Order.status := Order.status o; Order.isPaid := Order.isPaid o;
       Order.paidAt := Order.paidAt o;
       Order.isDelivered := Order.isDelivered o;
       Order.deliveredAt := Order.deliveredAt o;
       Order.notes := Order.notes o |}.
Proof.
  unfold Order.pre_save. rewrite map_items_spec. cbv zeta.
  unfold sum. rewrite !List.map_map. reflexivity.
Qed.

Lemma price_items_twice rate l :
  List.map (Order.price_item rate) (List.map (Order.price_item rate) l)
  = List.map (Order.price_item rate) l.
Proof. rewrite List.map_map. apply List.map_ext. reflexivity. Qed.

(** X1.  The pre-save hook is idempotent: the document it produces is left
    as it is by a further run of the hook, so saving an order again
    changes none of its lines or totals. *)
Theorem pre_save_idempotent env o :
  Order.pre_save env (Order.pre_save env o) = Order.pre_save env o.
Proof.
  rewrite (pre_save_explicit env (Order.pre_save env o)).
  rewrite (pre_save_explicit env o). cbv zeta.
  cbn [Order._id Order.customer Order.items Order.shippingAddress Order.shippingCost
       Order.commissionRate Order.paymentMethod Order.stripeSessionId
       Order.stripePaymentIntentId Order.status Order.isPaid Order.paidAt
       Order.isDelivered Order.deliveredAt Order.notes].
  change (Order.effective_rate env _) with (Order.effective_rate env o).
  rewrite price_items_twice. reflexivity.
Qed.

Lemma effective_rate_captured env o :
  truthy (Order.commissionRate o) = true ->
  Order.effective_rate env o = Order.commissionRate o.
Proof.
  unfold Order.effective_rate, or_else. intros H. rewrite H, H. reflexivity.
Qed.

Lemma pre_save_any_env env env' o :
  truthy (Order.commissionRate o) = true ->
  Order.pre_save env o = Order.pre_save env' o.
Proof.
  intros H. rewrite !pre_save_explicit, !(effective_rate_captured _ o H). reflexivity.
Qed.

Lemma pre_save_commissionRate env o :
  Order.commissionRate (Order.pre_save env o) = Order.commissionRate o.
Proof. rewrite pre_save_explicit. reflexivity. Qed.

Lemma Order_save_any_env env env' v o st :
  truthy (Order.commissionRate o) = true ->
  Order_save env v o st = Order_save env' v o st.
Proof.
  intros H. unfold Order_save. rewrite (pre_save_any_env env env' o H). reflexivity.
Qed.

(** X2.  The commission rate of an order made by createOrder is the
    schema's default 0.10 and is truthy, so the hook never reaches the
    PLATFORM_COMMISSION_RATE setting for it: whatever the environment
    holds, a checkout gives the same store and the same answer. *)
Theorem checkout_ignores_environment_rate env env' frontend stripe newId req st :
  run (createOrder env frontend stripe newId req) st
  = run (createOrder env' frontend stripe newId req) st.
Proof.
  unfold run, createOrder.
  destruct (co_items req) as [|x rest] eqn:Hitems; [reflexivity|].
  rewrite <- Hitems. clear Hitems x rest.
  unfold bind at 1 5.
  destruct (validate_items (co_items req) [] st) as [st0 [validatedItems|r]];
    [|reflexivity].
  unfold bind at 1 4.
  rewrite (Order_save_any_env env env' true) by reflexivity.
  destruct (Order_save env' true _ st0) as [st1 [o1|r]] eqn:Hsave; [|reflexivity].
  apply Order_save_inv in Hsave. destruct Hsave as (Ho1 & _ & _).
  assert (Hrate : truthy (Order.commissionRate o1) = true)
    by (rewrite Ho1, pre_save_commissionRate; reflexivity).
  unfold bind at 1 3.
  destruct (Stripe_checkout_sessions_create stripe _ st1) as [st2 [session|r]];
    [|reflexivity].
  unfold bind.
  rewrite (Order_save_any_env env env' false) by exact Hrate.
  reflexivity.
Qed.

(** The three ways a checkout ends. *)
Lemma createOrder_outcomes env frontend stripe newId req st :
  let shippingCost := match co_shippingCost req with Some c => c | None => zero end in
  let validatedItems := snapshots (products st) (co_items req) in
  let o0 := new_Order newId (user_id (co_user req)) validatedItems
              (co_shippingAddress req) shippingCost in
  let o1 := Order.pre_save env o0 in
  let params := session_params frontend o1 (co_user req) validatedItems shippingCost in
  (exists resp,
      run (createOrder env frontend stripe newId req) st = (st, resp)
      /\ 400 <= statusCode resp < 500)
  \/ (co_items req <> [] /\ first_offence (products st) (co_items req) = None
      /\ Order.valid o0 = true
      /\ exists message,
           Stripe.checkout_sessions_create stripe params = inr message
           /\ run (createOrder env frontend stripe newId req) st
              = (set_orders (upsert o1 (orders st)) st,
                 {| statusCode := 500; body := Failure (StripeError message) |}))
  \/ (co_items req <> [] /\ first_offence (products st) (co_items req) = None
      /\ Order.valid o0 = true
      /\ exists session,
           Stripe.checkout_sessions_create stripe params = inl session
           /\ run (createOrder env frontend stripe newId req) st
              = (set_orders
                   (upsert (Order.pre_save env
                              (Order.set_stripeSessionId (Stripe.id session) o1))
                           (upsert o1 (orders st)))
                   (add_session params st),
                 {| statusCode := 201; body := Created newId (Stripe.url session) |})).
Proof.
  cbv zeta.
  remember (run (createOrder env frontend stripe newId req) st) as out eqn:Hout.
  unfold run, createOrder in Hout.
  destruct (co_items req) as [|x rest] eqn:Hitems.
  { left. eexists. split; [subst out; reflexivity|]. simpl. lia. }
  assert (Hne : x :: rest <> []) by discriminate.
  rewrite <- Hitems in Hout, Hne |- *. clear Hitems x rest.
  destruct (first_offence (products st) (co_items req)) as [[c e]|] eqn:Hoff.
  { left. unfold bind at 1 in Hout. rewrite (validate_items_fails _ _ _ _ _ Hoff) in Hout.
    eexists. split; [subst out; reflexivity|]. simpl.
    destruct (first_offence_code _ _ _ _ Hoff); lia. }
  unfold bind at 1 in Hout. rewrite (validate_items_passes _ _ _ Hoff) in Hout.
  simpl app in Hout.
  unfold bind at 1 in Hout. unfold Order_save at 1 in Hout. simpl andb in Hout.
  match type of Hout with
  | context [Order.valid ?o] => destruct (Order.valid o) eqn:Hvalid
  end; simpl negb in Hout; cbv iota in Hout.
  2:{ left. eexists. split; [subst out; reflexivity|]. simpl. lia. }
  unfold bind at 1 in Hout. unfold Stripe_checkout_sessions_create in Hout.
  match type of Hout with
  | context [Stripe.checkout_sessions_create stripe ?p] =>
      destruct (Stripe.checkout_sessions_create stripe p) as [session|message] eqn:Hcreate
  end.
  - right. right. repeat (split; [assumption || reflexivity|]).
    exists session. split; [reflexivity|].
    unfold bind, Order_save, ret in Hout. simpl in Hout.
    rewrite pre_save_id in Hout. simpl in Hout. rewrite pre_save_id in Hout.
    exact Hout.
  - right. left. repeat (split; [assumption || reflexivity|]).
    exists message. split; [reflexivity|]. exact Hout.
Qed.

(** *** What every write preserves *)

(** A property of documents that the four kinds of write keep holds of
    every stored order after a request if it held before. *)
Lemma handle_Forall env frontend stripe (P : Order.t -> Prop) r st :
  (forall newId customer items address shippingCost,
      P (Order.pre_save env (new_Order newId customer items address shippingCost))) ->
  (forall sid o, P o -> P (Order.pre_save env (Order.set_stripeSessionId sid o))) ->
  (forall now status o, P o -> P (Order.pre_save env (status_written now status o))) ->
  (forall now intent o, P o -> P (Order.pre_save env (Order.set_paid now intent o))) ->
  Forall P (orders st) ->
  Forall P (orders (fst (handle env frontend stripe r st))).
Proof.
  intros Hnew Hsid Hstatus Hpaid Hall.
  destruct r as [newId req|now req|now req]; simpl.
  - destruct (createOrder_outcomes env frontend stripe newId req st)
      as [(resp & -> & _)|[(_ & _ & _ & message & _ & ->)|(_ & _ & _ & session & _ & ->)]];
      simpl; auto using upsert_Forall.
  - destruct (updateOrderStatus_cases env now req st) as [->|(order & Hf & _ & ->)];
      [exact Hall|].
    simpl. apply upsert_Forall; [|exact Hall]. apply Hstatus.
    rewrite List.Forall_forall in Hall. apply Hall. apply (find_by_id_Some _ _ _ Hf).
  - destruct (stripeWebhook_cases env stripe now req st)
      as [->|(event & order & Hev & Hty & Hf)]; [exact Hall|].
    rewrite (stripeWebhook_matched _ _ _ _ _ _ _ Hev Hty Hf). simpl.
    apply upsert_Forall; [|exact Hall]. apply Hpaid.
    rewrite List.Forall_forall in Hall. apply Hall. apply (find_by_session_Some _ _ _ Hf).
Qed.

Lemma reaches_Forall env frontend stripe (P : Order.t -> Prop) st rs st' :
  (forall newId customer items address shippingCost,
      P (Order.pre_save env (new_Order newId customer items address shippingCost))) ->
  (forall sid o, P o -> P (Order.pre_save env (Order.set_stripeSessionId sid o))) ->
  (forall now status o, P o -> P (Order.pre_save env (status_written now status o))) ->
  (forall now intent o, P o -> P (Order.pre_save env (Order.set_paid now intent o))) ->
  reaches env frontend stripe st rs st' ->
  Forall P (orders st) -> Forall P (orders st').
Proof.
  intros Hnew Hsid Hstatus Hpaid. induction 1 as [st|st r rs st' Hadm Hreach IH]; [auto|].
  intros Hall. apply IH. apply handle_Forall; assumption.
Qed.

Lemma marks_pre_save env o : marks_consistent o -> marks_consistent (Order.pre_save env o).
Proof.
  unfold marks_consistent.
  rewrite pre_save_isPaid, pre_save_paidAt, pre_save_isDelivered, pre_save_deliveredAt.
  auto.
Qed.

(** X3.  Through any sequence of requests, every stored order keeps its
    companion marks together: an order with isPaid set has a paidAt date
    and an order with isDelivered set has a deliveredAt date. *)
Theorem flags_come_with_dates env frontend stripe st rs st' :
  all_marked st ->
  reaches env frontend stripe st rs st' ->
  all_marked st'.
Proof.
  intros Hall Hreach. unfold all_marked in *.
  apply (reaches_Forall env frontend stripe marks_consistent st rs st'); try assumption.
  - intros. apply marks_pre_save. split; simpl; discriminate.
  - intros sid o Ho. apply marks_pre_save. exact Ho.
  - intros now status o [Hp Hd]. apply marks_pre_save. unfold status_written.
    destruct (String.eqb status "Delivered"); split; simpl; eauto.
  - intros now intent o [Hp Hd]. apply marks_pre_save. split; simpl; eauto.
Qed.

Lemma flags_come_with_dates_witness : all_marked Fixtures.after_delivery.
Proof.
  apply (flags_come_with_dates Fixtures.env0 Fixtures.frontend Fixtures.stripe0
           Fixtures.shop Fixtures.history Fixtures.after_delivery).
  - unfold all_marked. simpl. apply Forall_nil. exact I.
  - exact history_reaches_after_delivery.
Defined.

(** X4.  Through any sequence of requests, every stored order stays
    settled: its lines and totals are what the pre-save hook computes from
    its prices, quantities and rate, so that its subtotal, platformFeeTotal
    and total are the rounded sums over its own lines. *)
Theorem stored_orders_stay_settled env frontend stripe st rs st' :
  all_settled env st ->
  reaches env frontend stripe st rs st' ->
  all_settled env st'
  /\ forall o, In o (orders st') ->
       Order.subtotal o = round2 (sum (revenues o))
       /\ Order.platformFeeTotal o = round2 (sum (fees o))
       /\ Order.total o
          = round2 (add (sum (revenues o)) (or_else (Order.shippingCost o) zero)).
Proof.
  intros Hall Hreach.
  assert (Hall' : all_settled env st').
  { unfold all_settled in *.
    apply (reaches_Forall env frontend stripe (settled env) st rs st'); try assumption;
      intros; apply pre_save_idempotent. }
  split; [exact Hall'|].
  intros o Hin. unfold all_settled in Hall'. rewrite List.Forall_forall in Hall'.
  specialize (Hall' o Hin). unfold settled in Hall'. rewrite <- Hall'.
  split; [apply pre_save_subtotal|].
  split; [apply pre_save_platformFeeTotal|apply pre_save_total].
Qed.

Lemma stored_orders_stay_settled_witness :
  all_settled Fixtures.env0 Fixtures.after_delivery
  /\ forall o, In o (orders Fixtures.after_delivery) ->
       Order.subtotal o = round2 (sum (revenues o))
       /\ Order.platformFeeTotal o = round2 (sum (fees o))
       /\ Order.total o
          = round2 (add (sum (revenues o)) (or_else (Order.shippingCost o) zero)).
Proof.
  apply (stored_orders_stay_settled Fixtures.env0 Fixtures.frontend Fixtures.stripe0
           Fixtures.shop Fixtures.history Fixtures.after_delivery).
  - unfold all_settled. simpl. apply Forall_nil. exact I.
  - exact history_reaches_after_delivery.
Defined.

Lemma pre_save_set_paid env now intent o :
  Order.pre_save env (Order.set_paid now intent o)
  = Order.set_paid now intent (Order.pre_save env o).
Proof. rewrite !pre_save_explicit. reflexivity. Qed.

(** X5.  The payment webhook saves through the hook that recomputes the
    totals, but for a stored order that is settled the recomputation
    changes nothing: the document written is the matched order with only
    its status, isPaid, paidAt and payment-intent id replaced. *)
Theorem webhook_writes_only_payment_fields env stripe now req st event order :
  settled env order ->
  Stripe.webhooks_constructEvent stripe (wh_body req) (wh_signature req)
    (STRIPE_WEBHOOK_SECRET env) = inl event ->
  Stripe.type event = "checkout.session.completed"%string ->
  List.find (by_session (Stripe.object_id event)) (orders st) = Some order ->
  List.find (by_id (Order._id order))
    (orders (fst (run (stripeWebhook env stripe now req) st)))
  = Some (Order.set_paid now (Stripe.object_payment_intent event) order).
Proof.
  intros Hsettled Hev Hty Hfind.
  rewrite (stripeWebhook_matched _ _ _ _ _ _ _ Hev Hty Hfind). simpl.
  rewrite pre_save_set_paid, Hsettled.
  apply (find_upsert_eq (Order.set_paid now (Stripe.object_payment_intent event) order)).
Qed.

Lemma webhook_writes_only_payment_fields_witness :
  exists order,
    List.find (by_id "order1") (orders Fixtures.after_checkout) = Some order
    /\ List.find (by_id "order1") (orders Fixtures.after_payment)
       = Some (Order.set_paid 1000 (Some "pi_cs_order1"%string) order).
Proof.
  eexists. split; [vm_compute; reflexivity|].
  match goal with
  | |- _ = Some (Order.set_paid _ _ ?o) =>
      apply (webhook_writes_only_payment_fields Fixtures.env0 Fixtures.stripe0 1000
               (Fixtures.signed "cs_order1") Fixtures.after_checkout
               {| Stripe.type := "checkout.session.completed";
                  Stripe.object_id := "cs_order1";
                  Stripe.object_payment_intent := Some "pi_cs_order1" |} o)
  end.
  - vm_compute. reflexivity.
  - reflexivity.
  - reflexivity.
  - vm_compute. reflexivity.
Defined.

(** *** Checkout: what it touches *)

(** X6.  A checkout under a fresh order id never changes the catalogue (no
    stock is reserved or decremented, whatever the outcome) and never
    changes a stored order: the orders afterwards are the orders before,
    followed by at most one new order, which carries the new id and is
    Pending and unpaid.  A payment session is recorded exactly when the
    answer is 201. *)
Theorem checkout_adds_at_most_one_pending_order env frontend stripe newId req st :
  ~ In newId (List.map Order._id (orders st)) ->
  let out := run (createOrder env frontend stripe newId req) st in
  products (fst out) = products st
  /\ (exists added,
        orders (fst out) = orders st ++ added
        /\ (added = []
            \/ exists o, added = [o] /\ Order._id o = newId
                         /\ Order.status o = "Pending"%string
                         /\ Order.isPaid o = false))
  /\ (statusCode (snd out) <> 201 -> sessions (fst out) = sessions st)
  /\ (statusCode (snd out) = 201 ->
      exists params, sessions (fst out) = sessions st ++ [params]).
Proof.
  intros Hfresh out. unfold out.
  destruct (createOrder_outcomes env frontend stripe newId req st)
    as [(resp & -> & Hcode)|[(_ & _ & _ & message & _ & ->)|(_ & _ & _ & session & _ & ->)]];
    simpl.
  - split; [reflexivity|]. split; [exists []; rewrite app_nil_r; auto|].
    split; [reflexivity|]. intros H. lia.
  - split; [reflexivity|]. split; [|split; [reflexivity|discriminate]].
    eexists. split.
    + apply upsert_fresh. rewrite pre_save_id. exact Hfresh.
    + right. eexists. split; [reflexivity|].
      rewrite pre_save_id, pre_save_status, pre_save_isPaid. auto.
  - split; [reflexivity|]. split; [|split; [intros H; congruence|eauto]].
    eexists. split.
    + match goal with
      | |- upsert ?b (upsert ?a ?l) = _ =>
          rewrite (upsert_fresh a l) by (rewrite pre_save_id; exact Hfresh)
      end.
      apply upsert_last.
      * rewrite pre_save_id. simpl. reflexivity.
      * rewrite pre_save_id. exact Hfresh.
    + right. eexists. split; [reflexivity|].
      rewrite pre_save_id, pre_save_status, pre_save_isPaid. simpl.
      rewrite pre_save_id, pre_save_status, pre_save_isPaid. auto.
Qed.

Lemma checkout_adds_at_most_one_pending_order_witness :
  products Fixtures.after_checkout = products Fixtures.shop
  /\ exists o, orders Fixtures.after_checkout = orders Fixtures.shop ++ [o]
               /\ Order._id o = "order1"%string.
Proof.
  destruct (checkout_adds_at_most_one_pending_order Fixtures.env0 Fixtures.frontend
              Fixtures.stripe0 "order1" Fixtures.checkout_req Fixtures.shop)
    as (Hp & (added & Hadd & Hcase) & _ & _).
  - simpl. tauto.
  - split; [exact Hp|].
    destruct Hcase as [->|(o & -> & Hid & _)].
    + exfalso. vm_compute in Hadd. discriminate.
    + exists o. split; [exact Hadd|exact Hid].
Defined.



(** *** Status updates: what they refuse and what they write *)

Lemma updateOrderStatus_refusals env now req st :
  statusCode (snd (run (updateOrderStatus env now req) st)) <> 200 ->
  fst (run (updateOrderStatus env now req) st) = st
  /\ ((List.find (by_id (us_id req)) (orders st) = None
       /\ snd (run (updateOrderStatus env now req) st)
          = {| statusCode := 404; body := Failure OrderNotFound |})
      \/ (exists order,
            List.find (by_id (us_id req)) (orders st) = Some order
            /\ may_update (us_user req) order = false
            /\ snd (run (updateOrderStatus env now req) st)
               = {| statusCode := 403; body := Failure NoVendorItems |})
      \/ (exists order,
            List.find (by_id (us_id req)) (orders st) = Some order
            /\ may_update (us_user req) order = true
            /\ Order.valid (status_written now (us_status req) order) = false
            /\ snd (run (updateOrderStatus env now req) st)
               = {| statusCode := 400; body := Failure ValidationError |})).
Proof.
  unfold run, updateOrderStatus, bind, Order_findById, may_update.
  destruct (List.find (by_id (us_id req)) (orders st)) as [order|] eqn:Hf.
  - fold (status_written now (us_status req) order). unfold Order_save.
    destruct (String.eqb (role (us_user req)) "Vendor").
    + destruct (existsb _ (Order.items order)) eqn:Hown; simpl.
      * destruct (Order.valid (status_written now (us_status req) order)) eqn:Hv; simpl.
        -- intros H. congruence.
        -- intros _. split; [reflexivity|]. right. right. exists order. auto.
      * intros _. split; [reflexivity|]. right. left. exists order. auto.
    + simpl.
      destruct (Order.valid (status_written now (us_status req) order)) eqn:Hv; simpl.
      * intros H. congruence.
      * intros _. split; [reflexivity|]. right. right. exists order. auto.
  - simpl. intros _. split; [reflexivity|]. left. auto.
Qed.


(** X8.  A status update that is not answered 200 leaves the store as it
    was, and it is one of exactly three refusals: 404 when no order has the
    id, 403 when a Vendor owns none of the order's lines, 400 when the
    document with the new status fails the schema's validation. *)
Theorem status_update_refusal_changes_nothing env now req st :
  statusCode (snd (run (updateOrderStatus env now req) st)) <> 200 ->
  fst (run (updateOrderStatus env now req) st) = st
  /\ ((List.find (by_id (us_id req)) (orders st) = None
       /\ snd (run (updateOrderStatus env now req) st)
          = {| statusCode := 404; body := Failure OrderNotFound |})
      \/ (exists order,
            List.find (by_id (us_id req)) (orders st) = Some order
            /\ may_update (us_user req) order = false
            /\ snd (run (updateOrderStatus env now req) st)
               = {| statusCode := 403; body := Failure NoVendorItems |})
      \/ (exists order,
            List.find (by_id (us_id req)) (orders st) = Some order
            /\ may_update (us_user req) order = true
            /\ Order.valid (status_written now (us_status req) order) = false
            /\ snd (run (updateOrderStatus env now req) st)
               = {| statusCode := 400; body := Failure ValidationError |})).
Proof. exact (updateOrderStatus_refusals env now req st). Qed.

Lemma status_update_refusal_changes_nothing_witness :
  fst (run (updateOrderStatus Fixtures.env0 3000
              {| us_user := Fixtures.vendor2; us_id := "order1"; us_status := "Shipped" |})
           Fixtures.after_payment)
  = Fixtures.after_payment.
Proof.
  apply (status_update_refusal_changes_nothing Fixtures.env0 3000
           {| us_user := Fixtures.vendor2; us_id := "order1"; us_status := "Shipped" |}
           Fixtures.after_payment).
  vm_compute. discriminate.
Defined.

Lemma status_written_status now status order :
  Order.status (status_written now status order) = status.
Proof. unfold status_written. destruct (String.eqb status "Delivered"); reflexivity. Qed.

(** X9.  The handler itself accepts no status outside the schema's list:
    for an order the user may update, a status that is not one of the seven
    enumerated values fails validation at save, the answer is 400 and
    nothing is written. *)
Theorem status_outside_enum_is_rejected_at_save env now req st order :
  List.find (by_id (us_id req)) (orders st) = Some order ->
  may_update (us_user req) order = true ->
  ~ In (us_status req) Order.STATUSES ->
  run (updateOrderStatus env now req) st
  = (st, {| statusCode := 400; body := Failure ValidationError |}).
Proof.
  intros Hf Hown Hout.
  assert (Hv : Order.valid (status_written now (us_status req) order) = false).
  { unfold Order.valid. rewrite status_written_status.
    replace (bool_decide (us_status req ∈ Order.STATUSES)) with false.
    - rewrite andb_false_r. reflexivity.
    - symmetry. apply bool_decide_eq_false. rewrite list_elem_of_In. exact Hout. }
  unfold run, updateOrderStatus, bind, Order_findById. rewrite Hf.
  fold (status_written now (us_status req) order). unfold Order_save.
  unfold may_update in Hown.
  destruct (String.eqb (role (us_user req)) "Vendor");
    [rewrite Hown|]; simpl; rewrite Hv; reflexivity.
Qed.

Lemma status_outside_enum_is_rejected_at_save_witness :
  run (updateOrderStatus Fixtures.env0 3000
         {| us_user := Fixtures.admin; us_id := "order1"; us_status := "Returned" |})
      Fixtures.after_payment
  = (Fixtures.after_payment, {| statusCode := 400; body := Failure ValidationError |}).
Proof.
  eapply (status_outside_enum_is_rejected_at_save Fixtures.env0 3000
            {| us_user := Fixtures.admin; us_id := "order1"; us_status := "Returned" |}
            Fixtures.after_payment).
  - vm_compute. reflexivity.
  - vm_compute. reflexivity.
  - simpl. intros H. repeat (destruct H as [H|H]; [discriminate|]). exact H.
Defined.

Lemma pre_save_status_written env now status o :
  Order.pre_save env (status_written now status o)
  = status_written now status (Order.pre_save env o).
Proof.
  unfold status_written. destruct (String.eqb status "Delivered");
    rewrite !pre_save_explicit; reflexivity.
Qed.

(** X10.  An accepted status update rewrites the addressed order and nothing
    else: the catalogue, the recorded sessions, the order ids and every
    other order stay as they were.  On a settled order the document written
    differs from the stored one only in its status and, for Delivered, in
    isDelivered and deliveredAt; so isPaid and paidAt are never touched,
    also not by a move to Paid or Refunded, and a move away from Delivered
    does not clear isDelivered. *)
Theorem status_update_writes_only_status_fields env now req st :
  statusCode (snd (run (updateOrderStatus env now req) st)) = 200 ->
  let st' := fst (run (updateOrderStatus env now req) st) in
  products st' = products st
  /\ sessions st' = sessions st
  /\ List.map Order._id (orders st') = List.map Order._id (orders st)
  /\ (forall id, id <> us_id req ->
                  List.find (by_id id) (orders st') = List.find (by_id id) (orders st))
  /\ exists order,
       List.find (by_id (us_id req)) (orders st) = Some order
       /\ (settled env order ->
           List.find (by_id (us_id req)) (orders st')
           = Some (status_written now (us_status req) order))
       /\ forall written,
           List.find (by_id (us_id req)) (orders st') = Some written ->
           Order.status written = us_status req
           /\ Order.isPaid written = Order.isPaid order
           /\ Order.paidAt written = Order.paidAt order
           /\ (us_status req <> "Delivered"%string ->
               Order.isDelivered written = Order.isDelivered order
               /\ Order.deliveredAt written = Order.deliveredAt order)
           /\ (us_status req = "Delivered"%string ->
               Order.isDelivered written = true
               /\ Order.deliveredAt written = Some now).
Proof.
  intros Hcode st'. subst st'.
  destruct (updateOrderStatus_accepted env now req st Hcode) as (order & Hf & Hrun).
  rewrite Hrun. simpl.
  destruct (find_by_id_Some _ _ _ Hf) as [Hid Hin].
  assert (Hwid : Order._id (Order.pre_save env (status_written now (us_status req) order))
                 = us_id req).
  { rewrite pre_save_id. unfold status_written.
    destruct (String.eqb (us_status req) "Delivered"); exact Hid. }
  split; [reflexivity|]. split; [reflexivity|]. split; [|split].
  - apply upsert_ids. rewrite Hwid, <- Hid. apply in_map. exact Hin.
  - intros id Hne. apply find_upsert_ne. rewrite Hwid. exact Hne.
  - exists order. split; [exact Hf|]. split.
    + intros Hsettled. rewrite <- Hwid at 1. rewrite find_upsert_eq.
      rewrite pre_save_status_written, Hsettled. reflexivity.
    + intros written Hw. rewrite <- Hwid in Hw at 1. rewrite find_upsert_eq in Hw.
      inversion Hw; subst written. clear Hw.
      rewrite pre_save_status, pre_save_isPaid, pre_save_paidAt,
        pre_save_isDelivered, pre_save_deliveredAt.
      unfold status_written.
      destruct (String.eqb (us_status req) "Delivered") eqn:E; simpl.
      * apply String.eqb_eq in E. repeat apply conj; auto; intros; congruence.
      * apply String.eqb_neq in E. repeat apply conj; auto; intros; congruence.
Qed.

Lemma status_update_writes_only_status_fields_witness :
  products Fixtures.after_delivery = products Fixtures.after_payment
  /\ exists order written,
       List.find (by_id "order1") (orders Fixtures.after_payment) = Some order
       /\ List.find (by_id "order1") (orders Fixtures.after_delivery) = Some written
       /\ written = status_written 2000 "Delivered" order
       /\ Order.isPaid written = Order.isPaid order.
Proof.
  destruct (status_update_writes_only_status_fields Fixtures.env0 2000
              (Fixtures.status_req Fixtures.admin "Delivered") Fixtures.after_payment)
    as (Hp & _ & _ & _ & order & Hf & Hset & Hall).
  - vm_compute. reflexivity.
  - split; [exact Hp|].
    exists order, (status_written 2000 "Delivered" order).
    assert (Hs : settled Fixtures.env0 order).
    { vm_compute in Hf. inversion Hf. vm_compute. reflexivity. }
    split; [exact Hf|]. split; [exact (Hset Hs)|]. split; [reflexivity|].
    exact (proj1 (proj2 (Hall _ (Hset Hs)))).
Defined.

(** *** The payment webhook: what it leaves alone *)

Lemma inc_stock_fmap_zero (x : option Product.t) : x = Product.inc_stock 0 <$> x.
Proof. destruct x as [p|]; simpl; [rewrite inc_stock_zero|]; reflexivity. Qed.

(** X11.  Whatever the request and its outcome, the payment webhook creates
    and deletes no order and no product and records no session: the order
    ids and the sessions are as before, and every catalogue entry is the
    entry before with at most its stock moved; name, price, vendor and the
    other fields of a product are never written. *)
Theorem webhook_keeps_ids_sessions_and_catalogue_entries env stripe now req st :
  let st' := fst (run (stripeWebhook env stripe now req) st) in
  List.map Order._id (orders st') = List.map Order._id (orders st)
  /\ sessions st' = sessions st
  /\ forall pid, exists d, products st' !! pid = Product.inc_stock d <$> products st !! pid.
Proof.
  intros st'. subst st'.
  destruct (stripeWebhook_cases env stripe now req st) as [->|(event & order & Hev & Hty & Hf)].
  - split; [reflexivity|]. split; [reflexivity|].
    intros pid. exists 0. apply inc_stock_fmap_zero.
  - rewrite (stripeWebhook_matched _ _ _ _ _ _ _ Hev Hty Hf). simpl.
    split; [|split; [reflexivity|]].
    + apply upsert_ids. rewrite pre_save_id. simpl.
      apply in_map. apply (find_by_session_Some _ _ _ Hf).
    + intros pid. eexists. apply decrement_stock_lookup.
Qed.

(** *** Checkout followed by payment *)

Lemma find_app_none {A} (f : A -> bool) l x :
  Forall (fun y => f y = false) l -> f x = true -> List.find f (l ++ [x]) = Some x.
Proof.
  induction 1 as [|y rest Hy _ IH]; simpl; intros Hx.
  - rewrite Hx. reflexivity.
  - rewrite Hy. auto.
Qed.

(** X12.  Checkout and payment compose.  After a checkout answered 201 under
    a fresh order id, the new order is stored Pending and unpaid with the
    id of the created session; when the provider then delivers a verified
    completed-checkout event for that session, and no older order carries
    the same session id, the webhook answers 200, that order is Paid with
    isPaid set and paidAt the time of the delivery, and the stock of every
    product is what it was before the checkout less the quantity ordered. *)
Theorem checkout_then_payment env frontend stripe newId creq st :
  ids_unique st ->
  ~ In newId (List.map Order._id (orders st)) ->
  statusCode (snd (run (createOrder env frontend stripe newId creq) st)) = 201 ->
  let st1 := fst (run (createOrder env frontend stripe newId creq) st) in
  exists sid placed,
    List.find (by_id newId) (orders st1) = Some placed
    /\ Order.stripeSessionId placed = Some sid
    /\ Order.status placed = "Pending"%string
    /\ Order.isPaid placed = false
    /\ forall now wreq event,
        Stripe.webhooks_constructEvent stripe (wh_body wreq) (wh_signature wreq)
          (STRIPE_WEBHOOK_SECRET env) = inl event ->
        Stripe.type event = "checkout.session.completed"%string ->
        Stripe.object_id event = sid ->
        Forall (fun o => Order.stripeSessionId o <> Some sid) (orders st) ->
        let out2 := run (stripeWebhook env stripe now wreq) st1 in
        snd out2 = {| statusCode := 200; body := Received |}
        /\ (exists paid,
              List.find (by_id newId) (orders (fst out2)) = Some paid
              /\ Order.status paid = "Paid"%string
              /\ Order.isPaid paid = true
              /\ Order.paidAt paid = Some now)
        /\ forall pid,
             stock_of pid (fst out2)
             = (fun s => s - ordered_qty pid (snapshots (products st) (co_items creq)))
                 <$> stock_of pid st.
Proof.
  intros Hnd Hfresh Hcode st1. subst st1.
  destruct (run (createOrder env frontend stripe newId creq) st) as [st1 resp] eqn:Hrun.
  simpl in Hcode |- *.
  destruct (createOrder_created _ _ _ _ _ _ _ _ Hrun Hcode)
    as (session & _ & _ & Hst1 & _).
  set (o1 := Order.pre_save env
               (new_Order newId (user_id (co_user creq))
                  (snapshots (products st) (co_items creq)) (co_shippingAddress creq)
                  match co_shippingCost creq with Some c => c | None => zero end)) in *.
  set (placed := Order.pre_save env (Order.set_stripeSessionId (Stripe.id session) o1)) in *.
  assert (Hid1 : Order._id o1 = newId) by (unfold o1; rewrite pre_save_id; reflexivity).
  assert (Hidp : Order._id placed = newId)
    by (unfold placed; rewrite pre_save_id; simpl; exact Hid1).
  assert (Horders : orders st1 = orders st ++ [placed]).
  { rewrite Hst1. simpl.
    rewrite (upsert_fresh o1) by (rewrite Hid1; exact Hfresh).
    apply upsert_last; [congruence | rewrite Hid1; exact Hfresh]. }
  assert (Hprod : products st1 = products st) by (rewrite Hst1; reflexivity).
  assert (Hfindp : List.find (by_id newId) (orders st1) = Some placed).
  { rewrite <- Hidp. apply find_by_id_unique.
    - rewrite Horders, List.map_app. simpl. rewrite Hidp.
      apply NoDup_app. split; [exact Hnd|]. split.
      + intros x Hx Hx'. apply list_elem_of_In in Hx, Hx'. simpl in Hx'.
        destruct Hx' as [<-|[]]. exact (Hfresh Hx).
      + apply NoDup_singleton.
    - rewrite Horders. apply in_or_app. right. left. reflexivity. }
  assert (Hsid : Order.stripeSessionId placed = Some (Stripe.id session))
    by (unfold placed; rewrite pre_save_stripeSessionId; reflexivity).
  exists (Stripe.id session), placed.
  split; [exact Hfindp|]. split; [exact Hsid|].
  split; [unfold placed; rewrite pre_save_status; simpl; unfold o1;
          rewrite pre_save_status; reflexivity|].
  split; [unfold placed; rewrite pre_save_isPaid; simpl; unfold o1;
          rewrite pre_save_isPaid; reflexivity|].
  intros now wreq event Hev Hty Hobj Hnone.
  assert (Hmatch : List.find (by_session (Stripe.object_id event)) (orders st1) = Some placed).
  { rewrite Horders, Hobj. apply find_app_none.
    - eapply List.Forall_impl; [|exact Hnone]. intros o Ho. simpl in Ho.
      unfold by_session. apply bool_decide_eq_false. exact Ho.
    - unfold by_session. apply bool_decide_eq_true. exact Hsid. }
  assert (Hnd1 : ids_unique st1).
  { unfold ids_unique. rewrite Horders, List.map_app. simpl. rewrite Hidp.
    apply NoDup_app. split; [exact Hnd|]. split.
    - intros x Hx Hx'. apply list_elem_of_In in Hx, Hx'. simpl in Hx'.
      destruct Hx' as [<-|[]]. exact (Hfresh Hx).
    - apply NoDup_singleton. }
  destruct (webhook_delivery env stripe now wreq st1 event placed Hnd1 Hev Hty Hmatch)
    as (Hresp & _ & Hstock & paid & _ & Hfp & _ & Hstat & Hpaid & Hat & _).
  split; [exact Hresp|]. split.
  - exists paid. rewrite Hidp in Hfp. auto.
  - intros pid. rewrite Hstock. unfold stock_of. rewrite Hprod.
    unfold placed. rewrite ordered_qty_pre_save. simpl.
    unfold o1. rewrite ordered_qty_pre_save. reflexivity.
Qed.

Lemma checkout_then_payment_witness :
  exists paid,
    List.find (by_id "order1") (orders Fixtures.after_payment) = Some paid
    /\ Order.status paid = "Paid"%string
    /\ Order.isPaid paid = true
    /\ Order.paidAt paid = Some 1000.
Proof.
  destruct (checkout_then_payment Fixtures.env0 Fixtures.frontend Fixtures.stripe0
              "order1" Fixtures.checkout_req Fixtures.shop)
    as (sid & placed & Hf & Hsid & _ & _ & Hpay).
  - apply NoDup_nil_2.
  - simpl. tauto.
  - vm_compute. reflexivity.
  - vm_compute in Hf. inversion Hf; subst placed. vm_compute in Hsid.
    inversion Hsid; subst sid.
    destruct (Hpay 1000 (Fixtures.signed "cs_order1")
                {| Stripe.type := "checkout.session.completed";
                   Stripe.object_id := "cs_order1";
                   Stripe.object_payment_intent := Some "pi_cs_order1" |})
      as (_ & Hpaid & _).
    + reflexivity.
    + reflexivity.
    + reflexivity.
    + constructor.
    + exact Hpaid.
Defined.

(** *** The vendors of an order *)

Lemma Set_add_fold_In l members v :
  In v (fold_left Set_add l members) <-> In v members \/ In v l.
Proof.
  revert members. induction l as [|x rest IH]; intros members; simpl.
  - tauto.
  - rewrite IH. unfold Set_add.
    destruct (existsb (String.eqb x) members) eqn:E.
    + apply existsb_exists in E. destruct E as (y & Hy & Heq).
      apply String.eqb_eq in Heq. subst y.
      split; [tauto|]. intros [H|[<-|H]]; auto.
    + rewrite in_app_iff. simpl. tauto.
Qed.

Lemma Set_add_fold_NoDup l members :
  NoDup members -> NoDup (fold_left Set_add l members).
Proof.
  revert members. induction l as [|x rest IH]; intros members Hnd; simpl; [exact Hnd|].
  apply IH. unfold Set_add.
  destruct (existsb (String.eqb x) members) eqn:E; [exact Hnd|].
  apply NoDup_app. split; [exact Hnd|]. split; [|apply NoDup_singleton].
  intros y Hy Hy'. apply list_elem_of_In in Hy, Hy'. simpl in Hy'.
  destruct Hy' as [<-|[]].
  assert (Hex : existsb (String.eqb x) members = true).
  { apply existsb_exists. exists x. split; [exact Hy|apply String.eqb_refl]. }
  congruence.
Qed.

(** X13.  involvedVendors lists each vendor of an order once, and the
    ownership check of the status update agrees with it: a Vendor passes
    the check exactly when the Vendor's id is among the order's
    involvedVendors. *)
Theorem ownership_check_matches_involvedVendors user order :
  role user = "Vendor"%string ->
  NoDup (involvedVendors order)
  /\ (may_update user order = true <-> In (user_id user) (involvedVendors order)).
Proof.
  intros Hrole. split.
  - apply Set_add_fold_NoDup. apply NoDup_nil_2.
  - unfold may_update, involvedVendors. rewrite Hrole. simpl.
    rewrite Set_add_fold_In, existsb_exists, in_map_iff. split.
    + intros (item & Hin & Heq). apply String.eqb_eq in Heq. right. exists item. auto.
    + intros [[]|(item & Heq & Hin)]. exists item. split; [exact Hin|].
      apply String.eqb_eq. exact Heq.
Qed.

Lemma ownership_check_matches_involvedVendors_witness :
  exists order,
    List.find (by_id "order1") (orders Fixtures.after_payment) = Some order
    /\ involvedVendors order = ["vendor1"%string]
    /\ may_update Fixtures.vendor1 order = true.
Proof.
  eexists. split; [vm_compute; reflexivity|].
  split; [vm_compute; reflexivity|].
  apply (ownership_check_matches_involvedVendors Fixtures.vendor1).
  - reflexivity.
  - vm_compute. auto.
Defined.

(** *** Stock status after the last unit is sold *)

(** X14.  When a processed payment event orders exactly what is in stock of
    a product, the product is left with stock 0 and its stockStatus reads
    out_of_stock; when it leaves between one and five units, the
    stockStatus reads low_stock. *)
Theorem sold_out_product_reads_out_of_stock env stripe now req st event order pid p :
  Stripe.webhooks_constructEvent stripe (wh_body req) (wh_signature req)
    (STRIPE_WEBHOOK_SECRET env) = inl event ->
  Stripe.type event = "checkout.session.completed"%string ->
  List.find (by_session (Stripe.object_id event)) (orders st) = Some order ->
  products st !! pid = Some p ->
  ordered_qty pid (Order.items order) <= Product.stock p ->
  exists p',
    products (fst (run (stripeWebhook env stripe now req) st)) !! pid = Some p'
    /\ Product.stock p' = Product.stock p - ordered_qty pid (Order.items order)
    /\ (Product.stock p = ordered_qty pid (Order.items order) ->
        stockStatus p' = "out_of_stock"%string)
    /\ (0 < Product.stock p - ordered_qty pid (Order.items order) <= 5 ->
        stockStatus p' = "low_stock"%string).
Proof.
  intros Hev Hty Hf Hp Hle.
  rewrite (stripeWebhook_matched _ _ _ _ _ _ _ Hev Hty Hf). simpl.
  rewrite decrement_stock_lookup, Hp, ordered_qty_pre_save. simpl.
  eexists. split; [reflexivity|].
  assert (Hs : Product.stock
                 (Product.inc_stock (- ordered_qty pid (Order.items order)) p)
               = Product.stock p - ordered_qty pid (Order.items order)).
  { unfold Product.inc_stock. simpl. lia. }
  split; [exact Hs|]. unfold stockStatus. rewrite Hs. split.
  - intros Heq. replace (Product.stock p - ordered_qty pid (Order.items order)) with 0 by lia.
    reflexivity.
  - intros [Hpos Hfive].
    destruct (Product.stock p - ordered_qty pid (Order.items order) =? 0) eqn:E0;
      [apply Z.eqb_eq in E0; lia|].
    destruct (Product.stock p - ordered_qty pid (Order.items order) <=? 5) eqn:E5;
      [reflexivity|apply Z.leb_gt in E5; lia].
Qed.

Lemma sold_out_product_reads_out_of_stock_witness :
  exists p',
    products Fixtures.after_payment !! "p1"%string = Some p'
    /\ Product.stock p' = 3
    /\ stockStatus p' = "low_stock"%string.
Proof.
  destruct (sold_out_product_reads_out_of_stock Fixtures.env0 Fixtures.stripe0 1000
              (Fixtures.signed "cs_order1") Fixtures.after_checkout
              {| Stripe.type := "checkout.session.completed";
                 Stripe.object_id := "cs_order1";
                 Stripe.object_payment_intent := Some "pi_cs_order1" |}
              (Order.pre_save Fixtures.env0
                 (Order.set_stripeSessionId "cs_order1"
                    (Order.pre_save Fixtures.env0
                       (new_Order "order1" "customer1"
                          (snapshots (products Fixtures.shop)
                             (co_items Fixtures.checkout_req))
                          (Some Fixtures.address) (of_Z 150)))))
              "p1"%string (Fixtures.product "p1" (of_Z 1000) 5))
    as (p' & Hp' & Hstock & _ & Hlow).
  - reflexivity.
  - reflexivity.
  - vm_compute. reflexivity.
  - vm_compute. reflexivity.
  - vm_compute. discriminate.
  - exists p'. split; [exact Hp'|]. split.
    + rewrite Hstock. vm_compute. reflexivity.
    + apply Hlow. vm_compute. split; [reflexivity|discriminate].
Defined.

(** *** The status route *)

Lemma authorise_spec roles user :
  authorise roles user = true <-> In (role user) roles.
Proof.
  unfold authorise. rewrite existsb_exists. split.
  - intros (r & Hin & Heq). apply String.eqb_eq in Heq. congruence.
  - intros Hin. exists (role user). split; [exact Hin|apply String.eqb_refl].
Qed.

(** X15.  The status route turns away every user who is neither Vendor nor
    Admin with 403 before anything else is looked at: the id and the status
    are not validated, the handler is not run and the store is unchanged. *)
Theorem status_route_refuses_other_roles env isMongoId now req st :
  role (us_user req) <> "Vendor"%string ->
  role (us_user req) <> "Admin"%string ->
  put_order_status env isMongoId now req st = (st, AccessDenied (role (us_user req))).
Proof.
  intros Hv Ha. unfold put_order_status.
  replace (vendorOnly (us_user req)) with false; [reflexivity|].
  symmetry. apply not_true_is_false. unfold vendorOnly. rewrite authorise_spec.
  simpl. intros [H|[H|[]]]; congruence.
Qed.

Lemma status_route_refuses_other_roles_witness :
  put_order_status Fixtures.env0 Fixtures.has_24_chars 3000
    (Fixtures.status_req Fixtures.customer "Delivered") Fixtures.after_payment
  = (Fixtures.after_payment, AccessDenied "Customer").
Proof.
  apply (status_route_refuses_other_roles Fixtures.env0 Fixtures.has_24_chars 3000
           (Fixtures.status_req Fixtures.customer "Delivered") Fixtures.after_payment).
  - discriminate.
  - discriminate.
Defined.

Lemma validateOrderStatus_sound s : validateOrderStatus s = true -> In s Order.STATUSES.
Proof.
  unfold validateOrderStatus. intros H. apply andb_prop in H. destruct H as [_ H].
  apply bool_decide_eq_true in H. apply list_elem_of_In in H. exact H.
Qed.

Lemma status_written_valid now s o :
  In s Order.STATUSES -> Order.valid o = true -> Order.valid (status_written now s o) = true.
Proof.
  intros Hs Hv. unfold status_written. destruct (String.eqb s "Delivered").
  - rewrite set_delivered_valid. apply set_status_valid; assumption.
  - apply set_status_valid; assumption.
Qed.

(** X16.  On a store whose orders are valid, a request that comes through
    the status route never fails the schema's validation at save: the
    route's validators have already limited the status to the schema's
    list.  The route answers 200 only to a Vendor or Admin with an id that
    passes isMongoId and an enumerated status; any other answer is 400 from
    the validators, 403 or 404, and leaves the store unchanged. *)
Theorem status_route_outcomes env isMongoId now req st :
  all_valid st ->
  let out := put_order_status env isMongoId now req st in
  snd out <> Handled {| statusCode := 400; body := Failure ValidationError |}
  /\ (route_status (snd out) = 200 ->
      vendorOnly (us_user req) = true
      /\ isMongoId (us_id req) = true
      /\ In (us_status req) Order.STATUSES)
  /\ (route_status (snd out) <> 200 ->
      fst out = st
      /\ (route_status (snd out) = 400 \/ route_status (snd out) = 403
          \/ route_status (snd out) = 404)).
Proof.
  intros Hvalid out. subst out. unfold put_order_status.
  destruct (vendorOnly (us_user req)) eqn:Hrole; simpl.
  2:{ split; [discriminate|]. split; [intros H; lia|]. intros _. auto. }
  destruct (isMongoId (us_id req)) eqn:Hid; simpl.
  2:{ split; [discriminate|]. split; [intros H; lia|]. intros _. auto. }
  destruct (validateOrderStatus (us_status req)) eqn:Hst; simpl.
  2:{ split; [discriminate|]. split; [intros H; lia|]. intros _. auto. }
  apply validateOrderStatus_sound in Hst.
  split; [|split].
  - intros Heq. inversion Heq as [Hresp].
    destruct (updateOrderStatus_refusals env now req st) as [_ Hcase].
    + rewrite Hresp. simpl. lia.
    + destruct Hcase as [(_ & H)|[(o & _ & _ & H)|(o & Hf & _ & Hbad & _)]].
      * rewrite Hresp in H. discriminate.
      * rewrite Hresp in H. discriminate.
      * destruct (find_by_id_Some _ _ _ Hf) as [_ Hin].
        unfold all_valid in Hvalid. rewrite List.Forall_forall in Hvalid.
        rewrite (status_written_valid now _ o Hst (Hvalid o Hin)) in Hbad. discriminate.
  - intros _. auto.
  - intros Hcode.
    destruct (updateOrderStatus_refusals env now req st Hcode) as [Hsame Hcase].
    split; [exact Hsame|].
    destruct Hcase as [(_ & ->)|[(o & _ & _ & ->)|(o & _ & _ & _ & ->)]]; simpl; auto.
Qed.

Lemma status_route_outcomes_witness :
  let out := put_order_status Fixtures.env0 Fixtures.has_24_chars 3000
               (Fixtures.status_req Fixtures.admin "Returned") Fixtures.after_payment in
  snd out <> Handled {| statusCode := 400; body := Failure ValidationError |}
  /\ (route_status (snd out) <> 200 ->
      fst out = Fixtures.after_payment
      /\ (route_status (snd out) = 400 \/ route_status (snd out) = 403
          \/ route_status (snd out) = 404)).
Proof.
  destruct (status_route_outcomes Fixtures.env0 Fixtures.has_24_chars 3000
              (Fixtures.status_req Fixtures.admin "Returned") Fixtures.after_payment)
    as (Hnot & _ & Hrefused).
  - vm_compute. repeat constructor.
  - split; [exact Hnot|exact Hrefused].
Defined.

(** *** Vendor sales *)

Lemma add_line_count lines acc :
  totalOrders (fold_left add_line lines acc) = totalOrders acc + Z.of_nat (length lines).
Proof.
  revert acc. induction lines as [|x rest IH]; intros acc; simpl fold_left.
  - simpl. lia.
  - rewrite IH. simpl totalOrders. simpl length. lia.
Qed.

Lemma summarise_count vendorOrders acc :
  totalOrders
    (fold_left (fun acc order => fold_left add_line (Order.items order) acc) vendorOrders acc)
  = totalOrders acc + Z.of_nat (length (concat (List.map Order.items vendorOrders))).
Proof.
  revert acc. induction vendorOrders as [|o rest IH]; intros acc; simpl fold_left.
  - simpl. lia.
  - rewrite IH, add_line_count. simpl. rewrite length_app. lia.
Qed.

Lemma sales_query_spec vendor o :
  sales_query vendor o = true
  <-> (exists item, In item (Order.items o) /\ OrderItem.vendorId item = vendor)
      /\ Order.status o <> "Pending"%string.
Proof.
  unfold sales_query. rewrite andb_true_iff, existsb_exists, negb_true_iff, String.eqb_neq.
  split; intros [(item & Hin & Heq) Hs]; (split; [exists item; split; [exact Hin|]|exact Hs]).
  - apply String.eqb_eq. exact Heq.
  - apply String.eqb_eq. exact Heq.
Qed.

(** X17.  In a vendor's sales every returned order is one that is not
    Pending, and it is cut down to the vendor's own lines, of which there
    is at least one.  The summary's totalOrders is at least the number of
    orders returned. *)
Theorem vendor_sales_count_lines user st :
  let summary := fst (getVendorSales user st) in
  let vendorOrders := snd (getVendorSales user st) in
  Forall (fun o =>
            Order.status o <> "Pending"%string
            /\ Order.items o <> []
            /\ Forall (fun item => OrderItem.vendorId item = user_id user) (Order.items o))
         vendorOrders
  /\ Z.of_nat (length vendorOrders) <= totalOrders summary.
Proof.
  intros summary vendorOrders.
  assert (Hall : Forall (fun o =>
            Order.status o <> "Pending"%string
            /\ Order.items o <> []
            /\ Forall (fun item => OrderItem.vendorId item = user_id user) (Order.items o))
         vendorOrders).
  { subst vendorOrders. unfold getVendorSales. simpl.
    apply List.Forall_forall. intros o Ho. apply in_map_iff in Ho.
    destruct Ho as (o0 & <- & Hin). apply in_rev in Hin. apply filter_In in Hin.
    destruct Hin as [_ Hq]. apply sales_query_spec in Hq.
    destruct Hq as [(item & Hitem & Hv) Hs]. simpl.
    split; [exact Hs|]. split.
    - assert (Hin : In item (List.filter (fun item => String.eqb (OrderItem.vendorId item)
                                                    (user_id user)) (Order.items o0))).
      { apply filter_In. split; [exact Hitem|]. apply String.eqb_eq. exact Hv. }
      intros Hnil. rewrite Hnil in Hin. destruct Hin.
    - apply List.Forall_forall. intros x Hx. apply filter_In in Hx.
      apply String.eqb_eq. apply Hx. }
  assert (Hcount : totalOrders summary
                   = Z.of_nat (length (concat (List.map Order.items vendorOrders)))).
  { subst summary vendorOrders. unfold getVendorSales. simpl. unfold summarise.
    rewrite summarise_count. simpl. lia. }
  split; [exact Hall|].
  rewrite Hcount. clear Hcount. induction Hall as [|o rest (_ & Hne & _) _ IH]; simpl.
  - lia.
  - rewrite length_app. destruct (Order.items o); [congruence|]. simpl length. lia.
Qed.

Lemma createOrder_appends_pending env frontend stripe newId req st :
  ~ In newId (List.map Order._id (orders st)) ->
  exists added,
    orders (fst (run (createOrder env frontend stripe newId req) st)) = orders st ++ added
    /\ Forall (fun o => Order.status o = "Pending"%string) added.
Proof.
  intros Hfresh.
  destruct (createOrder_outcomes env frontend stripe newId req st)
    as [(resp & -> & _)|[(_ & _ & _ & message & _ & ->)|(_ & _ & _ & session & _ & ->)]];
    simpl.
  - exists []. rewrite app_nil_r. auto.
  - eexists. split.
    + apply upsert_fresh. rewrite pre_save_id. exact Hfresh.
    + constructor; [|constructor]. rewrite pre_save_status. reflexivity.
  - eexists. split.
    + match goal with
      | |- upsert ?b (upsert ?a ?l) = _ =>
          rewrite (upsert_fresh a l) by (rewrite pre_save_id; exact Hfresh)
      end.
      apply upsert_last.
      * rewrite pre_save_id. simpl. reflexivity.
      * rewrite pre_save_id. exact Hfresh.
    + constructor; [|constructor]. rewrite pre_save_status. simpl.
      rewrite pre_save_status. reflexivity.
Qed.

Lemma filter_none {A} (f : A -> bool) l :
  Forall (fun x => f x = false) l -> List.filter f l = [].
Proof.
  induction 1 as [|x rest Hx _ IH]; simpl; [reflexivity|]. rewrite Hx. exact IH.
Qed.

(** X18.  A checkout changes no vendor's sales: whatever its outcome, the
    order it may have stored is Pending, and Pending orders are not part of
    any vendor's sales or summary. *)
Theorem checkout_leaves_vendor_sales_unchanged env frontend stripe newId req st user :
  ~ In newId (List.map Order._id (orders st)) ->
  getVendorSales user (fst (run (createOrder env frontend stripe newId req) st))
  = getVendorSales user st.
Proof.
  intros Hfresh.
  destruct (createOrder_appends_pending env frontend stripe newId req st Hfresh)
    as (added & Horders & Hpending).
  unfold getVendorSales. rewrite Horders, List.filter_app.
  rewrite (filter_none _ added), app_nil_r; [reflexivity|].
  eapply List.Forall_impl; [|exact Hpending]. intros o Ho. simpl in Ho.
  unfold sales_query. rewrite Ho. simpl. apply andb_false_r.
Qed.

Lemma checkout_leaves_vendor_sales_unchanged_witness :
  getVendorSales Fixtures.vendor1 Fixtures.after_checkout
  = getVendorSales Fixtures.vendor1 Fixtures.shop.
Proof.
  apply (checkout_leaves_vendor_sales_unchanged Fixtures.env0 Fixtures.frontend
           Fixtures.stripe0 "order1" Fixtures.checkout_req Fixtures.shop Fixtures.vendor1).
  simpl. tauto.
Defined.

Lemma price_items_vendors rate items :
  List.map OrderItem.vendorId (List.map (Order.price_item rate) items)
  = List.map OrderItem.vendorId items.
Proof. rewrite List.map_map. reflexivity. Qed.

(** X19.  Once the webhook has processed the payment of an order, the order
    is part of the sales of each of its vendors: for every user whose id is
    among the order's involvedVendors, the sales contain the order, Paid,
    cut down to that vendor's lines. *)
Theorem paid_order_shows_in_vendor_sales env stripe now req st event order user :
  Stripe.webhooks_constructEvent stripe (wh_body req) (wh_signature req)
    (STRIPE_WEBHOOK_SECRET env) = inl event ->
  Stripe.type event = "checkout.session.completed"%string ->
  List.find (by_session (Stripe.object_id event)) (orders st) = Some order ->
  In (user_id user) (involvedVendors order) ->
  exists shown,
    In shown (snd (getVendorSales user (fst (run (stripeWebhook env stripe now req) st))))
    /\ Order._id shown = Order._id order
    /\ Order.status shown = "Paid"%string
    /\ Order.isPaid shown = true
    /\ Order.items shown <> []
    /\ List.map OrderItem.product (Order.items shown)
       = List.map OrderItem.product
           (List.filter (fun item => String.eqb (OrderItem.vendorId item) (user_id user))
                        (Order.items order)).
Proof.
  intros Hev Hty Hf Hvendor.
  rewrite (stripeWebhook_matched _ _ _ _ _ _ _ Hev Hty Hf). simpl.
  set (order' := Order.pre_save env
                   (Order.set_paid now (Stripe.object_payment_intent event) order)).
  unfold involvedVendors in Hvendor. apply Set_add_fold_In in Hvendor.
  destruct Hvendor as [[]|Hvendor]. apply in_map_iff in Hvendor.
  destruct Hvendor as (item & Hitem & Hin).
  assert (Hitems : Order.items order'
                   = List.map (Order.price_item (Order.effective_rate env
                                 (Order.set_paid now (Stripe.object_payment_intent event) order)))
                              (Order.items order)).
  { unfold order'. rewrite pre_save_items. reflexivity. }
  assert (Hfilter : forall rate l,
             List.filter (fun item => String.eqb (OrderItem.vendorId item) (user_id user))
                         (List.map (Order.price_item rate) l)
             = List.map (Order.price_item rate)
                 (List.filter (fun item => String.eqb (OrderItem.vendorId item) (user_id user))
                              l)).
  { intros rate l. induction l as [|x rest IH]; simpl; [reflexivity|].
    destruct (String.eqb (OrderItem.vendorId x) (user_id user)); simpl; rewrite IH;
      reflexivity. }
  exists (vendor_lines (user_id user) order').
  split; [|split; [|split; [|split; [|split]]]].
  - apply in_map. apply in_rev. rewrite rev_involutive. apply filter_In. split.
    + apply upsert_In.
    + apply sales_query_spec. split.
      * exists (Order.price_item (Order.effective_rate env
                  (Order.set_paid now (Stripe.object_payment_intent event) order)) item).
        split; [rewrite Hitems; apply in_map; exact Hin|exact Hitem].
      * unfold order'. rewrite pre_save_status. simpl. discriminate.
  - simpl. unfold order'. rewrite pre_save_id. reflexivity.
  - simpl. unfold order'. rewrite pre_save_status. reflexivity.
  - simpl. unfold order'. rewrite pre_save_isPaid. reflexivity.
  - simpl. rewrite Hitems, Hfilter.
    assert (Hmem : In item (List.filter (fun item => String.eqb (OrderItem.vendorId item)
                                                      (user_id user)) (Order.items order))).
    { apply filter_In. split; [exact Hin|]. apply String.eqb_eq. exact Hitem. }
    destruct (List.filter _ (Order.items order)); [destruct Hmem|]. simpl. discriminate.
  - simpl. rewrite Hitems, Hfilter, List.map_map. reflexivity.
Qed.

Lemma paid_order_shows_in_vendor_sales_witness :
  exists shown,
    In shown (snd (getVendorSales Fixtures.vendor1 Fixtures.after_payment))
    /\ Order._id shown = "order1"%string
    /\ Order.status shown = "Paid"%string.
Proof.
  destruct (paid_order_shows_in_vendor_sales Fixtures.env0 Fixtures.stripe0 1000
              (Fixtures.signed "cs_order1") Fixtures.after_checkout
              {| Stripe.type := "checkout.session.completed";
                 Stripe.object_id := "cs_order1";
                 Stripe.object_payment_intent := Some "pi_cs_order1" |}
              (Order.pre_save Fixtures.env0
                 (Order.set_stripeSessionId "cs_order1"
                    (Order.pre_save Fixtures.env0
                       (new_Order "order1" "customer1"
                          (snapshots (products Fixtures.shop)
                             (co_items Fixtures.checkout_req))
                          (Some Fixtures.address) (of_Z 150)))))
              Fixtures.vendor1)
    as (shown & Hin & Hid & Hstatus & _).
  - reflexivity.
  - reflexivity.
  - vm_compute. reflexivity.
  - vm_compute. auto.
  - exists shown. split; [exact Hin|]. split; [|exact Hstatus].
    rewrite Hid. vm_compute. reflexivity.
Defined.
